(** * Employee data scraper: fetch-retry-normalise pipeline and query engine

    A shallow embedding of [scraper.py].  The two functions of the core,
    [scrape_employees] and [dynamic_cli_query], are written over a small
    model of the Python values and of the pandas operations they call.

    Conventions of the model.
    - Python strings are byte strings (UTF-8); [str.lower] is modelled on
      the ASCII range, which is all that the test ['x' in ...] can see:
      no other character lower-cases to ['x'].
    - A JSON scalar is [PNone], [PInt] or [PStr]; [PNaN] is the float
      [nan] pandas stores for a missing key and [PNA] is [pd.NA].
      Booleans, fractional numbers and nested arrays inside a record are
      not part of the model.
    - Numbers are carried exactly.  pandas keeps a column that holds a
      missing value as float64, so the model is faithful for integers of
      magnitude at most 2^53 (every phone number of up to 15 digits).
    - What a run does to the outside world (requests, printed lines,
      sleeps) is returned as a list of events, in order.  The frames a
      query handles live in a store and are named by references, so
      that "the table is not modified" is a statement about the store.
    - The main block is modelled with the dashboard as a procedure it is
      given; of [launch_pygwalker_ui] itself the model covers the
      sidebar filters and the first metric, not the averages and the
      charts. *)

From Stdlib Require Import ZArith List String Ascii Bool Lia Permutation.
From Stdlib Require Import DecimalString.
Import ListNotations.

Open Scope string_scope.
Open Scope Z_scope.

(** ** Python values and exceptions *)

Inductive pyval : Type :=
| PNone
| PNaN
| PNA
| PInt (z : Z)
| PStr (s : string).

(** The exception classes the program can meet, with their messages
    abridged.  Only [RequestException] (and its subclasses, all folded
    into it) is caught by the retry loop. *)
Inductive exn : Type :=
| RequestException (cause : string)
| KeyError (key : string)
| TypeError (msg : string)
| ValueError (msg : string).

Definition is_request_exception (e : exn) : bool :=
  match e with
  | RequestException _ => true
  | _ => false
  end.

(** Computations that may raise. *)
Inductive except (A : Type) : Type :=
| Ok (a : A)
| Raise (e : exn).

Arguments Ok {A} a.
Arguments Raise {A} e.

Definition bind {A B : Type} (m : except A) (k : A -> except B) : except B :=
  match m with
  | Ok a => k a
  | Raise e => Raise e
  end.

Notation "x <- m ;; k" := (bind m (fun x => k))
  (at level 61, m at next level, right associativity).

(** [mapM f xs] runs [f] on the elements from left to right and stops at
    the first one that raises, as an element-wise pandas operation does. *)
Fixpoint mapM {A B : Type} (f : A -> except B) (xs : list A) : except (list B) :=
  match xs with
  | [] => Ok []
  | x :: xs' => y <- f x ;; ys <- mapM f xs' ;; Ok (y :: ys)
  end.

(** ** Characters and strings *)

Definition code (c : ascii) : Z := Z.of_nat (nat_of_ascii c).

Definition is_digit (c : ascii) : bool := (48 <=? code c) && (code c <=? 57).

(** [isspace_ascii] of the pandas tokenizer: space and [\t \n \v \f \r]. *)
Definition is_space (c : ascii) : bool :=
  (code c =? 32) || ((9 <=? code c) && (code c <=? 13)).

(** Python's own notion of ASCII white space adds the separators
    [0x1c .. 0x1f]. *)
Definition is_pyspace (c : ascii) : bool :=
  is_space c || ((28 <=? code c) && (code c <=? 31)).

Definition lower_ascii (c : ascii) : ascii :=
  if (65 <=? code c) && (code c <=? 90)
  then ascii_of_nat (nat_of_ascii c + 32)
  else c.

(** [s.lower()] *)
Fixpoint lower (s : string) : string :=
  match s with
  | EmptyString => EmptyString
  | String c s' => String (lower_ascii c) (lower s')
  end.

(** [c in s] for a one-character needle. *)
Fixpoint contains (c : ascii) (s : string) : bool :=
  match s with
  | EmptyString => false
  | String d s' => Ascii.eqb d c || contains c s'
  end.

Definition string_of_Z (z : Z) : string := NilZero.string_of_int (Z.to_int z).

(** ** Column data types *)

Inductive dtype : Type := object_ | int64 | float64.

Definition is_int (v : pyval) : bool :=
  match v with PInt _ => true | _ => false end.

Definition is_nan (v : pyval) : bool :=
  match v with PNaN => true | _ => false end.

Definition is_number_or_missing (v : pyval) : bool :=
  match v with PInt _ | PNaN | PNone => true | _ => false end.

(** The conversion pandas applies to each column when a frame is built
    ([maybe_convert_objects]): a column of integers with missing values
    becomes float64 and its [None]s become [nan]; a column holding a
    string, or nothing but [None], stays as it is. *)
Definition infer_objects (col : list pyval) : list pyval :=
  if forallb is_number_or_missing col && existsb (fun v => is_int v || is_nan v) col
  then map (fun v => match v with PNone => PNaN | _ => v end) col
  else col.

(** The dtype of a stored column. *)
Definition dtype_of (col : list pyval) : dtype :=
  match col with
  | [] => object_
  | _ :: _ =>
      if forallb is_int col then int64
      else if forallb (fun v => is_int v || is_nan v) col then float64
      else object_
  end.

(** [str(p)] for an element [p] of a column of dtype [dt]: the elements
    of a float64 column are floats, so an integral one prints with a
    trailing [.0]. *)
Definition py_str (dt : dtype) (p : pyval) : string :=
  match p with
  | PNone => "None"
  | PNaN => "nan"
  | PNA => "<NA>"
  | PInt z =>
      match dt with
      | float64 => string_of_Z z ++ ".0"
      | _ => string_of_Z z
      end
  | PStr s => s
  end.

(** ** Designation *)

(** [get_designation] as annotated in the source, on integers. *)
Definition get_designation (exp : Z) : string :=
  if exp <? 3 then "System Engineer"
  else if (3 <=? exp) && (exp <? 5) then "Data Engineer"
  else if (5 <=? exp) && (exp <? 10) then "Senior Data Engineer"
  else "Lead".

(** Python's [v < k] and [k <= v] against an integer literal: defined on
    numbers, [False] on [nan], a [TypeError] on [None], on a string and
    on [pd.NA] (whose truth value is ambiguous). *)
Definition py_lt_int (v : pyval) (k : Z) : except bool :=
  match v with
  | PInt z => Ok (z <? k)
  | PNaN => Ok false
  | PNone => Raise (TypeError "'<' not supported between instances of 'NoneType' and 'int'")
  | PStr _ => Raise (TypeError "'<' not supported between instances of 'str' and 'int'")
  | PNA => Raise (TypeError "boolean value of NA is ambiguous")
  end.

Definition py_int_le (k : Z) (v : pyval) : except bool :=
  match v with
  | PInt z => Ok (k <=? z)
  | PNaN => Ok false
  | PNone => Raise (TypeError "'<=' not supported between instances of 'int' and 'NoneType'")
  | PStr _ => Raise (TypeError "'<=' not supported between instances of 'int' and 'str'")
  | PNA => Raise (TypeError "boolean value of NA is ambiguous")
  end.

(** The chained comparison [lo <= v < hi], evaluated left to right with
    short circuit. *)
Definition py_between (lo : Z) (v : pyval) (hi : Z) : except bool :=
  a <- py_int_le lo v ;;
  if a then py_lt_int v hi else Ok false.

(** [get_designation] as it runs under [Series.apply], where the element
    is whatever the column holds. *)
Definition get_designation_py (exp : pyval) : except string :=
  c1 <- py_lt_int exp 3 ;;
  if c1 then Ok "System Engineer" else
  c2 <- py_between 3 exp 5 ;;
  if c2 then Ok "Data Engineer" else
  c3 <- py_between 5 exp 10 ;;
  if c3 then Ok "Senior Data Engineer" else
  Ok "Lead".

(** The bands of the designation table, as the specification lists them. *)
Inductive band : Z -> string -> Prop :=
| band_system : forall y, y < 3 -> band y "System Engineer"
| band_data : forall y, 3 <= y < 5 -> band y "Data Engineer"
| band_senior : forall y, 5 <= y < 10 -> band y "Senior Data Engineer"
| band_lead : forall y, 10 <= y -> band y "Lead".

(** ** Numeric parsing *)

(** What [pd.to_numeric] makes of one element: a missing value, an
    integer, a decimal [mant * 10 ^ exp10] read with a fraction or an
    exponent, or an infinity. *)
Inductive numeric : Type :=
| NumNaN
| NumInt (z : Z)
| NumDec (mant exp10 : Z)
| NumInf.

Fixpoint skip_spaces (s : string) : string :=
  match s with
  | String c s' => if is_space c then skip_spaces s' else s
  | EmptyString => s
  end.

(** Steps over the next character when it passes the test. *)
Definition take_char (p : ascii -> bool) (s : string) : option string :=
  match s with
  | String c s' => if p c then Some s' else None
  | EmptyString => None
  end.

(** An optional sign; [true] for a minus. *)
Definition take_sign (s : string) : bool * string :=
  match take_char (Ascii.eqb "-") s with
  | Some s' => (true, s')
  | None =>
      match take_char (Ascii.eqb "+") s with
      | Some s' => (false, s')
      | None => (false, s)
      end
  end.

(** Reads a run of digits; returns the number read on top of [acc], how
    many digits were read on top of [n], and the rest of the text. *)
Fixpoint take_digits (s : string) (acc : Z) (n : nat) : Z * nat * string :=
  match s with
  | String c s' =>
      if is_digit c then take_digits s' (acc * 10 + (code c - 48)) (S n)
      else (acc, n, s)
  | EmptyString => (acc, n, s)
  end.

Definition signed (neg : bool) (z : Z) : Z := if neg then - z else z.

Definition is_exp_marker (c : ascii) : bool :=
  Ascii.eqb c "e" || Ascii.eqb c "E".

(** The tail of a numeral: only white space may follow. *)
Definition at_end (s : string) : bool :=
  match skip_spaces s with
  | EmptyString => true
  | String _ _ => false
  end.

(** The end of a numeral whose digits are read: an optional exponent
    (a marker must be followed by digits), white space, end of text.
    A numeral without fraction and exponent is an integer and is then
    read by [int()]. *)
Definition read_exponent (neg : bool) (mant : Z) (nf : nat) (maybe_int : bool)
    (p : string) : option numeric :=
  match take_char is_exp_marker p with
  | Some q =>
      let '(eneg, q1) := take_sign q in
      let '(ev, ne, q2) := take_digits q1 0 0 in
      if (ne =? 0)%nat then None
      else if at_end q2
      then Some (NumDec (signed neg mant) (signed eneg ev - Z.of_nat nf))
      else None
  | None =>
      if at_end p then
        Some (if maybe_int then NumInt (signed neg mant)
              else NumDec (signed neg mant) (- Z.of_nat nf))
      else None
  end.

(** The digits of a numeral and an optional fraction; at least one digit
    is required. *)
Definition read_digits (neg : bool) (p : string) : option numeric :=
  let '(ip, ni, p2) := take_digits p 0 0 in
  let '(mant, nf, p3, maybe_int) :=
    match take_char (Ascii.eqb ".") p2 with
    | Some q => let '(m, k, q') := take_digits q ip 0 in (m, k, q', false)
    | None => (ip, O, p2, true)
    end in
  if (ni + nf =? 0)%nat then None
  else read_exponent neg mant nf maybe_int p3.

(** [to_double] of the pandas tokenizer ([precise_xstrtod] with decimal
    point ['.'], exponent marker ['E'], no thousands separator, trailing
    white space skipped): white space, sign, digits, an optional
    fraction, an optional exponent, white space, end of text.  [None]
    when the text is not of that form. *)
Definition to_double (s : string) : option numeric :=
  let '(neg, p) := take_sign (skip_spaces s) in
  read_digits neg p.

(** The words [floatify] accepts when [to_double] fails. *)
Definition is_inf_word (s : string) : bool :=
  let l := lower s in
  String.eqb l "inf" || String.eqb l "+inf" || String.eqb l "-inf" ||
  String.eqb l "infinity" || String.eqb l "+infinity" || String.eqb l "-infinity".

Definition to_numeric_str (s : string) : numeric :=
  match to_double s with
  | Some n => n
  | None => if is_inf_word s then NumInf else NumNaN
  end.

(** [pd.to_numeric(..., errors='coerce')] on one element: what cannot be
    read becomes [nan] instead of raising. *)
Definition to_numeric_coerce (v : pyval) : numeric :=
  match v with
  | PNone | PNaN | PNA => NumNaN
  | PInt z => NumInt z
  | PStr s => to_numeric_str s
  end.

Definition unsafe_cast : exn :=
  TypeError "cannot safely cast non-equivalent float64 to int64".

(** [.astype('Int64')] on one element of the numeric column: [nan]
    becomes [pd.NA], an integral value its integer, and a value with a
    fractional part (or an infinity) makes the cast of the whole column
    raise. *)
Definition Int64_of (n : numeric) : except pyval :=
  match n with
  | NumNaN => Ok PNA
  | NumInt z => Ok (PInt z)
  | NumDec m e =>
      if 0 <=? e then Ok (PInt (m * 10 ^ e))
      else if m mod 10 ^ (- e) =? 0 then Ok (PInt (m / 10 ^ (- e)))
      else Raise unsafe_cast
  | NumInf => Raise unsafe_cast
  end.

Definition astype_Int64 (col : list numeric) : except (list pyval) :=
  mapM Int64_of col.

(** ** Python's [int()] on text *)

Fixpoint skip_pyspaces (s : string) : string :=
  match s with
  | String c s' => if is_pyspace c then skip_pyspaces s' else s
  | EmptyString => s
  end.

(** Digits with single underscores between them, as [int()] admits. *)
Fixpoint int_digits (s : string) (acc : Z) (after_digit : bool) : option (Z * string) :=
  match s with
  | String c s' =>
      if is_digit c then int_digits s' (acc * 10 + (code c - 48)) true
      else if Ascii.eqb c "_" then
        if after_digit then
          match s' with
          | String d _ => if is_digit d then int_digits s' acc false else None
          | EmptyString => None
          end
        else None
      else if after_digit then Some (acc, s) else None
  | EmptyString => if after_digit then Some (acc, s) else None
  end.

Definition py_int_of_string (s : string) : option Z :=
  let '(neg, p) := take_sign (skip_pyspaces s) in
  match int_digits p 0 false with
  | Some (z, rest) =>
      match skip_pyspaces rest with
      | EmptyString => Some (signed neg z)
      | String _ _ => None
      end
  | None => None
  end.

(** [int(v)], as [.astype(int)] calls it on each element of an object
    column. *)
Definition py_int (v : pyval) : except pyval :=
  match v with
  | PInt z => Ok (PInt z)
  | PStr s =>
      match py_int_of_string s with
      | Some z => Ok (PInt z)
      | None => Raise (ValueError "invalid literal for int() with base 10")
      end
  | PNaN => Raise (ValueError "cannot convert float NaN to integer")
  | PNone => Raise (TypeError "int() argument must be a string, a bytes-like object or a real number, not 'NoneType'")
  | PNA => Raise (TypeError "int() argument must be a string, a bytes-like object or a real number, not 'NAType'")
  end.

(** ** Data frames *)

(** A frame is its column labels and its rows ([df.values]), each row
    holding one cell per column.  The labels of the frames this program
    builds are pairwise distinct. *)
Record DataFrame : Type := {
  columns : list string;
  values : list (list pyval)
}.

Definition empty_frame : DataFrame := {| columns := []; values := [] |}.

Fixpoint index_of (name : string) (cols : list string) : option nat :=
  match cols with
  | [] => None
  | c :: cs =>
      if String.eqb c name then Some O else option_map S (index_of name cs)
  end.

(** [name in df.columns] *)
Definition has_column (df : DataFrame) (name : string) : bool :=
  match index_of name (columns df) with
  | Some _ => true
  | None => false
  end.

Definition cell (i : nat) (r : list pyval) : pyval := nth i r PNaN.

Definition pick (idx : list nat) (r : list pyval) : list pyval :=
  map (fun i => cell i r) idx.

(** [df[name]]: the column as a list, or [KeyError]. *)
Definition getitem (df : DataFrame) (name : string) : except (list pyval) :=
  match index_of name (columns df) with
  | Some i => Ok (map (cell i) (values df))
  | None => Raise (KeyError name)
  end.

Fixpoint put (i : nat) (v : pyval) (r : list pyval) : list pyval :=
  match r, i with
  | [], _ => []
  | _ :: r', O => v :: r'
  | x :: r', S i' => x :: put i' v r'
  end.

(** [df[name] = vals]: replaces the column when the label exists and
    appends it otherwise. *)
Definition setitem (df : DataFrame) (name : string) (vals : list pyval) : DataFrame :=
  match index_of name (columns df) with
  | Some i =>
      {| columns := columns df;
         values := map (fun rv => put i (snd rv) (fst rv)) (combine (values df) vals) |}
  | None =>
      {| columns := (columns df ++ [name])%list;
         values := map (fun rv => (fst rv ++ [snd rv])%list) (combine (values df) vals) |}
  end.

(** [df[names]] for a list of labels: the named columns in the order
    asked; a missing label is a [KeyError]. *)
Definition getitem_list (df : DataFrame) (names : list string) : except DataFrame :=
  idx <- mapM (fun n => match index_of n (columns df) with
                        | Some i => Ok i
                        | None => Raise (KeyError n)
                        end) names ;;
  Ok {| columns := names; values := map (pick idx) (values df) |}.

(** Rows from columns: row [k] takes the [k]-th element of each. *)
Fixpoint transpose (n : nat) (cols : list (list pyval)) : list (list pyval) :=
  match n with
  | O => []
  | S n' => map (hd PNaN) cols :: transpose n' (map (@tl pyval) cols)
  end.

Definition from_columns (n : nat) (cs : list (string * list pyval)) : DataFrame :=
  {| columns := map fst cs; values := transpose n (map snd cs) |}.

(** ** Response bodies and [pd.DataFrame(data)] *)

Inductive json_scalar : Type :=
| JNull
| JInt (z : Z)
| JString (s : string).

Definition py_of_json (j : json_scalar) : pyval :=
  match j with
  | JNull => PNone
  | JInt z => PInt z
  | JString s => PStr s
  end.

(** A JSON object of scalars, as the [dict] Python reads it (keys
    distinct, in order of appearance). *)
Definition record : Type := list (string * json_scalar).

Inductive member : Type :=
| MScalar (v : json_scalar)
| MArray (vs : list json_scalar).

(** The parsed bodies covered: a scalar, an array of objects, and an
    object whose members are scalars or arrays of scalars. *)
Inductive body : Type :=
| JScalar (v : json_scalar)
| JRecords (rs : list record)
| JObject (ms : list (string * member)).

Fixpoint assoc {A : Type} (k : string) (l : list (string * A)) : option A :=
  match l with
  | [] => None
  | (k', v) :: l' => if String.eqb k' k then Some v else assoc k l'
  end.

Definition mem (k : string) (ks : list string) : bool :=
  existsb (String.eqb k) ks.

(** Appends to [seen] the keys of [ks] it does not hold yet. *)
Fixpoint add_keys (seen ks : list string) : list string :=
  match ks with
  | [] => seen
  | k :: ks' => add_keys (if mem k seen then seen else (seen ++ [k])%list) ks'
  end.

(** The column labels of a frame built from records: the union of their
    keys, in order of first appearance. *)
Definition record_keys (rs : list record) : list string :=
  fold_left (fun seen r => add_keys seen (map fst r)) rs [].

(** The column of key [k]: a record without the key contributes [nan]. *)
Definition record_column (rs : list record) (k : string) : list pyval :=
  infer_objects
    (map (fun r => match assoc k r with
                   | Some j => py_of_json j
                   | None => PNaN
                   end) rs).

Definition array_lengths (ms : list (string * member)) : list nat :=
  flat_map (fun km => match snd km with
                      | MArray vs => [List.length vs]
                      | MScalar _ => []
                      end) ms.

Definition member_column (n : nat) (m : member) : list pyval :=
  infer_objects
    match m with
    | MScalar v => repeat (py_of_json v) n
    | MArray vs => map py_of_json vs
    end.

(** [pd.DataFrame(data)].  [None] gives the empty frame; any other
    scalar is refused; an array of objects gives one row per object; an
    object is read column-wise: its arrays must agree in length, its
    scalars are repeated to that length, and scalars alone are refused. *)
Definition DataFrame_new (data : body) : except DataFrame :=
  match data with
  | JScalar JNull => Ok empty_frame
  | JScalar _ => Raise (ValueError "DataFrame constructor not properly called!")
  | JRecords rs =>
      Ok (from_columns (List.length rs)
            (map (fun k => (k, record_column rs k)) (record_keys rs)))
  | JObject [] => Ok empty_frame
  | JObject ms =>
      match array_lengths ms with
      | [] => Raise (ValueError "If using all scalar values, you must pass an index")
      | n :: ls =>
          if forallb (Nat.eqb n) ls
          then Ok (from_columns n
                     (map (fun km => (fst km, member_column n (snd km))) ms))
          else Raise (ValueError "All arrays must be of the same length")
      end
  end.

(** ** Column operations used by the normaliser *)

Definition is_missing (v : pyval) : bool :=
  match v with PNone | PNaN | PNA => true | _ => false end.

(** [a + b] on two elements, a missing operand giving [nan] (pandas
    masks the missing positions of an object column). *)
Definition add_elem (a b : pyval) : except pyval :=
  if is_missing a || is_missing b then Ok PNaN else
  match a, b with
  | PStr x, PStr y => Ok (PStr (x ++ y))
  | PInt x, PInt y => Ok (PInt (x + y))
  | PStr _, _ => Raise (TypeError "can only concatenate str to str")
  | _, _ => Raise (TypeError "unsupported operand type(s) for +: 'int' and 'str'")
  end.

(** [col + s] for a string literal [s]: refused on a numeric column. *)
Definition series_add_str (col : list pyval) (s : string) : except (list pyval) :=
  match dtype_of col with
  | object_ => mapM (fun v => add_elem v (PStr s)) col
  | _ => Raise (TypeError "unsupported operand type(s) for +: 'int' and 'str'")
  end.

(** [left + right], element by element. *)
Definition series_add (left right : list pyval) : except (list pyval) :=
  mapM (fun ab => add_elem (fst ab) (snd ab)) (combine left right).

(** [col.astype(str)] *)
Definition astype_str (dt : dtype) (col : list pyval) : list pyval :=
  map (fun v => PStr (py_str dt v)) col.

(** [col.astype(int)]: a float64 column holds a [nan] and is refused; an
    object column is converted element by element with [int()]. *)
Definition astype_int (col : list pyval) : except (list pyval) :=
  match dtype_of col with
  | int64 => Ok col
  | float64 => Raise (ValueError "Cannot convert non-finite values (NA or inf) to integer")
  | object_ => mapM py_int col
  end.

(** The anonymous function of the phone rule:
    [lambda p: None if 'x' in str(p).lower() else p]. *)
Definition phone_lambda (dt : dtype) (p : pyval) : pyval :=
  if contains "x" (lower (py_str dt p)) then PNone else p.

(** The whole phone rule on a column:
    [pd.to_numeric(col.apply(phone_lambda), errors='coerce').astype('Int64')]. *)
Definition phone_clean_of (phone : list pyval) : except (list pyval) :=
  astype_Int64 (map to_numeric_coerce (map (phone_lambda (dtype_of phone)) phone)).

Definition output_columns : list string :=
  ["full_name"; "email"; "phone_clean"; "gender"; "age"; "job_title";
   "years_of_experience"; "salary"; "department"; "designation"].

(** [df[name] = df[name].astype(str)] *)
Definition cast_str (df : DataFrame) (name : string) : except DataFrame :=
  c <- getitem df name ;;
  Ok (setitem df name (astype_str (dtype_of c) c)).

(** [df[name] = df[name].astype(int)] *)
Definition cast_int (df : DataFrame) (name : string) : except DataFrame :=
  c <- getitem df name ;;
  c' <- astype_int c ;;
  Ok (setitem df name c').

(** ** The normaliser: the body of the [try] block after [response.json()] *)

Definition normalize (data : body) : except DataFrame :=
  df <- DataFrame_new data ;;
  (* 1. designation *)
  yoe <- getitem df "years_of_experience" ;;
  designation <- mapM get_designation_py yoe ;;
  let df := setitem df "designation" (map PStr designation) in
  (* 2. full name *)
  first <- getitem df "first_name" ;;
  first_sp <- series_add_str first " " ;;
  last <- getitem df "last_name" ;;
  full_name <- series_add first_sp last ;;
  let df := setitem df "full_name" full_name in
  (* 3. phone *)
  phone <- getitem df "phone" ;;
  phone_clean <- phone_clean_of phone ;;
  let df := setitem df "phone_clean" phone_clean in
  (* 4. data types *)
  full <- getitem df "full_name" ;;
  let df := setitem df "full_name" (astype_str object_ full) in
  df <- cast_str df "email" ;;
  df <- cast_str df "gender" ;;
  df <- cast_str df "job_title" ;;
  df <- cast_str df "department" ;;
  df <- cast_int df "age" ;;
  df <- cast_int df "years_of_experience" ;;
  df <- cast_int df "salary" ;;
  getitem_list df output_columns.

(** ** The retry loop *)

(** What the run does to the outside world, in order. *)
Inductive event : Type :=
| HttpGet (url : string) (timeout : Z)
| Print (attempt_no : Z) (e : exn)
| Sleep (seconds : Z).

Section Network.

(** The network: what the [attempt]-th request of a run yields once
    [requests.get], [raise_for_status] and [response.json] are through,
    either the parsed body or the exception one of them raised. *)
Variable requests_get : string -> nat -> except body.

(** The iterations [attempt, attempt + 1, ...] of
    [for attempt in range(max_retries)], [remaining] of them left. *)
Fixpoint attempts (url : string) (max_retries : Z) (attempt remaining : nat)
  : list event * except DataFrame :=
  match remaining with
  | O => ([], Raise (ValueError "Failed to fetch data after retries"))
  | S remaining' =>
      match (data <- requests_get url attempt ;; normalize data) with
      | Ok df => ([HttpGet url 10], Ok df)
      | Raise e =>
          if is_request_exception e then
            if Z.of_nat attempt =? max_retries - 1 then
              ([HttpGet url 10; Print (Z.of_nat attempt + 1) e], Raise e)
            else
              let '(tr, out) := attempts url max_retries (S attempt) remaining' in
              (HttpGet url 10 :: Print (Z.of_nat attempt + 1) e
                 :: Sleep (2 ^ Z.of_nat attempt) :: tr, out)
          else ([HttpGet url 10], Raise e)
      end
  end.

Definition scrape_employees (url : string) (max_retries : Z)
  : list event * except DataFrame :=
  attempts url max_retries O (Z.to_nat max_retries).

End Network.

(** The sleeps of a run, in order. *)
Definition sleeps (tr : list event) : list Z :=
  flat_map (fun ev => match ev with Sleep s => [s] | _ => [] end) tr.

(** The number of requests a run issued. *)
Definition requests_made (tr : list event) : nat :=
  List.length (filter (fun ev => match ev with HttpGet _ _ => true | _ => false end) tr).

(** ** The query engine *)

Notation "' pat <- m ;; k" :=
  (bind m (fun x => match x with pat => k end))
  (at level 61, pat pattern, m at next level, right associativity).

(** A filter value: a string or an integer, the two kinds of value a
    normalised table stores. *)
Inductive value : Type :=
| VStr (s : string)
| VInt (z : Z).

Definition stored (v : value) : pyval :=
  match v with
  | VStr s => PStr s
  | VInt z => PInt z
  end.

(** One element of [col == value]: equal values of the same kind.  A
    missing cell compares unequal (or [pd.NA], which a mask reads as
    [False]). *)
Definition cell_eq (c : pyval) (v : value) : bool :=
  match c, v with
  | PStr a, VStr b => String.eqb a b
  | PInt a, VInt b => a =? b
  | _, _ => false
  end.

(** The rows a boolean mask keeps, in their order. *)
Definition select (mask : list bool) (rs : list (list pyval)) : list (list pyval) :=
  map fst (filter snd (combine rs mask)).

(** [df.head(n)]: the first [n] rows, or all but the last [-n] when [n]
    is negative. *)
Definition head (n : Z) (df : DataFrame) : DataFrame :=
  {| columns := columns df;
     values := if 0 <=? n then firstn (Z.to_nat n) (values df)
               else firstn (List.length (values df) - Z.to_nat (- n)) (values df) |}.

(** The frames of the process live in a store and are named by
    references; an operation that builds a frame allocates it. *)
Definition heap : Type := list DataFrame.
Definition ref : Type := nat.

Definition deref (h : heap) (r : ref) : DataFrame := nth r h empty_frame.

Definition alloc (df : DataFrame) (h : heap) : ref * heap :=
  (List.length h, (h ++ [df])%list).

(** [df.copy()] *)
Definition copy (r : ref) (h : heap) : ref * heap := alloc (deref h r) h.

(** [frame[frame[col] == value]] *)
Definition getitem_eq (r : ref) (col : string) (v : value) (h : heap)
  : except (ref * heap) :=
  let df := deref h r in
  c <- getitem df col ;;
  let mask := map (fun x => cell_eq x v) c in
  Ok (alloc {| columns := columns df; values := select mask (values df) |} h).

(** The loop [for col, value in filters.items()]. *)
Fixpoint apply_filters (items : list (string * value)) (result_df : ref) (h : heap)
  : except (ref * heap) :=
  match items with
  | [] => Ok (result_df, h)
  | (col, v) :: items' =>
      if has_column (deref h result_df) col then
        '(r, h') <- getitem_eq result_df col v h ;;
        apply_filters items' r h'
      else apply_filters items' result_df h
  end.

(** What the function prints: the two counts of the header line and the
    frame whose text follows. *)
Record report : Type := {
  displaying : Z;
  total : Z;
  printed : DataFrame
}.

(** The block [if filters: ...].  [None] and an empty mapping are both
    false. *)
Definition filter_step (filters : option (list (string * value)))
    (result_df : ref) (h : heap) : except (ref * heap) :=
  match filters with
  | Some ((_ :: _) as items) => apply_filters items result_df h
  | _ => Ok (result_df, h)
  end.

(** The block [if columns: ...].  [None] and an empty list are both
    false. *)
Definition project_step (columns' : option (list string))
    (result_df : ref) (h : heap) : except (ref * heap) :=
  match columns' with
  | Some ((_ :: _) as cs) =>
      let cols_to_show := filter (has_column (deref h result_df)) cs in
      d <- getitem_list (deref h result_df) cols_to_show ;;
      Ok (alloc d h)
  | _ => Ok (result_df, h)
  end.

(** [dynamic_cli_query(df, rows, filters, columns)] *)
Definition dynamic_cli_query (df : ref) (rows : Z)
    (filters : option (list (string * value))) (columns' : option (list string))
    (h : heap) : except (report * heap) :=
  let '(result_df, h) := copy df h in
  '(result_df, h) <- filter_step filters result_df h ;;
  '(result_df, h) <- project_step columns' result_df h ;;
  let n := Z.of_nat (List.length (values (deref h result_df))) in
  let '(shown, h) := alloc (head rows (deref h result_df)) h in
  Ok ({| displaying := Z.min rows n; total := n; printed := deref h shown |}, h).

(** ** Vocabulary of the statements *)

(** The events of the failed attempts [attempt, attempt + 1, ...] whose
    causes are [causes], each followed by its backoff sleep. *)
Fixpoint retried (url : string) (attempt : nat) (causes : list string) : list event :=
  match causes with
  | [] => []
  | c :: causes' =>
      HttpGet url 10 :: Print (Z.of_nat attempt + 1) (RequestException c)
        :: Sleep (2 ^ Z.of_nat attempt) :: retried url (S attempt) causes'
  end.

(** The network fails with [causes] on the first attempts of a run. *)
Definition fails_first (net : string -> nat -> except body) (url : string)
    (causes : list string) : Prop :=
  forall j c, nth_error causes j = Some c -> net url j = Raise (RequestException c).

(** The body is a JSON array of objects. *)
Definition is_records (data : body) : bool :=
  match data with
  | JRecords _ => true
  | _ => false
  end.

(** The cell of a row under a column label. *)
Definition field (df : DataFrame) (name : string) (row : list pyval) : option pyval :=
  match index_of name (columns df) with
  | Some i => Some (cell i row)
  | None => None
  end.

(** A row satisfies the filters: under every filter field that names a
    column of the frame it stores exactly the filter value. *)
Definition satisfies (df : DataFrame) (items : list (string * value))
    (row : list pyval) : Prop :=
  forall col v c, In (col, v) items -> field df col row = Some c -> c = stored v.

(** The same as a test. *)
Definition keeps (df : DataFrame) (items : list (string * value))
    (row : list pyval) : bool :=
  forallb (fun cv => match field df (fst cv) row with
                     | Some c => cell_eq c (snd cv)
                     | None => true
                     end) items.

(** The items of an optional mapping, the labels of an optional list. *)
Definition items_of {A : Type} (o : option (list A)) : list A :=
  match o with
  | Some l => l
  | None => []
  end.

(** The requested labels the frame has, in the order requested. *)
Definition known (df : DataFrame) (names : list string) : list string :=
  filter (has_column df) names.

(** The cells of a row under the given labels, which the frame has. *)
Definition project (df : DataFrame) (names : list string) (row : list pyval)
  : list pyval :=
  flat_map (fun n => match field df n row with
                     | Some c => [c]
                     | None => []
                     end) names.

(** Characters a numeral may hold: digits, signs, the point, the exponent
    marker and white space. *)
Definition numeral_char (c : ascii) : bool :=
  is_digit c || is_space c || Ascii.eqb c "+" || Ascii.eqb c "-"
  || Ascii.eqb c "." || is_exp_marker c.

Fixpoint all_chars (p : ascii -> bool) (s : string) : bool :=
  match s with
  | EmptyString => true
  | String c s' => p c && all_chars p s'
  end.

(** The value of a run of digits. *)
Fixpoint digits_value (s : string) (acc : Z) : Z :=
  match s with
  | EmptyString => acc
  | String c s' => digits_value s' (acc * 10 + (code c - 48))
  end.

(** The phone cell of a row of the normalised table. *)
Definition phone_clean_at (out : DataFrame) (i : nat) : option pyval :=
  match nth_error (values out) i with
  | Some row => field out "phone_clean" row
  | None => None
  end.

(** Frames whose rows all have one cell per column. *)
Definition rectangular (df : DataFrame) : Prop :=
  Forall (fun r => List.length r = List.length (columns df)) (values df).

(** The required numeric fields. *)
Definition required_numeric : list string :=
  ["age"; "years_of_experience"; "salary"].

(** The fields of a raw record the normaliser reads. *)
Definition input_columns : list string :=
  ["years_of_experience"; "first_name"; "last_name"; "phone"; "email";
   "gender"; "job_title"; "department"; "age"; "salary"].

(** The body holds no array at all: it is a JSON scalar, or a JSON
    object whose members are all scalars. *)
Definition holds_no_array (data : body) : Prop :=
  (exists v, data = JScalar v)
  \/ (exists ms, data = JObject ms /\ array_lengths ms = []).

(** The frame built from the body lacks a column the normaliser reads. *)
Definition lacks_column (data : body) : Prop :=
  exists df name,
    DataFrame_new data = Ok df /\ In name input_columns
    /\ has_column df name = false.

(** A required numeric column of the frame is refused by [astype(int)]. *)
Definition not_coercible (data : body) : Prop :=
  exists df name col e,
    DataFrame_new data = Ok df /\ In name required_numeric
    /\ getitem df name = Ok col /\ astype_int col = Raise e.

(** The sign of an integer numeral. *)
Inductive sign_mark : Type := NoSign | PlusSign | MinusSign.

Definition sign_text (g : sign_mark) : string :=
  match g with
  | NoSign => ""
  | PlusSign => "+"
  | MinusSign => "-"
  end.

Definition is_minus (g : sign_mark) : bool :=
  match g with
  | MinusSign => true
  | _ => false
  end.

(** Computations whose errors are never request errors. *)
Definition quiet {A : Type} (m : except A) : Prop :=
  forall e, m = Raise e -> is_request_exception e = false.

(** A frame of [n] rectangular rows. *)
Definition shape (n : nat) (df : DataFrame) : Prop :=
  rectangular df /\ List.length (values df) = n.

(** The filtered and projected frame a query works out before it
    truncates: the rows that pass the filters, in their order, cut down
    to the requested columns the frame has. *)
Definition matched (df : DataFrame) (filters : option (list (string * value)))
    (columns' : option (list string)) : DataFrame :=
  let kept := filter (keeps df (items_of filters)) (values df) in
  match columns' with
  | Some ((_ :: _) as cs) =>
      {| columns := known df cs; values := map (project df (known df cs)) kept |}
  | _ => {| columns := columns df; values := kept |}
  end.

(** What a query prints, as a function of the table it is given. *)
Definition query_view (df : DataFrame) (rows : Z)
    (filters : option (list (string * value))) (columns' : option (list string))
  : report :=
  let m := matched df filters columns' in
  {| displaying := Z.min rows (Z.of_nat (List.length (values m)));
     total := Z.of_nat (List.length (values m));
     printed := head rows m |}.

(** The sign characters. *)
Definition is_sign (c : ascii) : bool := Ascii.eqb "+" c || Ascii.eqb "-" c.

(** The text begins with a character that passes the test. *)
Definition starts_with (p : ascii -> bool) (s : string) : bool :=
  match s with
  | String c _ => p c
  | EmptyString => false
  end.

(** Somewhere in the text a sign stands directly after a digit, as the
    hyphens of a formatted phone number do. *)
Fixpoint sign_after_digit (s : string) : bool :=
  match s with
  | String d t => (is_digit d && starts_with is_sign t) || sign_after_digit t
  | EmptyString => false
  end.

(** Any character but a digit. *)
Definition no_digit (c : ascii) : bool := negb (is_digit c).

(** ** Sample data *)

(** The record of the test fixture [sample_data], with the phone and the
    age as given: no phone leaves the key out. *)
Definition employee_with (phone : option json_scalar) (age : json_scalar) : record :=
  ([("id", JInt 1); ("first_name", JString "Jose"); ("last_name", JString "Lopez");
    ("email", JString "test@email.com")]
   ++ match phone with
      | Some p => [("phone", p)]
      | None => []
      end
   ++ [("gender", JString "male"); ("age", age);
       ("job_title", JString "Project Manager"); ("years_of_experience", JInt 1);
       ("salary", JInt 8500); ("department", JString "Product")])%list.

Definition employee (phone : option json_scalar) : record :=
  employee_with phone (JInt 25).

Definition sample_data : body :=
  JRecords [employee (Some (JString "+1-971-533-4552x1542"))].

(** The same employee sent column by column: a JSON object of arrays. *)
Definition sample_columns : body :=
  JObject (map (fun kv => (fst kv, MArray [snd kv]))
             (employee (Some (JString "+1-971-533-4552x1542")))).

(** A network that fails twice and then delivers [data]. *)
Definition flaky (data : body) (url : string) (attempt : nat) : except body :=
  match attempt with
  | O => Raise (RequestException "connection reset")
  | S O => Raise (RequestException "read timed out")
  | _ => Ok data
  end.

(** A network that always delivers the same body. *)
Definition steady (data : body) (url : string) (attempt : nat) : except body :=
  Ok data.

(** A normalised table of three employees. *)
Definition staff : DataFrame :=
  {| columns := output_columns;
     values :=
       [[PStr "Jose Lopez"; PStr "jose@email.com"; PNA; PStr "male"; PInt 25;
         PStr "Project Manager"; PInt 1; PInt 8500; PStr "Product";
         PStr "System Engineer"];
        [PStr "Ann Lee"; PStr "ann@email.com"; PInt 19715334552; PStr "female";
         PInt 41; PStr "Architect"; PInt 12; PInt 15000; PStr "Product";
         PStr "Lead"];
        [PStr "Raj Rao"; PStr "raj@email.com"; PInt 2025550143; PStr "male";
         PInt 33; PStr "Analyst"; PInt 7; PInt 11000; PStr "Product";
         PStr "Senior Data Engineer"]] |}.

(** ** Further vocabulary: the returned table, the program, the dashboard *)

(** ** Vocabulary of the statements on the normalised table *)







(** The time a run spends asleep. *)
Definition total_sleep (tr : list event) : Z :=
  fold_right Z.add 0 (sleeps tr).

(** What attempt [j] of a run comes to: the body of the [try]. *)
Definition attempt_result (net : string -> nat -> except body) (url : string)
    (j : nat) : except DataFrame :=
  data <- net url j ;; normalize data.

(** ** The command line *)

(** What [argparse] hands over: [--rows] is an integer, [--department],
    [--designation] and [--gender] are optional texts, [--columns] takes
    one label or more, [--all] and [--ui] are flags. *)
Record Args : Type := {
  args_rows : Z;
  args_department : option string;
  args_designation : option string;
  args_gender : option string;
  args_columns : option (list string);
  args_all : bool;
  args_ui : bool
}.

(** [if arg: filters[col] = arg]: an absent option and the empty text
    are both false. *)
Definition filter_entry (col : string) (arg : option string) : list (string * value) :=
  match arg with
  | Some s => if String.eqb s "" then [] else [(col, VStr s)]
  | None => []
  end.

(** The mapping [filters] of the main block, in insertion order. *)
Definition build_filters (args : Args) : list (string * value) :=
  (filter_entry "department" (args_department args)
   ++ filter_entry "designation" (args_designation args)
   ++ filter_entry "gender" (args_gender args))%list.

Definition main_url : string :=
  "https://api.slingacademy.com/v1/sample-data/files/employees.json".

(** What the main block does once the table is fetched. *)
Inductive output : Type :=
| ToCsv (path : string) (df : DataFrame)
| Ui (df : DataFrame)
| Printed (rep : report).

(** A run of the program: the events of the fetch, what was written,
    shown or printed after it, and how the run ended. *)
Record program_run : Type := {
  fetch_trace : list event;
  outputs : list output;
  outcome : except unit
}.

Section Program.

(** The network, as above, and the dashboard as a procedure of the
    table, which ends normally or raises. *)
Variable requests_get : string -> nat -> except body.
Variable launch_pygwalker_ui : DataFrame -> except unit.

(** The block under [if __name__ == "__main__"].  Writing the file is
    taken to succeed. *)
Definition main (args : Args) : program_run :=
  let '(tr, fetched) := scrape_employees requests_get main_url 3 in
  match fetched with
  | Raise e => {| fetch_trace := tr; outputs := []; outcome := Raise e |}
  | Ok df_normalized =>
      let csv := ToCsv "employees_normalized.csv" df_normalized in
      if args_ui args then
        {| fetch_trace := tr; outputs := [csv; Ui df_normalized];
           outcome := launch_pygwalker_ui df_normalized |}
      else
        let filters := build_filters args in
        let rows_to_show :=
          if args_all args then Z.of_nat (List.length (values df_normalized))
          else args_rows args in
        match dynamic_cli_query O rows_to_show (Some filters) (args_columns args)
                [df_normalized] with
        | Ok (rep, _) =>
            {| fetch_trace := tr; outputs := [csv; Printed rep]; outcome := Ok tt |}
        | Raise e => {| fetch_trace := tr; outputs := [csv]; outcome := Raise e |}
        end
  end.

End Program.

(** Command lines for the examples. *)
Definition plain_args : Args :=
  {| args_rows := 5; args_department := None; args_designation := None;
     args_gender := None; args_columns := None; args_all := false;
     args_ui := false |}.

Definition all_males : Args :=
  {| args_rows := 1; args_department := None; args_designation := None;
     args_gender := Some "male"; args_columns := None; args_all := true;
     args_ui := false |}.

(** ** The filters of the dashboard *)

(** Equality of two cells as a hash table of objects sees it. *)
Definition pyval_eqb (a b : pyval) : bool :=
  match a, b with
  | PNone, PNone | PNaN, PNaN | PNA, PNA => true
  | PInt x, PInt y => x =? y
  | PStr s, PStr t => String.eqb s t
  | _, _ => false
  end.

(** [x in sel] *)
Definition member_of (sel : list pyval) (x : pyval) : bool :=
  existsb (pyval_eqb x) sel.

(** [series.unique()]: the values in the order of their first
    appearance. *)
Fixpoint unique_from (seen l : list pyval) : list pyval :=
  match l with
  | [] => []
  | x :: l' =>
      if member_of seen x then unique_from seen l'
      else x :: unique_from (x :: seen) l'
  end.

Definition unique (l : list pyval) : list pyval := unique_from [] l.

(** [series.isin(sel)] *)
Definition isin (c sel : list pyval) : list bool := map (member_of sel) c.

(** [mask & mask] on two masks of one index. *)
Fixpoint mask_and (a b : list bool) : list bool :=
  match a, b with
  | x :: a', y :: b' => (x && y) :: mask_and a' b'
  | _, _ => []
  end.

Section Streamlit.

(** Whether [import streamlit] succeeded, and the widget: what
    [st.sidebar.multiselect(label, options, default=...)] returns, which
    is up to the person at the screen. *)
Variable st : bool.
Variable multiselect : string -> list pyval -> list pyval -> list pyval.

(** [launch_pygwalker_ui(df)] up to the first metric: [None] when
    Streamlit is not there, else the table [filtered_df] and the number
    shown as "Total Employees".  The averages and the charts that follow
    are not part of the model. *)
Definition launch_pygwalker_ui (df : DataFrame) : except (option (DataFrame * Z)) :=
  if negb st then Ok None
  else
    department <- getitem df "department" ;;
    let selected_department :=
      multiselect "Department" (unique department) (unique department) in
    designation <- getitem df "designation" ;;
    let selected_designation :=
      multiselect "Designation" (unique designation) (unique designation) in
    gender <- getitem df "gender" ;;
    let selected_gender := multiselect "Gender" (unique gender) (unique gender) in
    let mask := mask_and (mask_and (isin department selected_department)
                                   (isin designation selected_designation))
                         (isin gender selected_gender) in
    let filtered_df := {| columns := columns df; values := select mask (values df) |} in
    Ok (Some (filtered_df, Z.of_nat (List.length (values filtered_df)))).

End Streamlit.

(** The row passes the three selections of the sidebar. *)
Definition chosen (df : DataFrame) (departments designations genders : list pyval)
    (row : list pyval) : bool :=
  match field df "department" row, field df "designation" row, field df "gender" row with
  | Some d, Some g, Some s =>
      member_of departments d && member_of designations g && member_of genders s
  | _, _, _ => false
  end.

(** A widget left as it comes up: it returns its default. *)
Definition untouched (label : string) (options default : list pyval) : list pyval :=
  default.

(** A sidebar in which one gender is selected and the rest is left as
    it comes up. *)
Definition only_gender (s : string) (label : string) (options default : list pyval)
  : list pyval :=
  if String.eqb label "Gender" then [PStr s] else default.

(** * The error monad *)

Lemma bind_Ok_inv {A B : Type} (m : except A) (k : A -> except B) (b : B) :
  bind m k = Ok b -> exists a, m = Ok a /\ k a = Ok b.
Proof. destruct m as [a|e]; simpl; [eauto|discriminate]. Qed.

Lemma mapM_Ok_Forall2 {A B : Type} (f : A -> except B) (xs : list A) (ys : list B) :
  mapM f xs = Ok ys -> Forall2 (fun x y => f x = Ok y) xs ys.
Proof.
  revert ys. induction xs as [|x xs IH]; simpl; intros ys H.
  - inversion H. constructor.
  - apply bind_Ok_inv in H as (y & Hy & H).
    apply bind_Ok_inv in H as (ys' & Hys & H). inversion H; subst.
    constructor; auto.
Qed.

Lemma mapM_Ok_length {A B : Type} (f : A -> except B) (xs : list A) (ys : list B) :
  mapM f xs = Ok ys -> List.length ys = List.length xs.
Proof. intros H. apply mapM_Ok_Forall2 in H. symmetry. eapply Forall2_length, H. Qed.

Lemma mapM_Ok_nth {A B : Type} (f : A -> except B) (xs : list A) (ys : list B)
    (i : nat) (dx : A) (dy : B) :
  mapM f xs = Ok ys -> (i < List.length xs)%nat -> f (nth i xs dx) = Ok (nth i ys dy).
Proof.
  intros H. apply mapM_Ok_Forall2 in H. revert i.
  induction H as [|x y xs ys Hxy _ IH]; intros i Hi; simpl in Hi; [lia|].
  destruct i as [|i]; simpl; [assumption|]. apply IH. lia.
Qed.

Lemma mapM_total {A B : Type} (f : A -> except B) (g : A -> B) (xs : list A) :
  (forall x, In x xs -> f x = Ok (g x)) -> mapM f xs = Ok (map g xs).
Proof.
  induction xs as [|x xs IH]; simpl; intros H; [reflexivity|].
  rewrite H by auto. simpl. rewrite IH by auto. reflexivity.
Qed.

(** * Frames *)

Lemma index_of_Some name cols i :
  index_of name cols = Some i ->
  (i < List.length cols)%nat /\ nth_error cols i = Some name.
Proof.
  revert i. induction cols as [|c cs IH]; simpl; intros i H; [discriminate|].
  destruct (String.eqb_spec c name) as [->|Hne].
  - inversion H; subst. simpl. split; [lia|reflexivity].
  - destruct (index_of name cs) as [j|]; simpl in H; [|discriminate].
    inversion H; subst. destruct (IH j eq_refl). simpl. split; [lia|assumption].
Qed.

Lemma index_of_In name cols : In name cols -> exists i, index_of name cols = Some i.
Proof.
  induction cols as [|c cs IH]; simpl; [tauto|]. intros H.
  destruct (String.eqb_spec c name) as [->|Hne]; [eauto|].
  destruct H as [H|H]; [contradiction|]. destruct (IH H) as [i ->]. simpl. eauto.
Qed.

Lemma index_of_not_In name cols : ~ In name cols -> index_of name cols = None.
Proof.
  induction cols as [|c cs IH]; simpl; [reflexivity|]. intros H.
  destruct (String.eqb_spec c name) as [->|Hne]; [exfalso; auto|].
  rewrite IH by tauto. reflexivity.
Qed.

Lemma index_of_app_l name cols more i :
  index_of name cols = Some i -> index_of name (cols ++ more) = Some i.
Proof.
  revert i. induction cols as [|c cs IH]; simpl; intros i H; [discriminate|].
  destruct (String.eqb c name); [assumption|].
  destruct (index_of name cs) as [j|]; simpl in H; [|discriminate].
  now rewrite (IH j eq_refl).
Qed.

Lemma index_of_app_new name cols :
  index_of name cols = None -> index_of name (cols ++ [name]) = Some (List.length cols).
Proof.
  induction cols as [|c cs IH]; simpl; intros H.
  - now rewrite String.eqb_refl.
  - destruct (String.eqb c name); [discriminate|].
    destruct (index_of name cs) as [j|]; simpl in H; [discriminate|].
    now rewrite IH.
Qed.

Lemma index_of_app_other name m cols :
  name <> m -> index_of m cols = None -> index_of m (cols ++ [name]) = None.
Proof.
  intros Hne. induction cols as [|c cs IH]; simpl; intros H.
  - destruct (String.eqb_spec name m); [contradiction|reflexivity].
  - destruct (String.eqb c m); [discriminate|].
    destruct (index_of m cs) as [j|]; simpl in H; [discriminate|].
    now rewrite IH.
Qed.

Lemma cell_put_same i v r : (i < List.length r)%nat -> cell i (put i v r) = v.
Proof.
  unfold cell. revert i. induction r as [|x r IH]; intros i Hi; simpl in *; [lia|].
  destruct i; simpl; [reflexivity|]. apply IH. lia.
Qed.

Lemma cell_put_other i j v r : i <> j -> cell j (put i v r) = cell j r.
Proof.
  unfold cell. revert i j. induction r as [|x r IH]; intros i j Hij.
  - destruct i; reflexivity.
  - destruct i, j; simpl; try reflexivity; [contradiction|]. apply IH. lia.
Qed.

Lemma length_put i v r : List.length (put i v r) = List.length r.
Proof.
  revert i. induction r as [|x r IH]; intros i; [destruct i; reflexivity|].
  destruct i; simpl; [reflexivity|]. now rewrite IH.
Qed.

Lemma getitem_length df name c n :
  shape n df -> getitem df name = Ok c -> List.length c = n.
Proof.
  intros [_ Hn]. unfold getitem. destruct (index_of name (columns df)); [|discriminate].
  intros H; inversion H; subst. now rewrite length_map.
Qed.

Lemma shape_setitem n df name vals :
  shape n df -> List.length vals = n -> shape n (setitem df name vals).
Proof.
  intros [Hr Hn] Hv. unfold setitem, shape, rectangular in *.
  destruct (index_of name (columns df)) as [i|]; simpl.
  - split.
    + apply Forall_forall. intros r Hin. apply in_map_iff in Hin as ([r0 v] & <- & Hin).
      simpl. rewrite length_put. apply in_combine_l in Hin.
      rewrite Forall_forall in Hr. now apply Hr.
    + rewrite length_map, length_combine. lia.
  - split.
    + apply Forall_forall. intros r Hin. apply in_map_iff in Hin as ([r0 v] & <- & Hin).
      simpl. rewrite !length_app. simpl. apply in_combine_l in Hin.
      rewrite Forall_forall in Hr. rewrite (Hr r0 Hin). reflexivity.
    + rewrite length_map, length_combine. lia.
Qed.

Lemma map_cell_put_same i (rs : list (list pyval)) (vals : list pyval) :
  List.length vals = List.length rs ->
  Forall (fun r => (i < List.length r)%nat) rs ->
  map (cell i) (map (fun rv => put i (snd rv) (fst rv)) (combine rs vals)) = vals.
Proof.
  revert vals. induction rs as [|r rs IH]; intros [|v vals] Hl Hr; simpl in *;
    try reflexivity; try discriminate.
  inversion Hr; subst. rewrite cell_put_same by assumption.
  rewrite IH; auto.
Qed.

Lemma map_cell_put_other i j (rs : list (list pyval)) (vals : list pyval) :
  List.length vals = List.length rs -> i <> j ->
  map (cell j) (map (fun rv => put i (snd rv) (fst rv)) (combine rs vals)) = map (cell j) rs.
Proof.
  revert vals. induction rs as [|r rs IH]; intros [|v vals] Hl Hij; simpl in *;
    try reflexivity; try discriminate.
  rewrite cell_put_other by assumption. rewrite IH; auto.
Qed.

Lemma map_cell_snoc_new n (rs : list (list pyval)) (vals : list pyval) :
  List.length vals = List.length rs ->
  Forall (fun r => List.length r = n) rs ->
  map (cell n) (map (fun rv => (fst rv ++ [snd rv])%list) (combine rs vals)) = vals.
Proof.
  revert vals. induction rs as [|r rs IH]; intros [|v vals] Hl Hr; simpl in *;
    try reflexivity; try discriminate.
  inversion Hr; subst. unfold cell at 1. rewrite nth_middle.
  rewrite IH; auto.
Qed.

Lemma map_cell_snoc_old j (rs : list (list pyval)) (vals : list pyval) :
  List.length vals = List.length rs ->
  Forall (fun r => (j < List.length r)%nat) rs ->
  map (cell j) (map (fun rv => (fst rv ++ [snd rv])%list) (combine rs vals)) = map (cell j) rs.
Proof.
  revert vals. induction rs as [|r rs IH]; intros [|v vals] Hl Hr; simpl in *;
    try reflexivity; try discriminate.
  inversion Hr; subst. unfold cell at 1. rewrite app_nth1 by assumption.
  fold (cell j r). rewrite IH; auto.
Qed.

Lemma rows_wide n df i name :
  shape n df -> index_of name (columns df) = Some i ->
  Forall (fun r => (i < List.length r)%nat) (values df).
Proof.
  intros [Hr _] Hi. apply index_of_Some in Hi as [Hi _].
  eapply Forall_impl; [|exact Hr]. simpl. intros r ->. exact Hi.
Qed.

Lemma getitem_setitem_same n df name vals :
  shape n df -> List.length vals = n -> getitem (setitem df name vals) name = Ok vals.
Proof.
  intros Hs Hv. pose proof Hs as [Hr Hn]. unfold getitem, setitem.
  destruct (index_of name (columns df)) as [i|] eqn:Hi; simpl.
  - rewrite Hi. f_equal. apply map_cell_put_same; [lia|]. eapply rows_wide; eauto.
  - rewrite index_of_app_new by assumption. f_equal.
    apply map_cell_snoc_new; [lia|exact Hr].
Qed.

Lemma getitem_setitem_other n df name m vals :
  shape n df -> List.length vals = n -> name <> m ->
  getitem (setitem df name vals) m = getitem df m.
Proof.
  intros Hs Hv Hne. pose proof Hs as [Hr Hn]. unfold getitem, setitem.
  destruct (index_of name (columns df)) as [i|] eqn:Hi; simpl.
  - destruct (index_of m (columns df)) as [j|] eqn:Hj; [|reflexivity].
    f_equal. apply map_cell_put_other; [lia|].
    intros ->. apply index_of_Some in Hi as [_ Hi]. apply index_of_Some in Hj as [_ Hj].
    congruence.
  - destruct (index_of m (columns df)) as [j|] eqn:Hj.
    + rewrite (index_of_app_l _ _ _ _ Hj). f_equal.
      apply map_cell_snoc_old; [lia|]. eapply rows_wide; eauto.
    + now rewrite index_of_app_other.
Qed.

(** * Building frames *)

Lemma length_transpose n cols : List.length (transpose n cols) = n.
Proof.
  revert cols. induction n as [|n IH]; intros cols; simpl; [reflexivity|].
  now rewrite IH.
Qed.

Lemma transpose_wide n cols :
  Forall (fun r => List.length r = List.length cols) (transpose n cols).
Proof.
  revert cols. induction n as [|n IH]; intros cols; simpl; constructor.
  - now rewrite length_map.
  - specialize (IH (map (@tl pyval) cols)). now rewrite length_map in IH.
Qed.

Lemma shape_from_columns n cs : shape n (from_columns n cs).
Proof.
  split; simpl.
  - unfold rectangular; simpl. rewrite length_map.
    pose proof (transpose_wide n (map snd cs)) as H. now rewrite length_map in H.
  - apply length_transpose.
Qed.

Lemma nth_map_hd (cols : list (list pyval)) i :
  nth i (map (hd PNaN) cols) PNaN = hd PNaN (nth i cols []).
Proof.
  revert i. induction cols as [|c cols IH]; intros [|i]; simpl; auto.
Qed.

Lemma nth_map_tl (cols : list (list pyval)) i :
  nth i (map (@tl pyval) cols) [] = tl (nth i cols []).
Proof.
  revert i. induction cols as [|c cols IH]; intros [|i]; simpl; auto.
Qed.

Lemma column_transpose n cols i :
  List.length (nth i cols []) = n ->
  map (cell i) (transpose n cols) = nth i cols [].
Proof.
  revert cols. induction n as [|n IH]; intros cols Hn; simpl.
  - destruct (nth i cols []); [reflexivity|discriminate].
  - rewrite IH.
    + unfold cell. rewrite nth_map_hd, nth_map_tl.
      destruct (nth i cols []); [discriminate|reflexivity].
    + rewrite nth_map_tl. destruct (nth i cols []); simpl in *; [discriminate|lia].
Qed.

Lemma index_assoc {A : Type} k (cs : list (string * A)) i d :
  index_of k (map fst cs) = Some i -> assoc k cs = Some (nth i (map snd cs) d).
Proof.
  revert i. induction cs as [|[k' v] cs IH]; simpl; intros i H; [discriminate|].
  destruct (String.eqb k' k).
  - inversion H; subst. reflexivity.
  - destruct (index_of k (map fst cs)) as [j|]; simpl in H; [|discriminate].
    inversion H; subst. simpl. now apply IH.
Qed.

Lemma getitem_from_columns n cs k col :
  assoc k cs = Some col -> List.length col = n ->
  getitem (from_columns n cs) k = Ok col.
Proof.
  intros Ha Hl. unfold getitem, from_columns; simpl.
  destruct (index_of k (map fst cs)) as [i|] eqn:Hi.
  - rewrite (index_assoc k cs i []) in Ha by assumption. inversion Ha as [Hc].
    f_equal. rewrite column_transpose; [reflexivity|now rewrite Hc].
  - exfalso. revert Hi Ha. clear. induction cs as [|[k' v] cs IH]; simpl; [discriminate|].
    destruct (String.eqb k' k); [discriminate|].
    destruct (index_of k (map fst cs)); simpl; [discriminate|]. auto.
Qed.

Lemma getitem_from_columns_missing n cs k :
  assoc k cs = None -> getitem (from_columns n cs) k = Raise (KeyError k).
Proof.
  intros Ha. unfold getitem, from_columns; simpl.
  destruct (index_of k (map fst cs)) as [i|] eqn:Hi; [|reflexivity].
  rewrite (index_assoc k cs i []) in Ha by assumption. discriminate.
Qed.

Lemma shape_empty : shape 0 empty_frame.
Proof. split; [constructor|reflexivity]. Qed.

Lemma DataFrame_new_shape data df :
  DataFrame_new data = Ok df -> exists n, shape n df.
Proof.
  destruct data as [v|rs|ms]; simpl.
  - destruct v; intros H; inversion H; subst. exists O. apply shape_empty.
  - intros H; inversion H; subst. eexists. apply shape_from_columns.
  - destruct ms as [|m ms]; [intros H; inversion H; subst; exists O; apply shape_empty|].
    destruct (array_lengths (m :: ms)) as [|n ls]; [discriminate|].
    destruct (forallb (Nat.eqb n) ls); [|discriminate].
    intros H; inversion H; subst. eexists. apply shape_from_columns.
Qed.

(** * Selecting columns *)

Lemma getitem_list_inv df names out :
  getitem_list df names = Ok out ->
  exists idx,
    Forall2 (fun n i => index_of n (columns df) = Some i) names idx
    /\ out = {| columns := names; values := map (pick idx) (values df) |}.
Proof.
  unfold getitem_list. intros H. apply bind_Ok_inv in H as (idx & Hidx & H).
  inversion H; subst. exists idx. split; [|reflexivity].
  apply mapM_Ok_Forall2 in Hidx. eapply Forall2_impl; [|exact Hidx].
  simpl. intros n i. destruct (index_of n (columns df)); intros E; inversion E; reflexivity.
Qed.

Lemma Forall2_nth_error {A B : Type} (R : A -> B -> Prop) xs ys j x :
  Forall2 R xs ys -> nth_error xs j = Some x ->
  exists y, nth_error ys j = Some y /\ R x y.
Proof.
  intros H. revert j. induction H as [|x0 y0 xs ys Hxy _ IH]; intros j Hj.
  - destruct j; discriminate.
  - destruct j as [|j]; simpl in *; [inversion Hj; subst; eauto|]. now apply IH.
Qed.

Lemma cell_pick idx r j i : nth_error idx j = Some i -> cell j (pick idx r) = cell i r.
Proof.
  intros H. unfold cell at 1, pick.
  apply nth_error_nth. rewrite nth_error_map, H. reflexivity.
Qed.

Lemma getitem_getitem_list df names out name :
  getitem_list df names = Ok out -> In name names ->
  getitem out name = getitem df name.
Proof.
  intros H Hin. apply getitem_list_inv in H as (idx & Hidx & ->).
  unfold getitem; simpl.
  destruct (index_of_In _ _ Hin) as [j Hj]. rewrite Hj.
  apply index_of_Some in Hj as [_ Hj].
  destruct (Forall2_nth_error _ _ _ _ _ Hidx Hj) as (i & Hi & Hni). rewrite Hni.
  f_equal. rewrite map_map. apply map_ext. intros r. now apply cell_pick.
Qed.

Lemma getitem_list_rows df names out :
  getitem_list df names = Ok out ->
  List.length (values out) = List.length (values df) /\ columns out = names.
Proof.
  intros H. apply getitem_list_inv in H as (idx & _ & ->). simpl.
  now rewrite length_map.
Qed.

(** * Inverting a successful normalisation *)

Lemma series_add_str_length col s c' :
  series_add_str col s = Ok c' -> List.length c' = List.length col.
Proof.
  unfold series_add_str. destruct (dtype_of col); try discriminate.
  apply mapM_Ok_length.
Qed.

Lemma series_add_length l r c' :
  series_add l r = Ok c' -> List.length l = List.length r ->
  List.length c' = List.length l.
Proof.
  unfold series_add. intros H Hl. apply mapM_Ok_length in H.
  rewrite length_combine in H. lia.
Qed.

Lemma astype_int_length col c' :
  astype_int col = Ok c' -> List.length c' = List.length col.
Proof.
  unfold astype_int. destruct (dtype_of col); try discriminate.
  - apply mapM_Ok_length.
  - intros H; inversion H; reflexivity.
Qed.

Lemma phone_clean_of_length col c' :
  phone_clean_of col = Ok c' -> List.length c' = List.length col.
Proof.
  unfold phone_clean_of, astype_Int64. intros H. apply mapM_Ok_length in H.
  now rewrite !length_map in H.
Qed.

Lemma cast_str_inv n df name df' :
  shape n df -> cast_str df name = Ok df' ->
  shape n df'
  /\ (forall m, name <> m -> getitem df' m = getitem df m)
  /\ exists c, getitem df name = Ok c.
Proof.
  intros Hs H. unfold cast_str in H. apply bind_Ok_inv in H as (c & Hc & H).
  inversion H; subst.
  assert (Hl : List.length (astype_str (dtype_of c) c) = n).
  { unfold astype_str. rewrite length_map. eapply getitem_length; eauto. }
  split; [now apply shape_setitem|]. split; [|eauto].
  intros m Hm. now apply (getitem_setitem_other n).
Qed.

Lemma cast_int_inv n df name df' :
  shape n df -> cast_int df name = Ok df' ->
  shape n df'
  /\ (forall m, name <> m -> getitem df' m = getitem df m)
  /\ exists c c', getitem df name = Ok c /\ astype_int c = Ok c'.
Proof.
  intros Hs H. unfold cast_int in H. apply bind_Ok_inv in H as (c & Hc & H).
  apply bind_Ok_inv in H as (c' & Hc' & H). inversion H; subst.
  assert (Hl : List.length c' = n).
  { rewrite (astype_int_length _ _ Hc'). eapply getitem_length; eauto. }
  split; [now apply shape_setitem|]. split; [|eauto].
  intros m Hm. now apply (getitem_setitem_other n).
Qed.

Ltac step H x Hx := apply bind_Ok_inv in H as (x & Hx & H).

Lemma normalize_Ok_inv data out :
  normalize data = Ok out ->
  exists df phone pc,
    DataFrame_new data = Ok df
    /\ getitem df "phone" = Ok phone
    /\ phone_clean_of phone = Ok pc
    /\ getitem out "phone_clean" = Ok pc
    /\ List.length (values out) = List.length (values df)
    /\ columns out = output_columns
    /\ (forall name, In name required_numeric ->
          exists c c', getitem df name = Ok c /\ astype_int c = Ok c')
    /\ (forall name, In name input_columns -> exists c, getitem df name = Ok c).
Proof.
  unfold normalize. intros H.
  step H df Hdf. destruct (DataFrame_new_shape _ _ Hdf) as [n S0].
  step H yoe Hyoe. step H des Hdes. cbv zeta in H.
  assert (L1 : List.length (map PStr des) = n).
  { rewrite length_map, (mapM_Ok_length _ _ _ Hdes). eapply getitem_length; eauto. }
  assert (S1 : shape n (setitem df "designation" (map PStr des)))
    by now apply shape_setitem.
  set (df1 := setitem df "designation" (map PStr des)) in *.
  step H fn Hfirst. step H first_sp Hsp. step H ln Hlast. step H full_name Hfull.
  assert (L2 : List.length full_name = n).
  { pose proof (getitem_length _ _ _ _ S1 Hfirst) as La.
    pose proof (getitem_length _ _ _ _ S1 Hlast) as Lb.
    pose proof (series_add_str_length _ _ _ Hsp) as Lc.
    rewrite (series_add_length _ _ _ Hfull); lia. }
  assert (S2 : shape n (setitem df1 "full_name" full_name))
    by now apply shape_setitem.
  set (df2 := setitem df1 "full_name" full_name) in *.
  step H phone Hphone. step H pc Hpc.
  assert (Lpc : List.length pc = n).
  { rewrite (phone_clean_of_length _ _ Hpc). eapply getitem_length; eauto. }
  assert (S3 : shape n (setitem df2 "phone_clean" pc)) by now apply shape_setitem.
  set (df3 := setitem df2 "phone_clean" pc) in *.
  step H full Hfull'.
  assert (L4 : List.length (astype_str object_ full) = n).
  { unfold astype_str. rewrite length_map. eapply getitem_length; eauto. }
  assert (S4 : shape n (setitem df3 "full_name" (astype_str object_ full)))
    by now apply shape_setitem.
  set (df4 := setitem df3 "full_name" (astype_str object_ full)) in *.
  step H df5 H5. destruct (cast_str_inv _ _ _ _ S4 H5) as (S5 & G5 & c5 & A5).
  step H df6 H6. destruct (cast_str_inv _ _ _ _ S5 H6) as (S6 & G6 & c6 & A6).
  step H df7 H7. destruct (cast_str_inv _ _ _ _ S6 H7) as (S7 & G7 & c7 & A7).
  step H df8 H8. destruct (cast_str_inv _ _ _ _ S7 H8) as (S8 & G8 & c8 & A8).
  step H df9 H9. destruct (cast_int_inv _ _ _ _ S8 H9) as (S9 & G9 & c9 & c9' & A9 & B9).
  step H df10 H10. destruct (cast_int_inv _ _ _ _ S9 H10) as (S10 & G10 & c10 & c10' & A10 & B10).
  step H df11 H11. destruct (cast_int_inv _ _ _ _ S10 H11) as (S11 & G11 & c11 & c11' & A11 & B11).
  (* how a raw column reaches a later frame *)
  assert (raw : forall m,
            ~ In m ["designation"; "full_name"; "phone_clean"] ->
            getitem df3 m = getitem df m).
  { intros m Hm. unfold df3, df2, df1.
    rewrite (getitem_setitem_other n) by (try assumption; simpl in Hm; tauto).
    rewrite (getitem_setitem_other n) by (try assumption; simpl in Hm; tauto).
    rewrite (getitem_setitem_other n) by (try assumption; simpl in Hm; tauto).
    reflexivity. }
  exists df, phone, pc.
  split; [assumption|]. split.
  { rewrite <- Hphone. unfold df2, df1.
    rewrite (getitem_setitem_other n) by (try assumption; discriminate).
    rewrite (getitem_setitem_other n) by (try assumption; discriminate).
    reflexivity. }
  split; [assumption|]. split.
  { rewrite (getitem_getitem_list _ _ _ "phone_clean" H) by (simpl; tauto).
    rewrite G11, G10, G9, G8, G7, G6, G5 by discriminate.
    unfold df4. rewrite (getitem_setitem_other n) by (try assumption; discriminate).
    unfold df3. now apply (getitem_setitem_same n). }
  destruct (getitem_list_rows _ _ _ H) as [Hrows Hcols].
  split.
  { rewrite Hrows. destruct S11 as [_ ->]. destruct S0 as [_ ->]. reflexivity. }
  split; [assumption|].
  assert (raw4 : forall m,
            ~ In m ["designation"; "full_name"; "phone_clean"] ->
            getitem df4 m = getitem df m).
  { intros m Hm. unfold df4.
    rewrite (getitem_setitem_other n) by (try assumption; simpl in Hm; tauto).
    now apply raw. }
  assert (R9 : getitem df "age" = Ok c9).
  { rewrite <- A9, G8, G7, G6, G5 by discriminate.
    symmetry. apply raw4. simpl. intuition discriminate. }
  assert (R10 : getitem df "years_of_experience" = Ok c10).
  { rewrite <- A10, G9, G8, G7, G6, G5 by discriminate.
    symmetry. apply raw4. simpl. intuition discriminate. }
  assert (R11 : getitem df "salary" = Ok c11).
  { rewrite <- A11, G10, G9, G8, G7, G6, G5 by discriminate.
    symmetry. apply raw4. simpl. intuition discriminate. }
  split.
  { intros name [<-|[<-|[<-|[]]]]; eauto. }
  intros name Hin. simpl in Hin.
  destruct Hin as [<-|[<-|[<-|[<-|[<-|[<-|[<-|[<-|[<-|[<-|[]]]]]]]]]]].
  - eauto.
  - exists fn. rewrite <- Hfirst. unfold df1. symmetry.
    apply (getitem_setitem_other n); [assumption|assumption|discriminate].
  - exists ln. rewrite <- Hlast. unfold df1. symmetry.
    apply (getitem_setitem_other n); [assumption|assumption|discriminate].
  - exists phone. rewrite <- Hphone. unfold df2, df1.
    rewrite (getitem_setitem_other n) by (try assumption; discriminate).
    rewrite (getitem_setitem_other n) by (try assumption; discriminate).
    reflexivity.
  - exists c5. rewrite <- A5. symmetry. apply raw4. simpl. intuition discriminate.
  - exists c6. rewrite <- A6, G5 by discriminate.
    symmetry. apply raw4. simpl. intuition discriminate.
  - exists c7. rewrite <- A7, G6, G5 by discriminate.
    symmetry. apply raw4. simpl. intuition discriminate.
  - exists c8. rewrite <- A8, G7, G6, G5 by discriminate.
    symmetry. apply raw4. simpl. intuition discriminate.
  - eauto.
  - eauto.
Qed.

(** * Errors of the normaliser are never request errors *)

Lemma quiet_Ok {A : Type} (a : A) : quiet (Ok a).
Proof. intros e H; discriminate. Qed.

Lemma quiet_Raise {A : Type} (e : exn) :
  is_request_exception e = false -> quiet (@Raise A e).
Proof. intros He e' H; now inversion H; subst. Qed.

Lemma quiet_bind {A B : Type} (m : except A) (k : A -> except B) :
  quiet m -> (forall a, quiet (k a)) -> quiet (bind m k).
Proof.
  intros Hm Hk e. destruct m as [a|e']; simpl.
  - apply Hk.
  - intros H; inversion H; subst. now apply Hm.
Qed.

Lemma quiet_mapM {A B : Type} (f : A -> except B) (xs : list A) :
  (forall x, quiet (f x)) -> quiet (mapM f xs).
Proof.
  intros Hf. induction xs as [|x xs IH]; simpl; [apply quiet_Ok|].
  apply quiet_bind; [apply Hf|intros y].
  apply quiet_bind; [apply IH|intros ys; apply quiet_Ok].
Qed.

Ltac quiet_step :=
  match goal with
  | |- quiet (bind _ _) => apply quiet_bind; [|intro]
  | |- quiet (Ok _) => apply quiet_Ok
  | |- quiet (Raise _) => apply quiet_Raise; reflexivity
  | |- quiet (mapM _ _) => apply quiet_mapM; intro
  | |- quiet (match ?x with _ => _ end) => destruct x
  | |- quiet (if ?b then _ else _) => destruct b
  | |- quiet (let _ := _ in _) => cbv zeta
  end.

Lemma quiet_getitem df name : quiet (getitem df name).
Proof. unfold getitem. repeat quiet_step. Qed.

Lemma quiet_py_lt_int v k : quiet (py_lt_int v k).
Proof. unfold py_lt_int. repeat quiet_step. Qed.

Lemma quiet_py_int_le k v : quiet (py_int_le k v).
Proof. unfold py_int_le. repeat quiet_step. Qed.

Lemma quiet_get_designation_py v : quiet (get_designation_py v).
Proof.
  unfold get_designation_py, py_between.
  repeat (first [apply quiet_py_lt_int | apply quiet_py_int_le | quiet_step]).
Qed.

Lemma quiet_add_elem a b : quiet (add_elem a b).
Proof. unfold add_elem. repeat quiet_step. Qed.

Lemma quiet_series_add_str col s : quiet (series_add_str col s).
Proof. unfold series_add_str. repeat (first [apply quiet_add_elem | quiet_step]). Qed.

Lemma quiet_series_add l r : quiet (series_add l r).
Proof. unfold series_add. repeat (first [apply quiet_add_elem | quiet_step]). Qed.

Lemma quiet_Int64_of n : quiet (Int64_of n).
Proof. unfold Int64_of, unsafe_cast. repeat quiet_step. Qed.

Lemma quiet_phone_clean_of col : quiet (phone_clean_of col).
Proof. unfold phone_clean_of, astype_Int64. apply quiet_mapM, quiet_Int64_of. Qed.

Lemma quiet_py_int v : quiet (py_int v).
Proof. unfold py_int. repeat quiet_step. Qed.

Lemma quiet_astype_int col : quiet (astype_int col).
Proof. unfold astype_int. repeat (first [apply quiet_py_int | quiet_step]). Qed.

Lemma quiet_cast_str df name : quiet (cast_str df name).
Proof. unfold cast_str. repeat (first [apply quiet_getitem | quiet_step]). Qed.

Lemma quiet_cast_int df name : quiet (cast_int df name).
Proof.
  unfold cast_int.
  repeat (first [apply quiet_getitem | apply quiet_astype_int | quiet_step]).
Qed.

Lemma quiet_getitem_list df names : quiet (getitem_list df names).
Proof. unfold getitem_list. repeat quiet_step. Qed.

Lemma quiet_DataFrame_new data : quiet (DataFrame_new data).
Proof. unfold DataFrame_new. repeat quiet_step. Qed.

Lemma normalize_quiet data : quiet (normalize data).
Proof.
  unfold normalize.
  repeat (first
    [ apply quiet_DataFrame_new | apply quiet_getitem | apply quiet_series_add_str
    | apply quiet_series_add | apply quiet_phone_clean_of | apply quiet_cast_str
    | apply quiet_cast_int | apply quiet_getitem_list
    | apply quiet_mapM; intro; apply quiet_get_designation_py
    | apply quiet_bind; [|intro] ]).
Qed.

(** * Designation *)

Lemma get_designation_py_int (y : Z) :
  get_designation_py (PInt y) = Ok (get_designation y).
Proof.
  unfold get_designation_py, get_designation, py_between; simpl.
  destruct (y <? 3); [reflexivity|].
  destruct (3 <=? y); simpl; [destruct (y <? 5); [reflexivity|]|];
    (destruct (5 <=? y); simpl; [destruct (y <? 10); reflexivity|reflexivity]).
Qed.

Lemma band_inv y d :
  band y d ->
  (y < 3 /\ d = "System Engineer") \/ (3 <= y < 5 /\ d = "Data Engineer") \/
  (5 <= y < 10 /\ d = "Senior Data Engineer") \/ (10 <= y /\ d = "Lead").
Proof. inversion 1; subst; auto. Qed.

(** * The retry loop *)

Lemma sleeps_app (t1 t2 : list event) : sleeps (t1 ++ t2) = (sleeps t1 ++ sleeps t2)%list.
Proof. unfold sleeps. apply flat_map_app. Qed.

Lemma sleeps_retried (url : string) (cs : list string) (a : nat) :
  sleeps (retried url a cs) = map (fun j => 2 ^ Z.of_nat j) (seq a (List.length cs)).
Proof.
  revert a. induction cs as [|c cs IH]; intro a; simpl; [reflexivity|].
  now rewrite <- IH.
Qed.

Lemma requests_made_app (t1 t2 : list event) :
  requests_made (t1 ++ t2) = (requests_made t1 + requests_made t2)%nat.
Proof. unfold requests_made. now rewrite filter_app, length_app. Qed.

Lemma requests_made_retried (url : string) (cs : list string) (a : nat) :
  requests_made (retried url a cs) = List.length cs.
Proof.
  revert a. induction cs as [|c cs IH]; intro a; simpl; [reflexivity|].
  unfold requests_made in *. simpl. now rewrite IH.
Qed.

Section RetryLoop.
Variable net : string -> nat -> except body.
Variable url : string.
Variable n : Z.

(** Failed attempts that are not the last one are each followed by
    their sleep, and the loop goes on with the next attempt. *)
Lemma attempts_retried (cs : list string) :
  forall a rem,
    (forall j c, nth_error cs j = Some c ->
                 net url (a + j) = Raise (RequestException c)) ->
    (List.length cs <= rem)%nat ->
    Z.of_nat (a + List.length cs) < n ->
    attempts net url n a rem =
      (retried url a cs ++ fst (attempts net url n (a + List.length cs) (rem - List.length cs)),
       snd (attempts net url n (a + List.length cs) (rem - List.length cs)))%list.
Proof.
  induction cs as [|c cs IH]; intros a rem Hf Hlen Hlast; simpl.
  - rewrite Nat.add_0_r, Nat.sub_0_r. now destruct (attempts net url n a rem).
  - destruct rem as [|rem]; [simpl in Hlen; lia|]. simpl in Hlen.
    cbn [attempts].
    pose proof (Hf O c eq_refl) as H0. rewrite Nat.add_0_r in H0.
    rewrite H0. cbn [bind is_request_exception].
    destruct (Z.eqb_spec (Z.of_nat a) (n - 1)) as [E|_]; [simpl in Hlast; lia|].
    rewrite (IH (S a) rem).
    + replace (S a + List.length cs)%nat with (a + S (List.length cs))%nat by lia.
      reflexivity.
    + intros j c' Hj. replace (S a + j)%nat with (a + S j)%nat by lia.
      now apply Hf.
    + lia.
    + simpl in Hlast. lia.
Qed.
End RetryLoop.

(** * Reading numerals *)

Lemma take_char_Some p s q :
  take_char p s = Some q -> exists c, s = String c q /\ p c = true.
Proof.
  destruct s as [|c s]; simpl; [discriminate|].
  destruct (p c) eqn:E; [|discriminate]. intros H; inversion H; subst. eauto.
Qed.

Lemma numeral_back_char p s q :
  (forall c, p c = true -> numeral_char c = true) ->
  take_char p s = Some q ->
  all_chars numeral_char q = true -> all_chars numeral_char s = true.
Proof.
  intros Hp H Hq. apply take_char_Some in H as (c & -> & Hc). simpl.
  now rewrite (Hp c Hc), Hq.
Qed.

Lemma numeral_back_spaces s :
  all_chars numeral_char (skip_spaces s) = true -> all_chars numeral_char s = true.
Proof.
  induction s as [|c s IH]; simpl; [auto|].
  destruct (is_space c) eqn:E; [|auto]. intros H.
  rewrite (IH H), andb_true_r. unfold numeral_char. rewrite E.
  now rewrite orb_true_r.
Qed.

Lemma numeral_back_sign s neg s' :
  take_sign s = (neg, s') ->
  all_chars numeral_char s' = true -> all_chars numeral_char s = true.
Proof.
  unfold take_sign.
  destruct (take_char (Ascii.eqb "-") s) as [q|] eqn:E1.
  { intros H; inversion H; subst. eapply numeral_back_char; [|exact E1].
    intros c Hc. apply Ascii.eqb_eq in Hc as <-. reflexivity. }
  destruct (take_char (Ascii.eqb "+") s) as [q|] eqn:E2.
  { intros H; inversion H; subst. eapply numeral_back_char; [|exact E2].
    intros c Hc. apply Ascii.eqb_eq in Hc as <-. reflexivity. }
  intros H; inversion H; subst. auto.
Qed.

Lemma numeral_back_digits s : forall acc n v m rest,
  take_digits s acc n = (v, m, rest) ->
  all_chars numeral_char rest = true -> all_chars numeral_char s = true.
Proof.
  induction s as [|c s IH]; simpl; intros acc n v m rest H Hr.
  - inversion H; subst. assumption.
  - destruct (is_digit c) eqn:E.
    + rewrite (IH _ _ _ _ _ H Hr), andb_true_r. unfold numeral_char. now rewrite E.
    + inversion H; subst. assumption.
Qed.

Lemma numeral_at_end s : at_end s = true -> all_chars numeral_char s = true.
Proof.
  unfold at_end. intros H. apply numeral_back_spaces.
  destruct (skip_spaces s); [reflexivity|discriminate].
Qed.

Lemma exp_marker_numeral c : is_exp_marker c = true -> numeral_char c = true.
Proof. unfold numeral_char. intros ->. now rewrite orb_true_r. Qed.

Lemma point_numeral c : Ascii.eqb "." c = true -> numeral_char c = true.
Proof. intros H. apply Ascii.eqb_eq in H as <-. reflexivity. Qed.

Lemma read_exponent_numeral neg mant nf maybe_int p n :
  read_exponent neg mant nf maybe_int p = Some n ->
  all_chars numeral_char p = true.
Proof.
  unfold read_exponent.
  destruct (take_char is_exp_marker p) as [q|] eqn:E3.
  - destruct (take_sign q) as [eneg q1] eqn:E4.
    destruct (take_digits q1 0 0) as [[ev ne] q2] eqn:E5.
    destruct (ne =? 0)%nat; [discriminate|].
    destruct (at_end q2) eqn:E6; [|discriminate]. intros _.
    eapply numeral_back_char; [apply exp_marker_numeral|exact E3|].
    eapply numeral_back_sign; [exact E4|].
    eapply numeral_back_digits; [exact E5|]. now apply numeral_at_end.
  - destruct (at_end p) eqn:E6; [|discriminate]. intros _.
    now apply numeral_at_end.
Qed.

Lemma read_digits_numeral neg p n :
  read_digits neg p = Some n -> all_chars numeral_char p = true.
Proof.
  unfold read_digits.
  destruct (take_digits p 0 0) as [[ip ni] p2] eqn:E2.
  intros H. eapply numeral_back_digits; [exact E2|].
  destruct (take_char (Ascii.eqb ".") p2) as [q|] eqn:E3.
  - destruct (take_digits q ip 0) as [[m k] q'] eqn:E4.
    destruct (ni + k =? 0)%nat; [discriminate|].
    eapply numeral_back_char; [apply point_numeral|exact E3|].
    eapply numeral_back_digits; [exact E4|].
    eapply read_exponent_numeral, H.
  - destruct (ni + 0 =? 0)%nat; [discriminate|].
    eapply read_exponent_numeral, H.
Qed.

(** A text that reads as a number holds numeral characters only. *)
Lemma to_double_numeral s n :
  to_double s = Some n -> all_chars numeral_char s = true.
Proof.
  unfold to_double.
  destruct (take_sign (skip_spaces s)) as [neg p1] eqn:E1.
  intros H. apply numeral_back_spaces.
  eapply numeral_back_sign; [exact E1|].
  eapply read_digits_numeral, H.
Qed.

(** A text with a character no numeral holds, other than the words for
    infinity, reads as [nan]. *)
Lemma to_numeric_str_formatted s :
  all_chars numeral_char s = false -> is_inf_word s = false ->
  to_numeric_str s = NumNaN.
Proof.
  intros Hc Hi. unfold to_numeric_str. rewrite Hi.
  destruct (to_double s) as [n|] eqn:E; [|reflexivity].
  apply to_double_numeral in E. congruence.
Qed.

(** ** Integer numerals *)

Lemma take_digits_all ds : forall acc n,
  all_chars is_digit ds = true ->
  take_digits ds acc n = (digits_value ds acc, (n + String.length ds)%nat, "").
Proof.
  induction ds as [|c ds IH]; simpl; intros acc n H.
  - now rewrite Nat.add_0_r.
  - apply andb_true_iff in H as [Hc Hd]. rewrite Hc, IH by assumption.
    now rewrite Nat.add_succ_r.
Qed.

Lemma digit_not_special c :
  is_digit c = true ->
  is_space c = false /\ Ascii.eqb "-" c = false /\ Ascii.eqb "+" c = false.
Proof.
  unfold is_digit, is_space. intros H. apply andb_true_iff in H as [H1 H2].
  apply Z.leb_le in H1. apply Z.leb_le in H2.
  repeat split.
  - apply orb_false_iff; split; [apply Z.eqb_neq; lia|].
    apply andb_false_iff. right. apply Z.leb_gt. lia.
  - apply Ascii.eqb_neq. intros <-. vm_compute in H1. now apply H1.
  - apply Ascii.eqb_neq. intros <-. vm_compute in H1. now apply H1.
Qed.

Lemma read_digits_all neg ds :
  ds <> "" -> all_chars is_digit ds = true ->
  read_digits neg ds = Some (NumInt (signed neg (digits_value ds 0))).
Proof.
  intros Hne Hd. unfold read_digits. rewrite take_digits_all by assumption.
  destruct ds as [|c ds]; [contradiction|]. reflexivity.
Qed.

(** An optional sign and digits read as the integer they write. *)
Lemma to_numeric_str_integer g ds :
  ds <> "" -> all_chars is_digit ds = true ->
  to_numeric_str (sign_text g ++ ds) = NumInt (signed (is_minus g) (digits_value ds 0)).
Proof.
  intros Hne Hd. unfold to_numeric_str, to_double.
  pose proof (read_digits_all (is_minus g) ds Hne Hd) as T.
  destruct g; cbn [sign_text append is_minus] in *.
  - destruct ds as [|c ds]; [contradiction|].
    pose proof Hd as Hc. cbn [all_chars] in Hc. apply andb_true_iff in Hc as [Hc _].
    destruct (digit_not_special c Hc) as (H1 & H2 & H3).
    cbn [skip_spaces]. rewrite H1. unfold take_sign. cbn [take_char]. rewrite H2, H3.
    cbv beta iota. now rewrite T.
  - change (take_sign (skip_spaces (String "+" ds))) with (false, ds).
    cbv beta iota. now rewrite T.
  - change (take_sign (skip_spaces (String "-" ds))) with (true, ds).
    cbv beta iota. now rewrite T.
Qed.

(** * The phone rule *)

Lemma phone_clean_of_nth phone pc i :
  phone_clean_of phone = Ok pc -> (i < List.length phone)%nat ->
  Int64_of (to_numeric_coerce (phone_lambda (dtype_of phone) (nth i phone PNaN)))
  = Ok (nth i pc PNaN).
Proof.
  unfold phone_clean_of, astype_Int64. intros H Hi. rewrite map_map in H.
  pose proof (mapM_Ok_nth _ _ _ i (to_numeric_coerce (phone_lambda (dtype_of phone) PNaN)) PNaN H) as N.
  rewrite length_map in N. specialize (N Hi).
  rewrite (map_nth (fun x => to_numeric_coerce (phone_lambda (dtype_of phone) x))) in N.
  exact N.
Qed.

Lemma field_of_column out name col i :
  getitem out name = Ok col -> (i < List.length (values out))%nat ->
  match nth_error (values out) i with
  | Some row => field out name row
  | None => None
  end = Some (nth i col PNaN).
Proof.
  unfold getitem, field. destruct (index_of name (columns out)) as [j|]; [|discriminate].
  intros H Hi; inversion H; subst.
  destruct (nth_error (values out) i) as [row|] eqn:E.
  - f_equal. symmetry. apply nth_error_nth. now rewrite nth_error_map, E.
  - apply nth_error_None in E. lia.
Qed.

(** The phone cell of row [i] of the table is what the rule makes of
    the [i]-th element of the raw phone column. *)
Lemma phone_clean_at_spec data df phone out i v :
  DataFrame_new data = Ok df -> getitem df "phone" = Ok phone ->
  normalize data = Ok out -> (i < List.length phone)%nat ->
  Int64_of (to_numeric_coerce (phone_lambda (dtype_of phone) (nth i phone PNaN))) = Ok v ->
  phone_clean_at out i = Some v.
Proof.
  intros Hdf Hph Hn Hi Hv.
  apply normalize_Ok_inv in Hn as (df' & phone' & pc & Hdf' & Hph' & Hpc & Hout & Hrows & _).
  rewrite Hdf in Hdf'. inversion Hdf'; subst df'.
  rewrite Hph in Hph'. inversion Hph'; subst phone'.
  rewrite (phone_clean_of_nth _ _ _ Hpc Hi) in Hv. inversion Hv; subst v.
  unfold phone_clean_at. apply field_of_column; [assumption|].
  rewrite Hrows. destruct (DataFrame_new_shape _ _ Hdf) as [n S].
  rewrite (getitem_length _ _ _ _ S Hph) in Hi. now destruct S as [_ ->].
Qed.

(** * Frames built from records *)

Lemma mem_In k ks : mem k ks = true <-> In k ks.
Proof.
  unfold mem. rewrite existsb_exists. split.
  - intros (x & Hx & E). apply String.eqb_eq in E. now subst.
  - intros H. exists k. split; [assumption|apply String.eqb_refl].
Qed.

Lemma add_keys_In k ks : forall seen,
  In k (add_keys seen ks) <-> In k seen \/ In k ks.
Proof.
  induction ks as [|k' ks IH]; simpl; intros seen; [tauto|].
  rewrite IH. destruct (mem k' seen) eqn:E.
  - apply mem_In in E. intuition (subst; auto).
  - rewrite in_app_iff. simpl. tauto.
Qed.

Lemma fold_keys_In k (rs : list record) : forall seen,
  In k (fold_left (fun seen r => add_keys seen (map fst r)) rs seen)
  <-> In k seen \/ exists r, In r rs /\ In k (map fst r).
Proof.
  induction rs as [|r rs IH]; simpl; intros seen.
  - split; [tauto|]. intros [H|(r & [] & _)]; assumption.
  - rewrite IH, add_keys_In. split.
    + intros [[H|H]|(r' & H1 & H2)]; eauto.
    + intros [H|(r' & [<-|H1] & H2)]; eauto.
Qed.

Lemma assoc_In_keys {A : Type} k (l : list (string * A)) :
  assoc k l <> None <-> In k (map fst l).
Proof.
  induction l as [|[k' v] l IH]; simpl; [tauto|].
  destruct (String.eqb_spec k' k) as [->|Hne].
  - split; [auto|discriminate].
  - rewrite IH. tauto.
Qed.

Lemma record_keys_In k rs :
  In k (record_keys rs) <-> exists r, In r rs /\ assoc k r <> None.
Proof.
  unfold record_keys. rewrite fold_keys_In. simpl. split.
  - intros [[]|(r & H1 & H2)]. exists r. now rewrite assoc_In_keys.
  - intros (r & H1 & H2). right. exists r. now rewrite <- assoc_In_keys.
Qed.

Lemma assoc_tabulate {A : Type} (f : string -> A) k ks :
  assoc k (map (fun k => (k, f k)) ks) = if mem k ks then Some (f k) else None.
Proof.
  induction ks as [|k' ks IH]; simpl; [reflexivity|].
  rewrite (String.eqb_sym k k').
  destruct (String.eqb_spec k' k) as [->|Hne]; [reflexivity|]. exact IH.
Qed.

Lemma length_infer_objects col : List.length (infer_objects col) = List.length col.
Proof.
  unfold infer_objects.
  destruct (forallb is_number_or_missing col && existsb _ col); [apply length_map|reflexivity].
Qed.

Lemma length_record_column rs k : List.length (record_column rs k) = List.length rs.
Proof. unfold record_column. now rewrite length_infer_objects, length_map. Qed.

(** The phone column of a frame built from records, when a record has
    the key, and the lookup error when none has. *)
Lemma getitem_records rs k :
  getitem (from_columns (List.length rs)
             (map (fun k => (k, record_column rs k)) (record_keys rs))) k
  = if mem k (record_keys rs) then Ok (record_column rs k) else Raise (KeyError k).
Proof.
  pose proof (assoc_tabulate (record_column rs) k (record_keys rs)) as H.
  destruct (mem k (record_keys rs)).
  - apply getitem_from_columns; [assumption|apply length_record_column].
  - now apply getitem_from_columns_missing.
Qed.

(** Inference leaves [nan] and [None] missing. *)
Lemma infer_objects_missing col i :
  nth i col PNaN = PNaN \/ nth i col PNaN = PNone ->
  nth i (infer_objects col) PNaN = PNaN \/ nth i (infer_objects col) PNaN = PNone.
Proof.
  unfold infer_objects.
  destruct (forallb is_number_or_missing col && existsb _ col); [|auto].
  intros H. left.
  change PNaN with ((fun v => match v with PNone => PNaN | _ => v end) PNaN) at 2.
  rewrite map_nth. destruct H as [-> | ->]; reflexivity.
Qed.

Lemma missing_phone_cell dt v :
  v = PNaN \/ v = PNone ->
  contains "x" (lower (py_str dt v)) = false
  /\ Int64_of (to_numeric_coerce (phone_lambda dt v)) = Ok PNA.
Proof. intros [-> | ->]; split; reflexivity. Qed.

(** * A sign after a digit *)

Lemma sad_cons_nondigit c s :
  is_digit c = false -> sign_after_digit (String c s) = sign_after_digit s.
Proof. intros H. simpl. now rewrite H. Qed.

Lemma space_not_digit c : is_space c = true -> is_digit c = false.
Proof.
  unfold is_space, is_digit. intros H.
  apply orb_true_iff in H as [H|H].
  - apply Z.eqb_eq in H. rewrite H. reflexivity.
  - apply andb_true_iff in H as [_ H]. apply Z.leb_le in H.
    apply andb_false_iff. left. apply Z.leb_gt. lia.
Qed.

Lemma sad_back_spaces s :
  sign_after_digit (skip_spaces s) = false -> sign_after_digit s = false.
Proof.
  induction s as [|c s IH]; [auto|]. cbn [skip_spaces].
  destruct (is_space c) eqn:E; [|auto]. intros H.
  rewrite sad_cons_nondigit by now apply space_not_digit. auto.
Qed.

Lemma sad_back_char p s q :
  (forall c, p c = true -> is_digit c = false) ->
  take_char p s = Some q ->
  sign_after_digit q = false -> sign_after_digit s = false.
Proof.
  intros Hp H Hq. apply take_char_Some in H as (c & -> & Hc).
  now rewrite sad_cons_nondigit by auto.
Qed.

Lemma sad_back_sign s neg s' :
  take_sign s = (neg, s') ->
  sign_after_digit s' = false -> sign_after_digit s = false.
Proof.
  unfold take_sign.
  destruct (take_char (Ascii.eqb "-") s) as [q|] eqn:E1.
  { intros H; inversion H; subst. eapply sad_back_char; [|exact E1].
    intros c Hc. apply Ascii.eqb_eq in Hc as <-. reflexivity. }
  destruct (take_char (Ascii.eqb "+") s) as [q|] eqn:E2.
  { intros H; inversion H; subst. eapply sad_back_char; [|exact E2].
    intros c Hc. apply Ascii.eqb_eq in Hc as <-. reflexivity. }
  intros H; inversion H; subst. auto.
Qed.

Lemma digit_not_sign c : is_digit c = true -> is_sign c = false.
Proof.
  intros H. destruct (digit_not_special c H) as (_ & H1 & H2).
  unfold is_sign. now rewrite H1, H2.
Qed.

Lemma sad_back_digits s : forall acc n v m rest,
  take_digits s acc n = (v, m, rest) ->
  starts_with is_sign rest = false ->
  sign_after_digit rest = false ->
  sign_after_digit s = false /\ starts_with is_sign s = false.
Proof.
  induction s as [|c s IH]; cbn [take_digits]; intros acc n v m rest H Hs Hr.
  - inversion H; subst. auto.
  - destruct (is_digit c) eqn:E.
    + destruct (IH _ _ _ _ _ H Hs Hr) as [H1 H2].
      cbn [sign_after_digit starts_with]. rewrite H1, H2.
      rewrite andb_false_r. split; [reflexivity|now apply digit_not_sign].
    + inversion H; subst. auto.
Qed.

Lemma at_end_plain s :
  at_end s = true -> sign_after_digit s = false /\ starts_with is_sign s = false.
Proof.
  unfold at_end. induction s as [|c s IH]; cbn [skip_spaces]; [auto|].
  destruct (is_space c) eqn:E; [|discriminate]. intros H.
  destruct (IH H) as [H1 H2]. split.
  - now rewrite sad_cons_nondigit by now apply space_not_digit.
  - simpl. unfold is_sign.
    destruct (Ascii.eqb_spec "+" c) as [<-|]; [discriminate|].
    destruct (Ascii.eqb_spec "-" c) as [<-|]; [discriminate|]. reflexivity.
Qed.

Lemma exp_marker_plain c : is_exp_marker c = true -> is_digit c = false /\ is_sign c = false.
Proof.
  unfold is_exp_marker. intros H. apply orb_true_iff in H as [H|H];
    apply Ascii.eqb_eq in H; subst; split; reflexivity.
Qed.

Lemma read_exponent_plain neg mant nf maybe_int p n :
  read_exponent neg mant nf maybe_int p = Some n ->
  sign_after_digit p = false /\ starts_with is_sign p = false.
Proof.
  unfold read_exponent.
  destruct (take_char is_exp_marker p) as [q|] eqn:E3.
  - destruct (take_sign q) as [eneg q1] eqn:E4.
    destruct (take_digits q1 0 0) as [[ev ne] q2] eqn:E5.
    destruct (ne =? 0)%nat; [discriminate|].
    destruct (at_end q2) eqn:E6; [|discriminate]. intros _.
    destruct (at_end_plain _ E6) as [A1 A2].
    destruct (sad_back_digits _ _ _ _ _ _ E5 A2 A1) as [B1 _].
    pose proof (sad_back_sign _ _ _ E4 B1) as C1.
    apply take_char_Some in E3 as (c & -> & Hc).
    destruct (exp_marker_plain c Hc) as [D1 D2].
    split; [now rewrite sad_cons_nondigit|exact D2].
  - destruct (at_end p) eqn:E6; [|discriminate]. intros _.
    now apply at_end_plain.
Qed.

Lemma read_digits_plain neg p n :
  read_digits neg p = Some n -> sign_after_digit p = false.
Proof.
  unfold read_digits.
  destruct (take_digits p 0 0) as [[ip ni] p2] eqn:E2. intros H.
  assert (T : sign_after_digit p2 = false /\ starts_with is_sign p2 = false).
  { destruct (take_char (Ascii.eqb ".") p2) as [q|] eqn:E3.
    - destruct (take_digits q ip 0) as [[m k] q'] eqn:E4.
      destruct (ni + k =? 0)%nat; [discriminate|].
      destruct (read_exponent_plain _ _ _ _ _ _ H) as [A1 A2].
      destruct (sad_back_digits _ _ _ _ _ _ E4 A2 A1) as [B1 _].
      apply take_char_Some in E3 as (c & -> & Hc). apply Ascii.eqb_eq in Hc as <-.
      split; [now rewrite sad_cons_nondigit|reflexivity].
    - destruct (ni + 0 =? 0)%nat; [discriminate|].
      eapply read_exponent_plain, H. }
  destruct T as [T1 T2]. now destruct (sad_back_digits _ _ _ _ _ _ E2 T2 T1).
Qed.



Lemma sad_has_digit s :
  sign_after_digit s = true -> all_chars no_digit s = false.
Proof.
  induction s as [|c s IH]; cbn [sign_after_digit all_chars]; [discriminate|].
  intros H. apply orb_true_iff in H as [H|H].
  - apply andb_true_iff in H as [H _]. unfold no_digit. now rewrite H.
  - rewrite (IH H). apply andb_false_r.
Qed.

Lemma is_digit_lower c : is_digit (lower_ascii c) = is_digit c.
Proof. destruct c as [[] [] [] [] [] [] [] []]; reflexivity. Qed.

Lemma no_digit_lower s : all_chars no_digit (lower s) = all_chars no_digit s.
Proof.
  induction s as [|c s IH]; simpl; [reflexivity|].
  unfold no_digit at 1 3. now rewrite is_digit_lower, IH.
Qed.

Lemma inf_word_no_digit s : is_inf_word s = true -> all_chars no_digit s = true.
Proof.
  unfold is_inf_word. intros W. rewrite <- no_digit_lower.
  repeat (apply orb_true_iff in W as [W|W]);
    apply String.eqb_eq in W; rewrite W; reflexivity.
Qed.

(** A text in which a sign follows a digit does not read as a number. *)
Lemma to_numeric_str_hyphenated s :
  sign_after_digit s = true -> to_numeric_str s = NumNaN.
Proof.
  intros Hs. unfold to_numeric_str.
  destruct (to_double s) as [n|] eqn:E.
  - exfalso. unfold to_double in E.
    destruct (take_sign (skip_spaces s)) as [neg p1] eqn:E1.
    apply read_digits_plain in E. apply (sad_back_sign _ _ _ E1) in E.
    apply sad_back_spaces in E. congruence.
  - destruct (is_inf_word s) eqn:W; [|reflexivity].
    apply inf_word_no_digit in W. apply sad_has_digit in Hs. congruence.
Qed.

(** * Errors of the table are not retried *)

(** A body without an array is refused: a scalar other than null and an
    object of scalars by the frame constructor, null and the empty
    object by the first column lookup. *)
Lemma holds_no_array_rejected data :
  holds_no_array data -> exists e, normalize data = Raise e.
Proof.
  intros [[v ->]|(ms & -> & Hms)].
  - destruct v; eexists; reflexivity.
  - destruct ms as [|m ms]; [eexists; reflexivity|].
    unfold normalize. cbn [DataFrame_new]. rewrite Hms. eexists. reflexivity.
Qed.

Lemma lacks_column_rejected data :
  lacks_column data -> exists e, normalize data = Raise e.
Proof.
  intros (df & name & Hdf & Hin & Hcol).
  destruct (normalize data) as [out|e] eqn:Hn; [|eauto].
  apply normalize_Ok_inv in Hn as (df' & _ & _ & Hdf' & _ & _ & _ & _ & _ & _ & Hcols).
  rewrite Hdf in Hdf'. inversion Hdf'; subst df'.
  destruct (Hcols name Hin) as (c & Hc).
  unfold getitem in Hc. unfold has_column in Hcol.
  destruct (index_of name (columns df)); discriminate.
Qed.

Lemma not_coercible_rejected data :
  not_coercible data -> exists e, normalize data = Raise e.
Proof.
  intros (df & name & col & e' & Hdf & Hin & Hcol & Hcast).
  destruct (normalize data) as [out|e] eqn:Hn; [|eauto].
  apply normalize_Ok_inv in Hn as (df' & _ & _ & Hdf' & _ & _ & _ & _ & _ & Hnum & _).
  rewrite Hdf in Hdf'. inversion Hdf'; subst df'.
  destruct (Hnum name Hin) as (c & c' & Hc & Hc').
  rewrite Hcol in Hc. inversion Hc; subst c. congruence.
Qed.

(** * The query engine *)

Lemma deref_app (h extra : heap) r :
  (r < List.length h)%nat -> deref (h ++ extra)%list r = deref h r.
Proof. intros H. unfold deref. now apply app_nth1. Qed.

Lemma deref_alloc (h : heap) df : deref (h ++ [df])%list (List.length h) = df.
Proof. unfold deref. apply nth_middle. Qed.

Lemma frame_eta df : {| columns := columns df; values := values df |} = df.
Proof. now destruct df. Qed.

Lemma select_eq (f : list pyval -> bool) (rs : list (list pyval)) :
  select (map f rs) rs = filter f rs.
Proof.
  unfold select. induction rs as [|r rs IH]; simpl; [reflexivity|].
  destruct (f r); simpl; now rewrite IH.
Qed.

Lemma filter_filter {A : Type} (f g : A -> bool) (l : list A) :
  filter g (filter f l) = filter (fun x => f x && g x) l.
Proof.
  induction l as [|x l IH]; simpl; [reflexivity|].
  destruct (f x); simpl; [destruct (g x); now rewrite IH|exact IH].
Qed.

Lemma filter_all {A : Type} (f : A -> bool) (l : list A) :
  (forall x, f x = true) -> filter f l = l.
Proof.
  intros H. induction l as [|x l IH]; simpl; [reflexivity|]. now rewrite H, IH.
Qed.

Lemma keeps_columns df df' items row :
  columns df' = columns df -> keeps df' items row = keeps df items row.
Proof. intros H. unfold keeps, field. now rewrite H. Qed.

Lemma keeps_cons df col v items row :
  keeps df ((col, v) :: items) row
  = match field df col row with
    | Some c => cell_eq c v
    | None => true
    end && keeps df items row.
Proof. reflexivity. Qed.

(** The filter loop leaves the store as it was, adds frames to it, and
    ends on a frame that holds the rows which pass every filter. *)
Lemma apply_filters_spec items : forall r h,
  (r < List.length h)%nat ->
  exists r' extra,
    apply_filters items r h = Ok (r', (h ++ extra)%list)
    /\ (r' < List.length (h ++ extra)%list)%nat
    /\ deref (h ++ extra)%list r'
       = {| columns := columns (deref h r);
            values := filter (keeps (deref h r) items) (values (deref h r)) |}.
Proof.
  induction items as [|[col v] items IH]; intros r h Hr.
  - exists r, []. rewrite app_nil_r. repeat split; [assumption|].
    simpl. rewrite filter_all by reflexivity. symmetry. apply frame_eta.
  - cbn [apply_filters]. unfold has_column. set (df := deref h r).
    destruct (index_of col (columns df)) as [i|] eqn:Hi.
    + unfold getitem_eq, getitem. fold df. rewrite Hi. cbn [bind alloc].
      rewrite map_map, select_eq.
      set (df1 := {| columns := columns df;
                     values := filter (fun x => cell_eq (cell i x) v) (values df) |}).
      destruct (IH (List.length h) (h ++ [df1])%list) as (r' & extra & Hrun & Hr' & Hd).
      { rewrite length_app. simpl. lia. }
      exists r', (df1 :: extra). rewrite deref_alloc in Hd.
      replace (h ++ df1 :: extra)%list with ((h ++ [df1]) ++ extra)%list
        by now rewrite <- app_assoc.
      repeat split; [assumption|assumption|].
      rewrite Hd. simpl. f_equal. rewrite filter_filter. apply filter_ext.
      intros row. rewrite keeps_cons. unfold field at 1. rewrite Hi.
      reflexivity.
    + destruct (IH r h Hr) as (r' & extra & Hrun & Hr' & Hd).
      exists r', extra. repeat split; [assumption|assumption|].
      rewrite Hd. fold df. f_equal. apply filter_ext. intros row.
      rewrite keeps_cons. unfold field at 1. now rewrite Hi.
Qed.

(** Labels the frame has are found, and picking their cells is
    projecting on them. *)
Lemma known_indices df names :
  (forall n, In n names -> has_column df n = true) ->
  exists idx,
    mapM (fun n => match index_of n (columns df) with
                   | Some i => Ok i
                   | None => Raise (KeyError n)
                   end) names = Ok idx
    /\ forall row, pick idx row = project df names row.
Proof.
  induction names as [|n names IH]; intros H.
  - exists []. split; reflexivity.
  - destruct IH as (idx & Hidx & Hp); [intros m Hm; apply H; now right|].
    pose proof (H n (or_introl eq_refl)) as Hn. unfold has_column in Hn.
    destruct (index_of n (columns df)) as [i|] eqn:Hi; [|discriminate].
    exists (i :: idx). split.
    + cbn [mapM]. rewrite Hi. cbn [bind]. rewrite Hidx. reflexivity.
    + intros row. simpl. unfold field at 1. rewrite Hi. simpl. now rewrite Hp.
Qed.

Lemma known_has_column df cs n : In n (known df cs) -> has_column df n = true.
Proof. unfold known. intros H. now apply filter_In in H. Qed.

Lemma has_column_columns df df' n :
  columns df' = columns df -> has_column df' n = has_column df n.
Proof. intros H. unfold has_column. now rewrite H. Qed.

Lemma project_columns df df' names row :
  columns df' = columns df -> project df' names row = project df names row.
Proof. intros H. unfold project, field. now rewrite H. Qed.

Lemma filter_step_spec filters r h :
  (r < List.length h)%nat ->
  exists r' extra,
    filter_step filters r h = Ok (r', (h ++ extra)%list)
    /\ (r' < List.length (h ++ extra)%list)%nat
    /\ deref (h ++ extra)%list r'
       = {| columns := columns (deref h r);
            values := filter (keeps (deref h r) (items_of filters))
                        (values (deref h r)) |}.
Proof.
  intros Hr.
  assert (Hid : exists r' extra,
            Ok (r, h) = Ok (r', (h ++ extra)%list)
            /\ (r' < List.length (h ++ extra)%list)%nat
            /\ deref (h ++ extra)%list r'
               = {| columns := columns (deref h r);
                    values := filter (keeps (deref h r) []) (values (deref h r)) |}).
  { exists r, []. rewrite app_nil_r. repeat split; [assumption|].
    simpl. rewrite filter_all by reflexivity. symmetry. apply frame_eta. }
  destruct filters as [[|it items]|]; [exact Hid| |exact Hid].
  apply apply_filters_spec, Hr.
Qed.

Lemma project_step_spec columns' filters df r h :
  deref h r = {| columns := columns df;
                 values := filter (keeps df (items_of filters)) (values df) |} ->
  exists r' extra,
    project_step columns' r h = Ok (r', (h ++ extra)%list)
    /\ deref (h ++ extra)%list r' = matched df filters columns'.
Proof.
  intros Hd.
  assert (Hid : exists r' extra,
            Ok (r, h) = Ok (r', (h ++ extra)%list)
            /\ deref (h ++ extra)%list r'
               = {| columns := columns df;
                    values := filter (keeps df (items_of filters)) (values df) |}).
  { exists r, []. rewrite app_nil_r. split; [reflexivity|exact Hd]. }
  destruct columns' as [[|c cs]|]; [exact Hid| |exact Hid].
  unfold project_step. cbv zeta. rewrite Hd.
  set (kept := filter (keeps df (items_of filters)) (values df)).
  set (dfk := {| columns := columns df; values := kept |}).
  assert (Hk : filter (has_column dfk) (c :: cs) = known df (c :: cs)).
  { unfold known. apply filter_ext. intros n. now apply has_column_columns. }
  rewrite Hk.
  destruct (known_indices dfk (known df (c :: cs))) as (idx & Hidx & Hp).
  { intros n Hn. rewrite (has_column_columns df dfk) by reflexivity.
    eapply known_has_column, Hn. }
  unfold getitem_list. rewrite Hidx. cbn [bind alloc].
  eexists _, [_]. split; [reflexivity|].
  rewrite deref_alloc. unfold matched. fold kept. f_equal. simpl.
  apply map_ext. intros row. rewrite Hp. now apply project_columns.
Qed.

(** The query never raises, leaves the frames of the store as they
    were, and prints what [query_view] says of the table. *)
Lemma dynamic_cli_query_spec r rows filters columns' h :
  (r < List.length h)%nat ->
  exists extra,
    dynamic_cli_query r rows filters columns' h
    = Ok (query_view (deref h r) rows filters columns', (h ++ extra)%list).
Proof.
  intros Hr. unfold dynamic_cli_query, copy. cbn [alloc].
  set (df := deref h r). set (h0 := (h ++ [df])%list).
  assert (H0 : (List.length h < List.length h0)%nat).
  { unfold h0. rewrite length_app. simpl. lia. }
  destruct (filter_step_spec filters (List.length h) h0 H0)
    as (r1 & extra1 & -> & Hr1 & Hd1).
  assert (Hcopy : deref h0 (List.length h) = df) by apply deref_alloc.
  rewrite !Hcopy in Hd1. cbn [bind].
  destruct (project_step_spec columns' filters df r1 _ Hd1)
    as (r2 & extra2 & -> & Hd2).
  cbn [bind alloc].
  rewrite deref_alloc, Hd2. unfold query_view, h0.
  rewrite <- !app_assoc. eexists. reflexivity.
Qed.

(** * What the filters and the projection mean *)

Lemma cell_eq_stored c v : cell_eq c v = true <-> c = stored v.
Proof.
  destruct c, v; simpl; try (split; [discriminate|discriminate]).
  - rewrite Z.eqb_eq. split; [now intros ->|now inversion 1].
  - rewrite String.eqb_eq. split; [now intros ->|now inversion 1].
Qed.

Lemma keeps_satisfies df items row :
  keeps df items row = true <-> satisfies df items row.
Proof.
  unfold keeps, satisfies. rewrite forallb_forall. split.
  - intros H col v c Hin Hf. specialize (H (col, v) Hin). simpl in H.
    rewrite Hf in H. now apply cell_eq_stored.
  - intros H [col v] Hin. simpl.
    destruct (field df col row) as [c|] eqn:Hf; [|reflexivity].
    apply cell_eq_stored. eapply H; eauto.
Qed.

Lemma has_column_In df n : has_column df n = true <-> In n (columns df).
Proof.
  unfold has_column. split.
  - destruct (index_of n (columns df)) as [i|] eqn:E; [|discriminate].
    intros _. apply index_of_Some in E as [_ E]. eapply nth_error_In, E.
  - intros H. destruct (index_of_In _ _ H) as [i ->]. reflexivity.
Qed.

Lemma project_fields df names row :
  (forall n, In n names -> has_column df n = true) ->
  Forall2 (fun name c => field df name row = Some c) names (project df names row).
Proof.
  induction names as [|n names IH]; intros H; simpl; [constructor|].
  pose proof (H n (or_introl eq_refl)) as Hn. unfold has_column in Hn.
  destruct (index_of n (columns df)) as [i|] eqn:Hi; [|discriminate].
  assert (Hf : field df n row = Some (cell i row)) by (unfold field; now rewrite Hi).
  rewrite Hf. simpl. constructor; [exact Hf|].
  apply IH. intros m Hm. apply H. now right.
Qed.

Lemma head_values_nonneg n df :
  0 <= n -> values (head n df) = firstn (Z.to_nat n) (values df).
Proof. intros H. unfold head; simpl. destruct (Z.leb_spec 0 n); [reflexivity|lia]. Qed.

Lemma head_map n cols1 cols2 (f : list pyval -> list pyval) rs :
  values (head n {| columns := cols1; values := map f rs |})
  = map f (values (head n {| columns := cols2; values := rs |})).
Proof.
  unfold head; simpl. rewrite length_map.
  destruct (0 <=? n); now rewrite firstn_map.
Qed.

Lemma matched_length df filters columns' :
  List.length (values (matched df filters columns'))
  = List.length (filter (keeps df (items_of filters)) (values df)).
Proof.
  unfold matched. destruct columns' as [[|c cs]|]; simpl; try reflexivity.
  apply length_map.
Qed.

(** * The claims *)

(** C1.  In a run with [n >= 1] attempts whose first [k < n] attempts
    fail with request errors, each of them is followed by a sleep of
    [2 ^ attempt] time units (1, 2, 4, ...) and then by the next
    attempt.  If attempt [k] succeeds the run returns the normalised
    table at once; if attempt [k] is the last one and fails, the run
    re-raises that failure with its cause and does not sleep after it. *)
Theorem retry_backoff (net : string -> nat -> except body) (url : string) (n : Z)
    (causes : list string) :
  (List.length causes < Z.to_nat n)%nat ->
  fails_first net url causes ->
  let k := List.length causes in
  let run := scrape_employees net url n in
  sleeps (retried url O causes) = map (fun j => 2 ^ Z.of_nat j) (seq O k)
  /\ (forall data df,
        net url k = Ok data -> normalize data = Ok df ->
        run = ((retried url O causes ++ [HttpGet url 10])%list, Ok df)
        /\ sleeps (fst run) = map (fun j => 2 ^ Z.of_nat j) (seq O k))
  /\ (forall c,
        net url k = Raise (RequestException c) -> Z.of_nat k = n - 1 ->
        run = ((retried url O causes
                 ++ [HttpGet url 10; Print n (RequestException c)])%list,
               Raise (RequestException c))
        /\ sleeps (fst run) = map (fun j => 2 ^ Z.of_nat j) (seq O k)).
Proof.
  intros Hk Hf k run.
  assert (Hrun : run =
    ((retried url O causes ++ fst (attempts net url n k (Z.to_nat n - k)))%list,
     snd (attempts net url n k (Z.to_nat n - k)))).
  { unfold run, scrape_employees.
    rewrite (attempts_retried net url n causes O (Z.to_nat n)); [reflexivity| |lia|simpl; fold k; lia].
    intros j c Hj. now apply Hf. }
  split; [apply sleeps_retried|].
  destruct (Z.to_nat n - k)%nat as [|rem] eqn:Hrem; [lia|].
  split.
  - intros data df Hd Hn. rewrite Hrun. cbn [attempts]. rewrite Hd. cbn [bind].
    rewrite Hn. cbn [fst snd]. split; [reflexivity|].
    rewrite sleeps_app, sleeps_retried. simpl. now rewrite app_nil_r.
  - intros c Hc Hlast. rewrite Hrun. cbn [attempts]. rewrite Hc.
    cbn [bind is_request_exception]. rewrite (proj2 (Z.eqb_eq _ _) Hlast).
    cbn [fst snd]. replace (Z.of_nat k + 1) with n by lia.
    split; [reflexivity|].
    rewrite sleeps_app, sleeps_retried. simpl. now rewrite app_nil_r.
Qed.

Lemma retry_backoff_witness :
  exists df,
    normalize sample_data = Ok df
    /\ scrape_employees (flaky sample_data) "http://source" 3
       = ([HttpGet "http://source" 10; Print 1 (RequestException "connection reset");
           Sleep 1;
           HttpGet "http://source" 10; Print 2 (RequestException "read timed out");
           Sleep 2;
           HttpGet "http://source" 10], Ok df)
    /\ sleeps (fst (scrape_employees (flaky sample_data) "http://source" 3)) = [1; 2].
Proof.
  assert (N : exists df, normalize sample_data = Ok df)
    by (eexists; vm_compute; reflexivity).
  destruct N as [df N]. exists df. split; [exact N|].
  destruct (retry_backoff (flaky sample_data) "http://source" 3
              ["connection reset"; "read timed out"]) as (_ & Hok & _).
  - cbv. repeat constructor.
  - intros [|[|[|j]]] c H; simpl in H; inversion H; reflexivity.
  - exact (Hok sample_data df eq_refl N).
Defined.

(** C2.  Every integer number of years falls in exactly one band of the
    designation table and [get_designation] returns the label of that
    band: below 3 (negatives included) "System Engineer", from 3 to 4
    "Data Engineer", from 5 to 9 "Senior Data Engineer", 10 and above
    "Lead".  The function run on the integer element of a column gives
    the same label. *)
Theorem designation_bands (y : Z) :
  band y (get_designation y)
  /\ (forall d, band y d -> d = get_designation y)
  /\ get_designation_py (PInt y) = Ok (get_designation y).
Proof.
  split; [|split; [|apply get_designation_py_int]].
  - unfold get_designation.
    destruct (Z.ltb_spec y 3); [now constructor|].
    destruct (Z.leb_spec 3 y); [|lia]; simpl.
    destruct (Z.ltb_spec y 5); [constructor; lia|].
    destruct (Z.leb_spec 5 y); [|lia]; simpl.
    destruct (Z.ltb_spec y 10); constructor; lia.
  - intros d Hd. apply band_inv in Hd. unfold get_designation.
    destruct (Z.ltb_spec y 3); [intuition (try lia; auto)|].
    destruct (Z.leb_spec 3 y); [|lia]; simpl.
    destruct (Z.ltb_spec y 5); [intuition (try lia; auto)|].
    destruct (Z.leb_spec 5 y); [|lia]; simpl.
    destruct (Z.ltb_spec y 10); intuition (try lia; auto).
Qed.

(** C3. A raw phone value whose text holds an [x] or an [X] anywhere is
    made null: the rule turns that cell into [pd.NA] without raising,
    and in every table the normaliser returns the [phone_clean] field of
    that row is null. *)
Theorem phone_with_x_is_null (data : body) (df : DataFrame) (phone : list pyval)
    (i : nat) :
  DataFrame_new data = Ok df ->
  getitem df "phone" = Ok phone ->
  (i < List.length phone)%nat ->
  contains "x" (lower (py_str (dtype_of phone) (nth i phone PNaN))) = true ->
  Int64_of (to_numeric_coerce (phone_lambda (dtype_of phone) (nth i phone PNaN)))
    = Ok PNA
  /\ forall out, normalize data = Ok out -> phone_clean_at out i = Some PNA.
Proof.
  intros Hdf Hph Hi Hx.
  assert (Hcell : Int64_of (to_numeric_coerce
                    (phone_lambda (dtype_of phone) (nth i phone PNaN))) = Ok PNA).
  { unfold phone_lambda. now rewrite Hx. }
  split; [exact Hcell|].
  intros out Hout. eapply phone_clean_at_spec; eauto.
Qed.

Lemma phone_with_x_is_null_witness :
  exists out,
    normalize sample_data = Ok out /\ phone_clean_at out 0 = Some PNA.
Proof.
  eexists. split; [vm_compute; reflexivity|].
  refine (proj2 (phone_with_x_is_null sample_data _ [PStr "+1-971-533-4552x1542"] 0
                   _ _ _ _) _ _);
    vm_compute; reflexivity.
Defined.

(** C4, as stated, fails: the formatted number of the claim keeps its
    hyphens, is not a numeral, and becomes null instead of 19715334552. *)
Lemma formatted_phone_not_stripped :
  contains "x" (lower "+1-971-533-4552") = false
  /\ exists out,
       normalize (JRecords [employee (Some (JString "+1-971-533-4552"))]) = Ok out
       /\ phone_clean_at out 0 = Some PNA
       /\ phone_clean_at out 0 <> Some (PInt 19715334552).
Proof.
  split; [reflexivity|]. eexists. split; [vm_compute; reflexivity|].
  split; [reflexivity|discriminate].
Qed.

(** C4, amended.  For a phone text without [x]/[X] nothing is stripped:
    the text as a whole is read as a number.  A numeral made of an
    optional sign and digits (of magnitude at most 2^53) gives that
    integer.  A text is made null when a sign stands directly after one
    of its digits, as the hyphens of a formatted number do, or when it
    holds any character other than digits, signs, the point, the
    exponent marker and white space and is not a word for infinity. *)
Theorem phone_without_x_is_read_whole (data : body) (df : DataFrame)
    (phone : list pyval) (i : nat) (s : string) :
  DataFrame_new data = Ok df ->
  getitem df "phone" = Ok phone ->
  (i < List.length phone)%nat ->
  nth i phone PNaN = PStr s ->
  contains "x" (lower s) = false ->
  let cell := Int64_of (to_numeric_coerce (phone_lambda (dtype_of phone) (PStr s))) in
  cell = Int64_of (to_numeric_str s)
  /\ (forall g ds,
        s = sign_text g ++ ds -> ds <> "" -> all_chars is_digit ds = true ->
        digits_value ds 0 <= 2 ^ 53 ->
        cell = Ok (PInt (signed (is_minus g) (digits_value ds 0)))
        /\ forall out, normalize data = Ok out ->
             phone_clean_at out i
             = Some (PInt (signed (is_minus g) (digits_value ds 0))))
  /\ (sign_after_digit s = true
       \/ (all_chars numeral_char s = false /\ is_inf_word s = false) ->
        cell = Ok PNA
        /\ forall out, normalize data = Ok out -> phone_clean_at out i = Some PNA).
Proof.
  intros Hdf Hph Hi Hs Hx cell.
  assert (Hcell : cell = Int64_of (to_numeric_str s)).
  { unfold cell, phone_lambda. cbn [py_str]. now rewrite Hx. }
  assert (Hat : forall v out, cell = Ok v -> normalize data = Ok out ->
                              phone_clean_at out i = Some v).
  { intros v out Hv Hout. eapply phone_clean_at_spec; eauto. now rewrite Hs. }
  split; [exact Hcell|]. split.
  - intros g ds -> Hne Hd _.
    assert (C : cell = Ok (PInt (signed (is_minus g) (digits_value ds 0)))).
    { rewrite Hcell, to_numeric_str_integer by assumption. reflexivity. }
    split; [exact C|]. intros out. now apply Hat.
  - intros Hfmt.
    assert (C : cell = Ok PNA).
    { rewrite Hcell. destruct Hfmt as [Hh|[Hc Hw]].
      - now rewrite to_numeric_str_hyphenated.
      - now rewrite to_numeric_str_formatted. }
    split; [exact C|]. intros out. now apply Hat.
Qed.

Lemma phone_without_x_is_read_whole_witness :
  exists out,
    normalize (JRecords [employee (Some (JString "19715334552"))]) = Ok out
    /\ phone_clean_at out 0 = Some (PInt 19715334552).
Proof.
  eexists. split; [vm_compute; reflexivity|].
  refine (proj2 (proj1 (proj2
            (phone_without_x_is_read_whole
               (JRecords [employee (Some (JString "19715334552"))])
               _ [PStr "19715334552"] 0 "19715334552" _ _ _ _ _))
            NoSign "19715334552" _ _ _ _) _ _);
    try (vm_compute; reflexivity); try discriminate.
Defined.

(** C5, as stated, fails: a body that is a JSON object holding the
    columns as arrays is not an array of objects, yet it is read
    column-wise and a table is returned; no error is surfaced. *)
Lemma columnar_body_is_accepted :
  is_records sample_columns = false
  /\ exists out,
       scrape_employees (steady sample_columns) "http://source" 3
       = ([HttpGet "http://source" 10], Ok out).
Proof. split; [reflexivity|]. eexists. vm_compute. reflexivity. Qed.

(** An age that is not an integer numeral is refused by [astype(int)],
    and the run ends on that error after a single request. *)
Example age_text_is_refused :
  scrape_employees
    (steady (JRecords [employee_with (Some (JString "19715334552"))
                         (JString "twenty-five")]))
    "http://source" 3
  = ([HttpGet "http://source" 10],
     Raise (ValueError "invalid literal for int() with base 10")).
Proof. vm_compute. reflexivity. Qed.

(** C5, amended.  Whenever building or normalising the table from a
    response body raises an error, that error is not a request error
    and is surfaced at once: the run ends with it, issues no further
    request and sleeps only after the failed requests that came before.
    An error is raised for every body that holds no array (a JSON
    scalar, an object of scalars), for every body whose frame lacks a
    column the normaliser reads, and whenever [astype(int)] refuses the
    age, years_of_experience or salary column. *)
Theorem table_errors_are_not_retried (net : string -> nat -> except body)
    (url : string) (n : Z) (causes : list string) (data : body) :
  (List.length causes < Z.to_nat n)%nat ->
  fails_first net url causes ->
  net url (List.length causes) = Ok data ->
  holds_no_array data \/ lacks_column data \/ not_coercible data
  \/ (exists e, normalize data = Raise e) ->
  let k := List.length causes in
  let run := scrape_employees net url n in
  exists e,
    normalize data = Raise e
    /\ is_request_exception e = false
    /\ run = ((retried url O causes ++ [HttpGet url 10])%list, Raise e)
    /\ sleeps (fst run) = map (fun j => 2 ^ Z.of_nat j) (seq O k)
    /\ requests_made (fst run) = S k.
Proof.
  intros Hk Hf Hd Hbad k run.
  assert (He : exists e, normalize data = Raise e).
  { destruct Hbad as [H|[H|[H|H]]];
      [now apply holds_no_array_rejected|now apply lacks_column_rejected
      |now apply not_coercible_rejected|exact H]. }
  destruct He as [e He]. exists e.
  pose proof (normalize_quiet data e He) as Hq.
  assert (Hrun : run = ((retried url O causes ++ [HttpGet url 10])%list, Raise e)).
  { unfold run, scrape_employees.
    rewrite (attempts_retried net url n causes O (Z.to_nat n));
      [| |lia|simpl; fold k; lia].
    - simpl (O + _)%nat. fold k.
      destruct (Z.to_nat n - k)%nat as [|rem] eqn:Hrem; [lia|].
      cbn [attempts]. unfold k. rewrite Hd. cbn [bind]. rewrite He, Hq. reflexivity.
    - intros j c Hj. now apply Hf. }
  repeat split; try assumption.
  - rewrite Hrun. cbn [fst]. rewrite sleeps_app, sleeps_retried. simpl.
    now rewrite app_nil_r.
  - rewrite Hrun. cbn [fst]. rewrite requests_made_app, requests_made_retried.
    change (requests_made [HttpGet url 10]) with 1%nat. unfold k. lia.
Qed.

Lemma table_errors_are_not_retried_witness :
  exists e,
    scrape_employees (flaky (JScalar (JString "Service unavailable"))) "http://source" 5
    = ([HttpGet "http://source" 10; Print 1 (RequestException "connection reset");
        Sleep 1;
        HttpGet "http://source" 10; Print 2 (RequestException "read timed out");
        Sleep 2;
        HttpGet "http://source" 10], Raise e).
Proof.
  destruct (table_errors_are_not_retried
              (flaky (JScalar (JString "Service unavailable"))) "http://source" 5
              ["connection reset"; "read timed out"]
              (JScalar (JString "Service unavailable")))
    as (e & _ & _ & Hrun & _).
  - cbv. repeat constructor.
  - intros [|[|[|j]]] c H; simpl in H; inversion H; reflexivity.
  - reflexivity.
  - left. left. eexists. reflexivity.
  - exists e. exact Hrun.
Defined.

(** C6.  With a non-empty filter mapping and no projection the query
    keeps a row if and only if, under every filter field that names a
    column of the table, the row stores exactly the filter value (a
    conjunction over the filters, equality of stored values with no
    conversion); a field that names no column puts no condition and
    raises nothing; the rows kept come in the order of the table. *)
Theorem filters_are_a_conjunction (h : heap) (df_ref : ref) (rows : Z)
    (items : list (string * value)) :
  (df_ref < List.length h)%nat ->
  items <> [] ->
  0 <= rows ->
  let df := deref h df_ref in
  exists rep h',
    dynamic_cli_query df_ref rows (Some items) None h = Ok (rep, h')
    /\ (forall row, keeps df items row = true <-> satisfies df items row)
    /\ columns (printed rep) = columns df
    /\ values (printed rep)
       = firstn (Z.to_nat rows) (filter (keeps df items) (values df))
    /\ total rep = Z.of_nat (List.length (filter (keeps df items) (values df))).
Proof.
  intros Hr _ Hrows df.
  destruct (dynamic_cli_query_spec df_ref rows (Some items) None h Hr) as [extra Hq].
  eexists _, _. split; [exact Hq|]. fold df.
  split; [intros row; apply keeps_satisfies|].
  unfold query_view, matched. cbn [items_of printed total columns head].
  split; [reflexivity|]. split; [|reflexivity].
  now rewrite head_values_nonneg.
Qed.

Lemma filters_are_a_conjunction_witness :
  exists rep h',
    dynamic_cli_query O 5
      (Some [("department", VStr "Product"); ("gender", VStr "male");
             ("team", VStr "none")]) None [staff]
    = Ok (rep, h')
    /\ values (printed rep) = [nth 0%nat (values staff) []; nth 2%nat (values staff) []]
    /\ total rep = 2.
Proof.
  destruct (filters_are_a_conjunction [staff] O 5
              [("department", VStr "Product"); ("gender", VStr "male");
               ("team", VStr "none")])
    as (rep & h' & Hq & _ & _ & Hv & Ht).
  - simpl. lia.
  - discriminate.
  - lia.
  - exists rep, h'. split; [exact Hq|]. split; [rewrite Hv|rewrite Ht]; reflexivity.
Defined.

(** C7.  With a non-empty list of requested columns the query prints
    the requested labels the table has, in the order requested, and for
    every surviving row exactly the cells under those labels, in that
    order; a requested label the table does not have is dropped and
    raises nothing. *)
Theorem projection_keeps_requested_order (h : heap) (df_ref : ref) (rows : Z)
    (filters : option (list (string * value))) (cs : list string) :
  (df_ref < List.length h)%nat ->
  cs <> [] ->
  let df := deref h df_ref in
  exists rep rep0 h1 h0,
    dynamic_cli_query df_ref rows filters (Some cs) h = Ok (rep, h1)
    /\ dynamic_cli_query df_ref rows filters None h = Ok (rep0, h0)
    /\ columns (printed rep) = filter (has_column df) cs
    /\ (forall name, has_column df name = true <-> In name (columns df))
    /\ values (printed rep)
       = map (project df (columns (printed rep))) (values (printed rep0))
    /\ (forall row,
          Forall2 (fun name c => field df name row = Some c)
            (columns (printed rep)) (project df (columns (printed rep)) row))
    /\ total rep = total rep0.
Proof.
  intros Hr Hcs df.
  destruct (dynamic_cli_query_spec df_ref rows filters (Some cs) h Hr) as [e1 H1].
  destruct (dynamic_cli_query_spec df_ref rows filters None h Hr) as [e0 H0].
  eexists _, _, _, _. split; [exact H1|]. split; [exact H0|]. fold df.
  destruct cs as [|c cs]; [contradiction|].
  unfold query_view, matched. cbn [printed total].
  split; [reflexivity|]. split; [intros name; apply has_column_In|].
  split; [|split].
  - cbn [head columns]. apply head_map.
  - intros row. cbn [head columns]. apply project_fields.
    intros n Hn. eapply known_has_column, Hn.
  - cbn [values]. now rewrite length_map.
Qed.

Lemma projection_keeps_requested_order_witness :
  exists rep h',
    dynamic_cli_query O 2 None (Some ["salary"; "nickname"; "full_name"]) [staff]
    = Ok (rep, h')
    /\ columns (printed rep) = ["salary"; "full_name"]
    /\ values (printed rep)
       = [[PInt 8500; PStr "Jose Lopez"]; [PInt 15000; PStr "Ann Lee"]].
Proof.
  destruct (projection_keeps_requested_order [staff] O 2 None
              ["salary"; "nickname"; "full_name"])
    as (rep & rep0 & h1 & h0 & Hq & Hq0 & Hc & _ & Hv & _).
  - simpl. lia.
  - discriminate.
  - exists rep, h1. split; [exact Hq|]. split; [rewrite Hc; reflexivity|].
    rewrite Hv, Hc. vm_compute in Hq0. inversion Hq0; subst rep0. reflexivity.
Defined.

(** C8.  For a limit [rows >= 0] the query prints the first
    [min(rows, M)] rows of the filtered (and projected) result, where
    [M] is the number of rows that pass the filters; a limit of 0 prints
    no row, a limit of [M] or more prints all [M]; the header reports
    the number of rows printed and [M]. *)
Theorem head_truncates_the_matches (h : heap) (df_ref : ref) (rows : Z)
    (filters : option (list (string * value))) (columns' : option (list string)) :
  (df_ref < List.length h)%nat ->
  0 <= rows ->
  let df := deref h df_ref in
  let result := matched df filters columns' in
  let M := Z.of_nat (List.length (filter (keeps df (items_of filters)) (values df))) in
  exists rep h',
    dynamic_cli_query df_ref rows filters columns' h = Ok (rep, h')
    /\ Z.of_nat (List.length (values result)) = M
    /\ values (printed rep) = firstn (Z.to_nat (Z.min rows M)) (values result)
    /\ Z.of_nat (List.length (values (printed rep))) = Z.min rows M
    /\ displaying rep = Z.min rows M
    /\ total rep = M
    /\ (rows = 0 -> values (printed rep) = [])
    /\ (M <= rows -> values (printed rep) = values result).
Proof.
  intros Hr Hrows df result M.
  destruct (dynamic_cli_query_spec df_ref rows filters columns' h Hr) as [extra Hq].
  eexists _, _. split; [exact Hq|]. fold df. unfold query_view. fold result.
  cbn [printed displaying total].
  assert (HM : Z.of_nat (List.length (values result)) = M).
  { unfold result, M. now rewrite matched_length. }
  split; [exact HM|].
  rewrite head_values_nonneg by assumption. rewrite HM.
  assert (Hcut : firstn (Z.to_nat rows) (values result)
                 = firstn (Z.to_nat (Z.min rows M)) (values result)).
  { destruct (Z.le_ge_cases rows M) as [L|L].
    - now rewrite Z.min_l.
    - rewrite Z.min_r by assumption.
      rewrite !firstn_all2 by lia. reflexivity. }
  split; [exact Hcut|]. split.
  { rewrite Hcut, length_firstn. lia. }
  split; [reflexivity|]. split; [reflexivity|]. split.
  - intros ->. reflexivity.
  - intros L. apply firstn_all2. lia.
Qed.

Lemma head_truncates_the_matches_witness :
  exists rep h',
    dynamic_cli_query O 1 (Some [("gender", VStr "male")]) None [staff] = Ok (rep, h')
    /\ values (printed rep) = [nth 0%nat (values staff) []]
    /\ displaying rep = 1
    /\ total rep = 2.
Proof.
  destruct (head_truncates_the_matches [staff] O 1 (Some [("gender", VStr "male")]) None)
    as (rep & h' & Hq & _ & Hv & _ & Hd & Ht & _).
  - simpl. lia.
  - lia.
  - exists rep, h'. split; [exact Hq|].
    split; [rewrite Hv|split; [rewrite Hd|rewrite Ht]]; reflexivity.
Defined.

(** C9.  A query never raises and never writes to a frame of the store:
    run twice with the same arguments on the same table it prints the
    same report, and after each run the table, like every frame that
    was in the store, is what it was. *)
Theorem query_is_repeatable (h : heap) (df_ref : ref) (rows : Z)
    (filters : option (list (string * value))) (columns' : option (list string)) :
  (df_ref < List.length h)%nat ->
  exists rep h1 h2,
    dynamic_cli_query df_ref rows filters columns' h = Ok (rep, h1)
    /\ dynamic_cli_query df_ref rows filters columns' h1 = Ok (rep, h2)
    /\ forall r, (r < List.length h)%nat ->
         deref h1 r = deref h r /\ deref h2 r = deref h r.
Proof.
  intros Hr.
  destruct (dynamic_cli_query_spec df_ref rows filters columns' h Hr) as [e1 H1].
  assert (Hr1 : (df_ref < List.length (h ++ e1)%list)%nat)
    by (rewrite length_app; lia).
  destruct (dynamic_cli_query_spec df_ref rows filters columns' _ Hr1) as [e2 H2].
  rewrite (deref_app h e1 df_ref Hr) in H2.
  eexists _, _, _. split; [exact H1|]. split; [exact H2|].
  intros r Hlt. split.
  - now apply deref_app.
  - rewrite <- app_assoc. now apply deref_app.
Qed.

Lemma query_is_repeatable_witness :
  exists rep h1 h2,
    dynamic_cli_query O 5 (Some [("designation", VStr "Lead")]) (Some ["full_name"])
      [staff] = Ok (rep, h1)
    /\ dynamic_cli_query O 5 (Some [("designation", VStr "Lead")]) (Some ["full_name"])
         h1 = Ok (rep, h2)
    /\ deref h1 O = staff /\ deref h2 O = staff.
Proof.
  destruct (query_is_repeatable [staff] O 5 (Some [("designation", VStr "Lead")])
              (Some ["full_name"]))
    as (rep & h1 & h2 & H1 & H2 & Hsame).
  - simpl. lia.
  - exists rep, h1, h2. split; [exact H1|]. split; [exact H2|].
    apply (Hsame O). simpl. lia.
Defined.

(** C10, as stated, fails: when no record of the response has a phone
    key the frame has no phone column and the rule raises [KeyError]. *)
Lemma missing_phone_column_raises :
  assoc "phone" (employee None) = None
  /\ normalize (JRecords [employee None]) = Raise (KeyError "phone")
  /\ snd (scrape_employees (steady (JRecords [employee None])) "http://source" 3)
     = Raise (KeyError "phone").
Proof. repeat split; vm_compute; reflexivity. Qed.

(** C10, amended.  When at least one record of the response has a phone
    key, the phone column exists, and for every record whose phone is
    absent or null the rule meets a missing value ([nan] or [None]),
    whose text holds no [x], and makes it null without raising; in every
    table the normaliser returns, [phone_clean] of that row is null. *)
Theorem missing_phone_is_null (rs : list record) :
  (exists r, In r rs /\ assoc "phone" r <> None) ->
  exists df phone,
    DataFrame_new (JRecords rs) = Ok df
    /\ getitem df "phone" = Ok phone
    /\ forall i r,
         nth_error rs i = Some r ->
         assoc "phone" r = None \/ assoc "phone" r = Some JNull ->
         (nth i phone PNaN = PNaN \/ nth i phone PNaN = PNone)
         /\ contains "x" (lower (py_str (dtype_of phone) (nth i phone PNaN))) = false
         /\ Int64_of (to_numeric_coerce
                        (phone_lambda (dtype_of phone) (nth i phone PNaN))) = Ok PNA
         /\ forall out, normalize (JRecords rs) = Ok out ->
              phone_clean_at out i = Some PNA.
Proof.
  intros Hkey. apply record_keys_In, mem_In in Hkey.
  eexists. exists (record_column rs "phone").
  split; [reflexivity|].
  assert (Hget : getitem (from_columns (List.length rs)
                   (map (fun k => (k, record_column rs k)) (record_keys rs))) "phone"
                 = Ok (record_column rs "phone")).
  { rewrite getitem_records. now rewrite Hkey. }
  split; [exact Hget|].
  intros i r Hr Hmiss.
  assert (Hi : (i < List.length rs)%nat) by (apply nth_error_Some; congruence).
  assert (Hcell : nth i (record_column rs "phone") PNaN = PNaN
                  \/ nth i (record_column rs "phone") PNaN = PNone).
  { unfold record_column. apply infer_objects_missing.
    assert (E : nth i (map (fun r0 : list (string * json_scalar) =>
                   match assoc "phone" r0 with
                   | Some j => py_of_json j
                   | None => PNaN
                   end) rs) PNaN
                = match assoc "phone" r with
                  | Some j => py_of_json j
                  | None => PNaN
                  end).
    { apply nth_error_nth. rewrite nth_error_map.
      unfold record in Hr. rewrite Hr. reflexivity. }
    rewrite E. destruct Hmiss as [-> | ->]; auto. }
  destruct (missing_phone_cell (dtype_of (record_column rs "phone")) _ Hcell) as [Hx Hnull].
  repeat split; try assumption.
  intros out Hout. eapply phone_clean_at_spec; eauto.
  - reflexivity.
  - now rewrite length_record_column.
Qed.

Lemma missing_phone_is_null_witness :
  exists out,
    normalize (JRecords [employee (Some (JString "19715334552")); employee None])
      = Ok out
    /\ phone_clean_at out 1 = Some PNA.
Proof.
  eexists. split; [vm_compute; reflexivity|].
  destruct (missing_phone_is_null
              [employee (Some (JString "19715334552")); employee None])
    as (df & phone & _ & _ & H).
  - exists (employee (Some (JString "19715334552"))). split; [now left|discriminate].
  - destruct (H 1%nat (employee None) eq_refl (or_introl eq_refl)) as (_ & _ & _ & Hout).
    apply Hout. vm_compute; reflexivity.
Defined.


(** * Further properties of the code *)

(** * The columns of a normalised table *)

Lemma getitem_list_shape n df names out :
  shape n df -> getitem_list df names = Ok out -> shape n out.
Proof.
  intros [_ Hn] H. apply getitem_list_inv in H as (idx & Hidx & ->).
  split; simpl.
  - unfold rectangular; simpl. apply Forall_forall. intros r Hr.
    apply in_map_iff in Hr as (r0 & <- & _). unfold pick.
    rewrite length_map. symmetry. eapply Forall2_length, Hidx.
  - now rewrite length_map.
Qed.

Lemma cast_str_column n df name df' :
  shape n df -> cast_str df name = Ok df' ->
  exists c, getitem df name = Ok c
            /\ getitem df' name = Ok (astype_str (dtype_of c) c).
Proof.
  intros Hs H. unfold cast_str in H. apply bind_Ok_inv in H as (c & Hc & H).
  inversion H; subst. exists c. split; [assumption|].
  apply (getitem_setitem_same n); [assumption|].
  unfold astype_str. rewrite length_map. eapply getitem_length; eauto.
Qed.

Lemma cast_int_column n df name df' :
  shape n df -> cast_int df name = Ok df' ->
  exists c c', getitem df name = Ok c /\ astype_int c = Ok c'
               /\ getitem df' name = Ok c'.
Proof.
  intros Hs H. unfold cast_int in H. apply bind_Ok_inv in H as (c & Hc & H).
  apply bind_Ok_inv in H as (c' & Hc' & H). inversion H; subst.
  exists c, c'. repeat split; try assumption.
  apply (getitem_setitem_same n); [assumption|].
  rewrite (astype_int_length _ _ Hc'). eapply getitem_length; eauto.
Qed.

(** How every column of a returned table derives from the frame built
    from the body. *)
Lemma normalize_Ok_columns data out :
  normalize data = Ok out ->
  exists df n yoe des fn sp ln full phone pc email gender job dept age age' yoe' sal sal',
    DataFrame_new data = Ok df /\ shape n df /\ shape n out
    /\ columns out = output_columns
    /\ (getitem df "years_of_experience" = Ok yoe
        /\ mapM get_designation_py yoe = Ok des
        /\ astype_int yoe = Ok yoe')
    /\ (getitem df "first_name" = Ok fn /\ series_add_str fn " " = Ok sp
        /\ getitem df "last_name" = Ok ln /\ series_add sp ln = Ok full)
    /\ (getitem df "phone" = Ok phone /\ phone_clean_of phone = Ok pc)
    /\ (getitem df "email" = Ok email /\ getitem df "gender" = Ok gender
        /\ getitem df "job_title" = Ok job /\ getitem df "department" = Ok dept)
    /\ (getitem df "age" = Ok age /\ astype_int age = Ok age'
        /\ getitem df "salary" = Ok sal /\ astype_int sal = Ok sal')
    /\ getitem out "full_name" = Ok (astype_str object_ full)
    /\ getitem out "email" = Ok (astype_str (dtype_of email) email)
    /\ getitem out "phone_clean" = Ok pc
    /\ getitem out "gender" = Ok (astype_str (dtype_of gender) gender)
    /\ getitem out "age" = Ok age'
    /\ getitem out "job_title" = Ok (astype_str (dtype_of job) job)
    /\ getitem out "years_of_experience" = Ok yoe'
    /\ getitem out "salary" = Ok sal'
    /\ getitem out "department" = Ok (astype_str (dtype_of dept) dept)
    /\ getitem out "designation" = Ok (map PStr des).
Proof.
  unfold normalize. intros H.
  step H df Hdf. destruct (DataFrame_new_shape _ _ Hdf) as [n S0].
  step H yoe Hyoe. step H des Hdes. cbv zeta in H.
  assert (L1 : List.length (map PStr des) = n).
  { rewrite length_map, (mapM_Ok_length _ _ _ Hdes). eapply getitem_length; eauto. }
  assert (S1 : shape n (setitem df "designation" (map PStr des)))
    by now apply shape_setitem.
  set (df1 := setitem df "designation" (map PStr des)) in *.
  step H fn Hfirst. step H sp Hsp. step H ln Hlast. step H full_name Hfull.
  assert (L2 : List.length full_name = n).
  { pose proof (getitem_length _ _ _ _ S1 Hfirst) as La.
    pose proof (getitem_length _ _ _ _ S1 Hlast) as Lb.
    pose proof (series_add_str_length _ _ _ Hsp) as Lc.
    rewrite (series_add_length _ _ _ Hfull); lia. }
  assert (S2 : shape n (setitem df1 "full_name" full_name))
    by now apply shape_setitem.
  set (df2 := setitem df1 "full_name" full_name) in *.
  step H phone Hphone. step H pc Hpc.
  assert (Lpc : List.length pc = n).
  { rewrite (phone_clean_of_length _ _ Hpc). eapply getitem_length; eauto. }
  assert (S3 : shape n (setitem df2 "phone_clean" pc)) by now apply shape_setitem.
  set (df3 := setitem df2 "phone_clean" pc) in *.
  step H full Hfull'.
  assert (Efull : full = full_name).
  { unfold df3 in Hfull'.
    rewrite (getitem_setitem_other n) in Hfull' by (try assumption; discriminate).
    unfold df2 in Hfull'. rewrite (getitem_setitem_same n) in Hfull' by assumption.
    now inversion Hfull'. }
  subst full.
  assert (L4 : List.length (astype_str object_ full_name) = n).
  { unfold astype_str. now rewrite length_map. }
  assert (S4 : shape n (setitem df3 "full_name" (astype_str object_ full_name)))
    by now apply shape_setitem.
  set (df4 := setitem df3 "full_name" (astype_str object_ full_name)) in *.
  step H df5 H5. destruct (cast_str_inv _ _ _ _ S4 H5) as (S5 & G5 & _).
  destruct (cast_str_column _ _ _ _ S4 H5) as (email & A5 & B5).
  step H df6 H6. destruct (cast_str_inv _ _ _ _ S5 H6) as (S6 & G6 & _).
  destruct (cast_str_column _ _ _ _ S5 H6) as (gender & A6 & B6).
  step H df7 H7. destruct (cast_str_inv _ _ _ _ S6 H7) as (S7 & G7 & _).
  destruct (cast_str_column _ _ _ _ S6 H7) as (job & A7 & B7).
  step H df8 H8. destruct (cast_str_inv _ _ _ _ S7 H8) as (S8 & G8 & _).
  destruct (cast_str_column _ _ _ _ S7 H8) as (dept & A8 & B8).
  step H df9 H9. destruct (cast_int_inv _ _ _ _ S8 H9) as (S9 & G9 & _).
  destruct (cast_int_column _ _ _ _ S8 H9) as (age & age' & A9 & C9 & B9).
  step H df10 H10. destruct (cast_int_inv _ _ _ _ S9 H10) as (S10 & G10 & _).
  destruct (cast_int_column _ _ _ _ S9 H10) as (yoe0 & yoe' & A10 & C10 & B10).
  step H df11 H11. destruct (cast_int_inv _ _ _ _ S10 H11) as (S11 & G11 & _).
  destruct (cast_int_column _ _ _ _ S10 H11) as (sal & sal' & A11 & C11 & B11).
  assert (raw1 : forall m, "designation" <> m -> getitem df1 m = getitem df m).
  { intros m Hm. unfold df1. now apply (getitem_setitem_other n). }
  assert (raw4 : forall m,
            ~ In m ["designation"; "full_name"; "phone_clean"] ->
            getitem df4 m = getitem df m).
  { intros m Hm. unfold df4, df3, df2.
    rewrite (getitem_setitem_other n) by (try assumption; simpl in Hm; tauto).
    rewrite (getitem_setitem_other n) by (try assumption; simpl in Hm; tauto).
    rewrite (getitem_setitem_other n) by (try assumption; simpl in Hm; tauto).
    apply raw1. simpl in Hm. tauto. }
  assert (out_of : forall name, In name output_columns ->
            getitem out name = getitem df11 name).
  { intros name Hin. now apply (getitem_getitem_list _ _ _ name H). }
  rewrite raw1 in Hfirst, Hlast by discriminate.
  assert (Hphone0 : getitem df "phone" = Ok phone).
  { rewrite <- Hphone. unfold df2.
    rewrite (getitem_setitem_other n) by (try assumption; discriminate).
    symmetry. apply raw1. discriminate. }
  rewrite raw4 in A5 by (simpl; intuition discriminate).
  rewrite G5, raw4 in A6 by (try discriminate; simpl; intuition discriminate).
  rewrite G6, G5, raw4 in A7 by (try discriminate; simpl; intuition discriminate).
  rewrite G7, G6, G5, raw4 in A8 by (try discriminate; simpl; intuition discriminate).
  rewrite G8, G7, G6, G5, raw4 in A9 by (try discriminate; simpl; intuition discriminate).
  rewrite G9, G8, G7, G6, G5, raw4 in A10
    by (try discriminate; simpl; intuition discriminate).
  rewrite G10, G9, G8, G7, G6, G5, raw4 in A11
    by (try discriminate; simpl; intuition discriminate).
  rewrite Hyoe in A10. inversion A10; subst yoe0.
  exists df, n, yoe, des, fn, sp, ln, full_name, phone, pc, email, gender, job, dept,
    age, age', yoe', sal, sal'.
  split; [assumption|]. split; [assumption|].
  split; [eapply getitem_list_shape; eauto|].
  split; [eapply getitem_list_rows; eauto|].
  split; [auto|]. split; [auto|]. split; [auto|]. split; [auto|]. split; [auto|].
  repeat split.
  - rewrite out_of by (simpl; tauto).
    rewrite G11, G10, G9, G8, G7, G6, G5 by discriminate.
    unfold df4. now apply (getitem_setitem_same n).
  - rewrite out_of by (simpl; tauto).
    rewrite G11, G10, G9, G8, G7, G6 by discriminate. exact B5.
  - rewrite out_of by (simpl; tauto).
    rewrite G11, G10, G9, G8, G7, G6, G5 by discriminate.
    unfold df4. rewrite (getitem_setitem_other n) by (try assumption; discriminate).
    unfold df3. now apply (getitem_setitem_same n).
  - rewrite out_of by (simpl; tauto).
    rewrite G11, G10, G9, G8, G7 by discriminate. exact B6.
  - rewrite out_of by (simpl; tauto).
    rewrite G11, G10 by discriminate. exact B9.
  - rewrite out_of by (simpl; tauto).
    rewrite G11, G10, G9, G8 by discriminate. exact B7.
  - rewrite out_of by (simpl; tauto).
    rewrite G11 by discriminate. exact B10.
  - rewrite out_of by (simpl; tauto). exact B11.
  - rewrite out_of by (simpl; tauto).
    rewrite G11, G10, G9 by discriminate. exact B8.
  - rewrite out_of by (simpl; tauto).
    rewrite G11, G10, G9, G8, G7, G6, G5 by discriminate.
    unfold df4, df3, df2.
    rewrite (getitem_setitem_other n) by (try assumption; discriminate).
    rewrite (getitem_setitem_other n) by (try assumption; discriminate).
    rewrite (getitem_setitem_other n) by (try assumption; discriminate).
    unfold df1. now apply (getitem_setitem_same n).
Qed.

(** * Rows of a normalised table *)







Lemma dtype_of_int64 col : dtype_of col = int64 -> forallb is_int col = true.
Proof.
  unfold dtype_of. destruct col as [|v col]; [discriminate|].
  destruct (forallb is_int (v :: col)); [reflexivity|].
  destruct (forallb _ (v :: col)); discriminate.
Qed.




Lemma NoDup_output_columns : NoDup output_columns.
Proof.
  unfold output_columns.
  repeat (constructor; [simpl; intuition discriminate|]). constructor.
Qed.



Lemma length_record_frame rs :
  List.length (values (from_columns (List.length rs)
     (map (fun k => (k, record_column rs k)) (record_keys rs)))) = List.length rs.
Proof. simpl. apply length_transpose. Qed.

(** X2.  A returned table has one row for each row of the frame built
    from the body; for an array of objects that is one row for each
    object of the array. *)
Theorem normalized_table_has_a_row_per_record (data : body) (out : DataFrame) :
  normalize data = Ok out ->
  (exists df, DataFrame_new data = Ok df
              /\ List.length (values out) = List.length (values df))
  /\ forall rs, data = JRecords rs -> List.length (values out) = List.length rs.
Proof.
  intros H.
  destruct (normalize_Ok_columns _ _ H) as (df & n & rest).
  destruct rest as (_ & _ & _ & _ & _ & _ & _ & _ & _ & _ & _ & _ & _ & _ & _ & _ & _
                    & Hdf & [_ S0] & [_ Sout] & _).
  split.
  - exists df. split; [assumption|congruence].
  - intros rs ->. cbn [DataFrame_new] in Hdf. inversion Hdf; subst df.
    rewrite Sout, <- S0. apply length_record_frame.
Qed.

Lemma normalized_table_has_a_row_per_record_witness :
  exists out,
    normalize (JRecords [employee (Some (JString "19715334552")); employee None])
      = Ok out
    /\ List.length (values out) = 2%nat.
Proof.
  eexists. split; [vm_compute; reflexivity|].
  refine (proj2 (normalized_table_has_a_row_per_record
                   (JRecords [employee (Some (JString "19715334552")); employee None])
                   _ _)
            [employee (Some (JString "19715334552")); employee None] eq_refl).
  vm_compute. reflexivity.
Defined.





Lemma astype_int_nth col col' i :
  astype_int col = Ok col' -> (i < List.length col)%nat ->
  py_int (nth i col PNaN) = Ok (nth i col' PNaN).
Proof.
  unfold astype_int. destruct (dtype_of col) eqn:E; try discriminate.
  - intros H Hi. exact (mapM_Ok_nth _ _ _ i PNaN PNaN H Hi).
  - intros H Hi; inversion H; subst col'.
    apply dtype_of_int64 in E. rewrite forallb_forall in E.
    specialize (E (nth i col PNaN) (nth_In _ _ Hi)).
    destruct (nth i col PNaN); try discriminate. reflexivity.
Qed.

(** The experience of a row that passes both the designation rule and
    the integer cast is an integer. *)
Lemma experience_is_int yoe des yoe' i :
  mapM get_designation_py yoe = Ok des -> astype_int yoe = Ok yoe' ->
  (i < List.length yoe)%nat ->
  exists z, nth i yoe PNaN = PInt z
            /\ nth i des "" = get_designation z
            /\ nth i yoe' PNaN = PInt z.
Proof.
  intros Hdes Hcast Hi.
  pose proof (mapM_Ok_nth _ _ _ i PNaN "" Hdes Hi) as D.
  pose proof (astype_int_nth _ _ i Hcast Hi) as C.
  destruct (nth i yoe PNaN) as [| | |z|s]; try discriminate.
  exists z. rewrite get_designation_py_int in D. simpl in C.
  inversion D. inversion C. auto.
Qed.





(** ** [int()] on a run of digits *)






Lemma py_int_missing v w : py_int v = Ok w -> is_missing v = false.
Proof. destruct v; simpl; try discriminate; reflexivity. Qed.

(** X7.  A missing age, salary or years of experience in any row (null
    or absent key), and years of experience that are not an integer
    (text, even the text of a numeral), abort the normalisation of the
    whole body: no table is returned, and the error is never a request
    error. *)
Theorem required_numbers_abort_the_fetch (data : body) (df : DataFrame)
    (name : string) (c : list pyval) (i : nat) :
  DataFrame_new data = Ok df ->
  In name required_numeric ->
  getitem df name = Ok c ->
  (i < List.length c)%nat ->
  is_missing (nth i c PNaN) = true
  \/ (name = "years_of_experience" /\ is_int (nth i c PNaN) = false) ->
  exists e, normalize data = Raise e /\ is_request_exception e = false.
Proof.
  intros Hdf Hin Hc Hi Hbad.
  destruct (normalize data) as [out|e] eqn:H.
  2:{ exists e. split; [reflexivity|]. now apply (normalize_quiet data). }
  exfalso.
  destruct (normalize_Ok_columns _ _ H)
    as (df' & n & yoe & des & fn & sp & ln & full & rest).
  destruct rest as (phone & pc & email & gender & job & dept & age & age' & yoe'
                    & sal & sal' & Hdf' & S0 & Sout & Hcols
                    & (Hyoe & Hdes & Hyoe') & _ & _ & _
                    & (Hage & Hage' & Hsal & Hsal') & _).
  rewrite Hdf in Hdf'. inversion Hdf'; subst df'.
  destruct Hbad as [Hm|[-> Hn]].
  - assert (Hcast : exists c', astype_int c = Ok c').
    { simpl in Hin. destruct Hin as [<-|[<-|[<-|[]]]].
      - rewrite Hc in Hage. inversion Hage; subst. eauto.
      - rewrite Hc in Hyoe. inversion Hyoe; subst. eauto.
      - rewrite Hc in Hsal. inversion Hsal; subst. eauto. }
    destruct Hcast as [c' Hcast].
    pose proof (astype_int_nth _ _ i Hcast Hi) as N.
    apply py_int_missing in N. congruence.
  - rewrite Hc in Hyoe. inversion Hyoe; subst yoe.
    destruct (experience_is_int _ _ _ i Hdes Hyoe' Hi) as (z & Hz & _).
    rewrite Hz in Hn. discriminate.
Qed.

Lemma required_numbers_abort_the_fetch_witness :
  exists e,
    normalize (JRecords [employee_with (Some (JString "19715334552")) JNull])
    = Raise e
    /\ is_request_exception e = false.
Proof.
  set (data := JRecords [employee_with (Some (JString "19715334552")) JNull]).
  assert (D : exists df, DataFrame_new data = Ok df
                         /\ getitem df "age" = Ok [PNone])
    by (eexists; split; vm_compute; reflexivity).
  destruct D as (df & D & A).
  apply (required_numbers_abort_the_fetch data df "age" [PNone] 0 D).
  - simpl. auto.
  - exact A.
  - simpl. lia.
  - left. reflexivity.
Defined.

(** * Bounds on a run *)

Lemma sum_powers a k :
  fold_right Z.add 0 (map (fun j => 2 ^ Z.of_nat j) (seq a k))
  = 2 ^ Z.of_nat (a + k) - 2 ^ Z.of_nat a.
Proof.
  revert a. induction k as [|k IH]; intros a; simpl.
  - rewrite Nat.add_0_r. lia.
  - rewrite IH. replace (a + S k)%nat with (S a + k)%nat by lia.
    replace (Z.of_nat (S a)) with (Z.of_nat a + 1) by lia.
    rewrite Z.pow_add_r by lia. lia.
Qed.

Section Bounds.
Variable net : string -> nat -> except body.
Variable url : string.
Variable n : Z.

Lemma attempts_bounds rem : forall a,
  Z.of_nat (a + rem) = n ->
  let tr := fst (attempts net url n a rem) in
  (requests_made tr <= rem)%nat
  /\ (1 <= rem -> 1 <= requests_made tr)%nat
  /\ sleeps tr = map (fun j => 2 ^ Z.of_nat j) (seq a (pred (requests_made tr))).
Proof.
  induction rem as [|rem IH]; intros a Hn; cbn [attempts].
  - simpl. repeat split; try lia; reflexivity.
  - destruct (data <- net url a;; normalize data) as [df|e].
    + simpl. change (requests_made [HttpGet url 10]) with 1%nat.
      repeat split; try lia; reflexivity.
    + destruct (is_request_exception e).
      * destruct (Z.eqb_spec (Z.of_nat a) (n - 1)) as [E|E].
        -- cbn [fst].
           change (requests_made [HttpGet url 10; Print (Z.of_nat a + 1) e]) with 1%nat.
           repeat split; try lia; reflexivity.
        -- specialize (IH (S a)). destruct (attempts net url n (S a) rem) as [tr out].
           cbn [fst] in *.
           destruct IH as (B1 & B2 & B3); [lia|].
           assert (R : (1 <= rem)%nat) by lia. specialize (B2 R).
           change (requests_made (HttpGet url 10 :: Print (Z.of_nat a + 1) e
                                    :: Sleep (2 ^ Z.of_nat a) :: tr))
             with (S (requests_made tr)).
           change (sleeps (HttpGet url 10 :: Print (Z.of_nat a + 1) e
                             :: Sleep (2 ^ Z.of_nat a) :: tr))
             with (2 ^ Z.of_nat a :: sleeps tr).
           repeat split; try lia.
           rewrite B3. destruct (requests_made tr) as [|m]; [lia|]. reflexivity.
      * simpl. change (requests_made [HttpGet url 10]) with 1%nat.
        repeat split; try lia; reflexivity.
Qed.
End Bounds.

(** X8.  Whatever the network does, a run with [max_retries >= 1] issues
    at least one request and at most [max_retries], sleeps once after
    each request but the last one it issued, for 1, 2, 4, ... time
    units, and so spends [2 ^ (m - 1) - 1] time units asleep when it
    issued [m] requests. *)
Theorem run_is_bounded (net : string -> nat -> except body) (url : string) (n : Z) :
  1 <= n ->
  let tr := fst (scrape_employees net url n) in
  let m := requests_made tr in
  (1 <= m)%nat
  /\ Z.of_nat m <= n
  /\ sleeps tr = map (fun j => 2 ^ Z.of_nat j) (seq O (pred m))
  /\ total_sleep tr = 2 ^ (Z.of_nat m - 1) - 1
  /\ total_sleep tr < 2 ^ (n - 1).
Proof.
  intros Hn tr m.
  destruct (attempts_bounds net url n (Z.to_nat n) O) as (B1 & B2 & B3);
    [simpl; lia|].
  fold (scrape_employees net url n) in B1, B2, B3. fold tr in B1, B2, B3.
  fold m in B1, B2, B3.
  assert (M1 : (1 <= m)%nat) by (apply B2; lia).
  assert (T : total_sleep tr = 2 ^ (Z.of_nat m - 1) - 1).
  { unfold total_sleep. rewrite B3, sum_powers. simpl.
    replace (Z.of_nat (pred m)) with (Z.of_nat m - 1) by lia. reflexivity. }
  repeat split; try assumption; try lia.
  rewrite T.
  assert (2 ^ (Z.of_nat m - 1) <= 2 ^ (n - 1)) by (apply Z.pow_le_mono_r; lia).
  lia.
Qed.

Lemma run_is_bounded_witness :
  requests_made (fst (scrape_employees (flaky sample_data) "http://source" 5)) = 3%nat
  /\ total_sleep (fst (scrape_employees (flaky sample_data) "http://source" 5)) = 3.
Proof.
  destruct (run_is_bounded (flaky sample_data) "http://source" 5) as (_ & _ & _ & T & _);
    [lia|].
  split; [vm_compute; reflexivity|]. rewrite T. vm_compute. reflexivity.
Defined.

(** X9.  With [max_retries <= 0] the loop body never runs: no request is
    made, nothing is printed, there is no sleep, and the function raises
    the [ValueError] of its last line. *)
Theorem no_attempt_raises_value_error (net : string -> nat -> except body)
    (url : string) (n : Z) :
  n <= 0 ->
  scrape_employees net url n
  = ([], Raise (ValueError "Failed to fetch data after retries")).
Proof.
  intros Hn. unfold scrape_employees.
  replace (Z.to_nat n) with O by lia. reflexivity.
Qed.

Lemma no_attempt_raises_value_error_witness :
  scrape_employees (steady sample_data) "http://source" 0
  = ([], Raise (ValueError "Failed to fetch data after retries")).
Proof. apply no_attempt_raises_value_error. lia. Defined.

Section Outcome.
Variable net : string -> nat -> except body.
Variable url : string.
Variable n : Z.

Lemma attempts_outcome rem : forall a,
  Z.of_nat (a + rem) = n ->
  (1 <= rem)%nat ->
  let r := attempts net url n a rem in
  let m := requests_made (fst r) in
  (1 <= m <= rem)%nat
  /\ (forall j, (j < pred m)%nat ->
        exists e, attempt_result net url (a + j) = Raise e
                  /\ is_request_exception e = true)
  /\ snd r = attempt_result net url (a + pred m)
  /\ (forall e, snd r = Raise e -> is_request_exception e = true -> m = rem).
Proof.
  induction rem as [|rem IH]; intros a Hn Hrem; [lia|]. cbn [attempts].
  fold (attempt_result net url a).
  destruct (attempt_result net url a) as [df|e] eqn:Ha.
  - cbn [fst snd]. change (requests_made [HttpGet url 10]) with 1%nat.
    cbn [pred]. rewrite Nat.add_0_r.
    split; [lia|]. split; [intros j Hj; lia|]. split; [now symmetry|discriminate].
  - destruct (is_request_exception e) eqn:He.
    + destruct (Z.eqb_spec (Z.of_nat a) (n - 1)) as [E|E].
      * cbn [fst snd].
        change (requests_made [HttpGet url 10; Print (Z.of_nat a + 1) e]) with 1%nat.
        cbn [pred]. rewrite Nat.add_0_r.
        split; [lia|]. split; [intros j Hj; lia|]. split; [now symmetry|].
        intros _ _ _. lia.
      * specialize (IH (S a)).
        destruct (attempts net url n (S a) rem) as [tr out]. cbn [fst snd] in *.
        destruct IH as ((M1 & M2) & P & Q & L); [lia|lia|].
        change (requests_made (HttpGet url 10 :: Print (Z.of_nat a + 1) e
                                 :: Sleep (2 ^ Z.of_nat a) :: tr))
          with (S (requests_made tr)).
        cbn [pred]. split; [lia|]. split; [|split].
        -- intros [|j] Hj.
           ++ rewrite Nat.add_0_r. exists e. now split.
           ++ destruct (P j) as (e' & P1 & P2); [lia|].
              exists e'. replace (a + S j)%nat with (S a + j)%nat by lia. now split.
        -- rewrite Q. f_equal. lia.
        -- intros e' O1 O2. f_equal. now apply (L e').
    + cbn [fst snd]. change (requests_made [HttpGet url 10]) with 1%nat.
      cbn [pred]. rewrite Nat.add_0_r.
      split; [lia|]. split; [intros j Hj; lia|]. split; [now symmetry|].
      intros e' O1 O2. inversion O1; subst e'. congruence.
Qed.
End Outcome.

(** X10.  The result of a run is the result of the last attempt it made:
    every earlier attempt raised a request error, a table that is
    returned is the normalised body of that last attempt, and a request
    error is only let through by attempt [max_retries]. *)
Theorem run_returns_its_last_attempt (net : string -> nat -> except body)
    (url : string) (n : Z) :
  1 <= n ->
  let tr := fst (scrape_employees net url n) in
  let out := snd (scrape_employees net url n) in
  let last := pred (requests_made tr) in
  (forall j, (j < last)%nat ->
     exists e, attempt_result net url j = Raise e /\ is_request_exception e = true)
  /\ out = attempt_result net url last
  /\ (forall e, out = Raise e -> is_request_exception e = true ->
        Z.of_nat (requests_made tr) = n)
  /\ (forall df, out = Ok df ->
        exists data, net url last = Ok data /\ normalize data = Ok df).
Proof.
  intros Hn tr out last.
  destruct (attempts_outcome net url n (Z.to_nat n) O) as (_ & P & Q & L);
    [simpl; lia|lia|].
  fold (scrape_employees net url n) in P, Q, L. fold tr in P, Q, L.
  fold out in Q, L. fold last in P, Q. cbn [Nat.add] in P, Q.
  split; [exact P|]. split; [exact Q|]. split.
  - intros e O1 O2. rewrite (L e O1 O2). lia.
  - intros df O1. rewrite Q in O1. unfold attempt_result in O1.
    destruct (net url last) as [data|e]; [|discriminate].
    exists data. split; [reflexivity|exact O1].
Qed.

Lemma run_returns_its_last_attempt_witness :
  exists data,
    flaky sample_data "http://source" 2%nat = Ok data
    /\ normalize data = snd (scrape_employees (flaky sample_data) "http://source" 5).
Proof.
  destruct (run_returns_its_last_attempt (flaky sample_data) "http://source" 5)
    as (_ & _ & _ & R); [lia|].
  destruct (snd (scrape_employees (flaky sample_data) "http://source" 5))
    as [df|e] eqn:E; [|vm_compute in E; discriminate].
  destruct (R df eq_refl) as (data & R1 & R2).
  exists data. split; [exact R1|exact R2].
Defined.

(** * Edges of the query *)

Lemma head_values_neg n df :
  n < 0 ->
  values (head n df)
  = firstn (List.length (values df) - Z.to_nat (- n)) (values df).
Proof.
  intros Hn. unfold head. cbn [values].
  destruct (Z.leb_spec 0 n); [lia|reflexivity].
Qed.

Lemma forallb_Permutation {A : Type} (f : A -> bool) (l l' : list A) :
  Permutation l l' -> forallb f l = forallb f l'.
Proof.
  induction 1; simpl; try congruence.
  - now rewrite !andb_assoc, (andb_comm (f y)).
Qed.

Lemma filter_ext_all {A : Type} (f g : A -> bool) (l : list A) :
  (forall x, f x = g x) -> filter f l = filter g l.
Proof. intros H. apply filter_ext_in. intros x _. apply H. Qed.

Lemma keeps_app df items more row :
  keeps df (items ++ more)%list row = keeps df items row && keeps df more row.
Proof. unfold keeps. apply forallb_app. Qed.

Lemma matched_no_projection df filters columns' :
  items_of columns' = [] ->
  matched df filters columns'
  = {| columns := columns df;
       values := filter (keeps df (items_of filters)) (values df) |}.
Proof.
  unfold matched. destruct columns' as [[|c cs]|]; simpl; intros H;
    try reflexivity; discriminate.
Qed.

Lemma index_of_middle c pre cs :
  ~ In c pre -> index_of c (pre ++ c :: cs)%list = Some (List.length pre).
Proof.
  induction pre as [|p pre IH]; simpl; intros H.
  - now rewrite String.eqb_refl.
  - destruct (String.eqb_spec p c) as [->|Hne]; [exfalso; auto|].
    rewrite IH by tauto. reflexivity.
Qed.

Lemma project_suffix df row cs : forall pre,
  columns df = (pre ++ cs)%list -> NoDup (pre ++ cs)%list ->
  project df cs row = map (fun i => cell i row) (seq (List.length pre) (List.length cs)).
Proof.
  unfold project. induction cs as [|c cs IH]; intros pre Hc Hn; [reflexivity|].
  cbn [flat_map List.length seq map]. unfold field at 1. rewrite Hc.
  rewrite index_of_middle by (apply NoDup_remove_2 in Hn; rewrite in_app_iff in Hn; tauto).
  cbn [app]. f_equal.
  specialize (IH (pre ++ [c])%list). rewrite <- app_assoc in IH. cbn [app] in IH.
  rewrite IH by assumption. rewrite length_app. simpl.
  now rewrite Nat.add_1_r.
Qed.

Lemma cells_of_row (row : list pyval) :
  map (fun i => cell i row) (seq O (List.length row)) = row.
Proof.
  unfold cell. induction row as [|x row IH]; [reflexivity|].
  cbn [List.length seq map nth]. f_equal.
  rewrite <- seq_shift, map_map. exact IH.
Qed.

Lemma filter_all_in {A : Type} (f : A -> bool) (l : list A) :
  (forall x, In x l -> f x = true) -> filter f l = l.
Proof.
  induction l as [|x l IH]; simpl; intros H; [reflexivity|].
  rewrite (H x) by auto. f_equal. apply IH. auto.
Qed.

Lemma known_all df : known df (columns df) = columns df.
Proof.
  unfold known. apply filter_all_in.
  intros n Hn. now apply has_column_In.
Qed.

(** X11.  With a negative limit the header and the text disagree: the
    header reports the limit itself as the number displayed, while the
    text holds the matches without their last [-rows] rows (none when
    there are not that many). *)
Theorem negative_limit_drops_the_tail (h : heap) (df_ref : ref) (rows : Z)
    (filters : option (list (string * value))) (columns' : option (list string)) :
  (df_ref < List.length h)%nat ->
  rows < 0 ->
  let result := matched (deref h df_ref) filters columns' in
  let M := List.length (values result) in
  exists rep h',
    dynamic_cli_query df_ref rows filters columns' h = Ok (rep, h')
    /\ displaying rep = rows
    /\ total rep = Z.of_nat M
    /\ values (printed rep) = firstn (M - Z.to_nat (- rows)) (values result)
    /\ Z.of_nat (List.length (values (printed rep))) = Z.max 0 (Z.of_nat M + rows).
Proof.
  intros Hr Hrows result M.
  destruct (dynamic_cli_query_spec df_ref rows filters columns' h Hr) as [extra Hq].
  eexists _, _. split; [exact Hq|]. unfold query_view. fold result.
  cbn [displaying total printed]. fold M.
  split; [lia|]. split; [reflexivity|].
  rewrite head_values_neg by assumption. fold M.
  split; [reflexivity|]. rewrite length_firstn. fold M. lia.
Qed.

Lemma negative_limit_drops_the_tail_witness :
  exists rep h',
    dynamic_cli_query O (-1) None None [staff] = Ok (rep, h')
    /\ displaying rep = -1
    /\ List.length (values (printed rep)) = 2%nat.
Proof.
  destruct (negative_limit_drops_the_tail [staff] O (-1) None None)
    as (rep & h' & Hq & Hd & _ & Hv & _).
  - simpl. lia.
  - lia.
  - exists rep, h'. split; [exact Hq|]. split; [exact Hd|]. rewrite Hv. reflexivity.
Defined.

(** X12.  The order in which the filter mapping lists its fields does
    not matter: two mappings with the same entries give the same report. *)
Theorem filter_order_is_irrelevant (h : heap) (df_ref : ref) (rows : Z)
    (items items' : list (string * value)) (columns' : option (list string)) :
  (df_ref < List.length h)%nat ->
  Permutation items items' ->
  exists rep h1 h2,
    dynamic_cli_query df_ref rows (Some items) columns' h = Ok (rep, h1)
    /\ dynamic_cli_query df_ref rows (Some items') columns' h = Ok (rep, h2).
Proof.
  intros Hr Hp.
  destruct (dynamic_cli_query_spec df_ref rows (Some items) columns' h Hr) as [e1 H1].
  destruct (dynamic_cli_query_spec df_ref rows (Some items') columns' h Hr) as [e2 H2].
  eexists _, _, _. split; [exact H1|]. rewrite H2. do 2 f_equal.
  unfold query_view, matched. cbn [items_of].
  rewrite (filter_ext_all (keeps (deref h df_ref) items') (keeps (deref h df_ref) items));
    [reflexivity|].
  intros row. unfold keeps. symmetry. now apply forallb_Permutation.
Qed.

Lemma filter_order_is_irrelevant_witness :
  exists rep h1 h2,
    dynamic_cli_query O 5 (Some [("gender", VStr "male"); ("department", VStr "Product")])
      None [staff] = Ok (rep, h1)
    /\ dynamic_cli_query O 5 (Some [("department", VStr "Product"); ("gender", VStr "male")])
         None [staff] = Ok (rep, h2).
Proof.
  apply filter_order_is_irrelevant.
  - simpl. lia.
  - apply perm_swap.
Defined.

(** X13.  More filters match fewer rows: with further entries in the
    mapping the count of matches cannot grow, and without a projection
    or a truncation the rows printed are those of the shorter mapping
    that also pass the further entries, in the same order. *)
Theorem more_filters_match_fewer_rows (h : heap) (df_ref : ref) (rows : Z)
    (items more : list (string * value)) (columns' : option (list string)) :
  (df_ref < List.length h)%nat ->
  let df := deref h df_ref in
  exists rep1 rep2 h1 h2,
    dynamic_cli_query df_ref rows (Some items) columns' h = Ok (rep1, h1)
    /\ dynamic_cli_query df_ref rows (Some (items ++ more)%list) columns' h = Ok (rep2, h2)
    /\ total rep2 <= total rep1
    /\ (items_of columns' = [] -> total rep1 <= rows ->
        values (printed rep2) = filter (keeps df more) (values (printed rep1))).
Proof.
  intros Hr df.
  destruct (dynamic_cli_query_spec df_ref rows (Some items) columns' h Hr) as [e1 H1].
  destruct (dynamic_cli_query_spec df_ref rows (Some (items ++ more)%list) columns' h Hr)
    as [e2 H2].
  eexists _, _, _, _. split; [exact H1|]. split; [exact H2|]. fold df.
  unfold query_view. cbn [total printed]. rewrite !matched_length. cbn [items_of].
  assert (F : filter (keeps df (items ++ more)%list) (values df)
              = filter (keeps df more) (filter (keeps df items) (values df))).
  { rewrite filter_filter. apply filter_ext_all. intros row. apply keeps_app. }
  assert (L : (List.length (filter (keeps df (items ++ more)%list) (values df))
               <= List.length (filter (keeps df items) (values df)))%nat).
  { rewrite F. apply filter_length_le. }
  split; [lia|]. intros Hc Hrows.
  assert (R : 0 <= rows) by lia.
  rewrite !head_values_nonneg by assumption.
  rewrite !matched_no_projection by assumption. cbn [values items_of].
  rewrite !firstn_all2 by lia. exact F.
Qed.

Lemma more_filters_match_fewer_rows_witness :
  exists rep1 rep2 h1 h2,
    dynamic_cli_query O 5 (Some [("department", VStr "Product")]) None [staff]
    = Ok (rep1, h1)
    /\ dynamic_cli_query O 5
         (Some [("department", VStr "Product"); ("gender", VStr "female")]) None [staff]
       = Ok (rep2, h2)
    /\ values (printed rep2)
       = filter (keeps staff [("gender", VStr "female")]) (values (printed rep1)).
Proof.
  destruct (more_filters_match_fewer_rows [staff] O 5 [("department", VStr "Product")]
              [("gender", VStr "female")] None)
    as (rep1 & rep2 & h1 & h2 & Q1 & Q2 & _ & V).
  - simpl. lia.
  - exists rep1, rep2, h1, h2. split; [exact Q1|]. split; [exact Q2|].
    apply V; [reflexivity|].
    vm_compute in Q1. inversion Q1; subst rep1. vm_compute. discriminate.
Defined.

(** X14.  A query with no filter and no projection (absent or empty)
    and a limit of at least the number of rows prints the table as it
    is, and reports every row as displayed. *)
Theorem plain_query_prints_the_table (h : heap) (df_ref : ref) (rows : Z)
    (filters : option (list (string * value))) (columns' : option (list string)) :
  (df_ref < List.length h)%nat ->
  items_of filters = [] ->
  items_of columns' = [] ->
  Z.of_nat (List.length (values (deref h df_ref))) <= rows ->
  exists rep h',
    dynamic_cli_query df_ref rows filters columns' h = Ok (rep, h')
    /\ printed rep = deref h df_ref
    /\ displaying rep = total rep
    /\ total rep = Z.of_nat (List.length (values (deref h df_ref))).
Proof.
  intros Hr Hf Hc Hrows.
  destruct (dynamic_cli_query_spec df_ref rows filters columns' h Hr) as [extra Hq].
  eexists _, _. split; [exact Hq|]. unfold query_view.
  cbn [printed displaying total].
  rewrite matched_no_projection by assumption. rewrite Hf. cbn [values keeps forallb].
  rewrite filter_all by reflexivity.
  split; [|split; [lia|reflexivity]].
  unfold head. cbn [columns values].
  destruct (Z.leb_spec 0 rows); [|lia].
  rewrite firstn_all2 by lia. apply frame_eta.
Qed.

Lemma plain_query_prints_the_table_witness :
  exists rep h',
    dynamic_cli_query O 3 (Some []) None [staff] = Ok (rep, h')
    /\ printed rep = staff.
Proof.
  destruct (plain_query_prints_the_table [staff] O 3 (Some []) None)
    as (rep & h' & Hq & Hp & _).
  - simpl. lia.
  - reflexivity.
  - reflexivity.
  - simpl. lia.
  - exists rep, h'. split; [exact Hq|exact Hp].
Defined.

(** X15.  Asking for every column of the table, in the table's order,
    changes nothing: on a rectangular table with distinct labels the
    report is the one of the same query without a projection. *)
Theorem all_columns_is_no_projection (h : heap) (df_ref : ref) (rows : Z)
    (filters : option (list (string * value))) :
  (df_ref < List.length h)%nat ->
  let df := deref h df_ref in
  rectangular df ->
  NoDup (columns df) ->
  exists rep h1 h2,
    dynamic_cli_query df_ref rows filters (Some (columns df)) h = Ok (rep, h1)
    /\ dynamic_cli_query df_ref rows filters None h = Ok (rep, h2).
Proof.
  intros Hr df Hrect Hnd.
  destruct (dynamic_cli_query_spec df_ref rows filters (Some (columns df)) h Hr)
    as [e1 H1].
  destruct (dynamic_cli_query_spec df_ref rows filters None h Hr) as [e2 H2].
  eexists _, _, _. split; [exact H1|]. rewrite H2. do 2 f_equal. fold df.
  assert (P : forall row, In row (values df) -> project df (columns df) row = row).
  { intros row Hrow.
    rewrite (project_suffix df row (columns df) []) by (simpl; auto).
    unfold rectangular in Hrect. rewrite Forall_forall in Hrect.
    cbn [List.length]. rewrite <- (Hrect row Hrow). apply cells_of_row. }
  assert (M : matched df filters (Some (columns df)) = matched df filters None).
  { unfold matched. rewrite known_all.
    destruct (columns df) as [|c cs]; [reflexivity|]. f_equal.
    erewrite map_ext_in; [apply map_id|].
    intros row Hrow. apply filter_In in Hrow. destruct Hrow as [Hrow _].
    now apply P. }
  unfold query_view. now rewrite M.
Qed.

Lemma all_columns_is_no_projection_witness :
  exists rep h1 h2,
    dynamic_cli_query O 2 None (Some output_columns) [staff] = Ok (rep, h1)
    /\ dynamic_cli_query O 2 None None [staff] = Ok (rep, h2).
Proof.
  apply (all_columns_is_no_projection [staff] O 2 None).
  - simpl. lia.
  - repeat constructor.
  - apply NoDup_output_columns.
Defined.

(** * The main block *)

Lemma scrape_Ok_normalize net url n df :
  snd (scrape_employees net url n) = Ok df ->
  exists data, normalize data = Ok df.
Proof.
  intros H. destruct (Z_lt_le_dec 0 n) as [Hn|Hn].
  - destruct (attempts_outcome net url n (Z.to_nat n) O) as (_ & _ & Q & _);
      [simpl; lia|lia|].
    fold (scrape_employees net url n) in Q. rewrite H in Q.
    unfold attempt_result in Q.
    destruct (net url _) as [data|e]; [|discriminate]. exists data. now symmetry.
  - unfold scrape_employees in H. replace (Z.to_nat n) with O in H by lia.
    discriminate.
Qed.

Lemma normalize_columns data df : normalize data = Ok df -> columns df = output_columns.
Proof.
  intros H. destruct (normalize_Ok_columns _ _ H)
    as (? & ? & ? & ? & ? & ? & ? & ? & ? & ? & ? & ? & ? & ? & ? & ? & ? & ? & ?
        & _ & _ & _ & Hc & _).
  exact Hc.
Qed.

Lemma In_firstn_inv {A : Type} (k : nat) (l : list A) x : In x (firstn k l) -> In x l.
Proof.
  revert l. induction k as [|k IH]; intros [|y l]; simpl; try tauto.
  intros [H|H]; [now left|right; now apply IH].
Qed.

Lemma In_head n df row : In row (values (head n df)) -> In row (values df).
Proof.
  unfold head. cbn [values]. destruct (0 <=? n); intros H;
    eapply In_firstn_inv; exact H.
Qed.

Lemma filter_entry_In col arg c v :
  In (c, v) (filter_entry col arg) ->
  c = col /\ exists s, arg = Some s /\ s <> "" /\ v = VStr s.
Proof.
  unfold filter_entry. destruct arg as [s|]; [|intros []].
  destruct (String.eqb_spec s ""); [intros []|].
  intros [H|[]]. inversion H; subst. split; [reflexivity|]. now exists s.
Qed.

(** X16.  The program fetches with at most three requests and at most
    three time units asleep.  When the fetch raises, the error ends the
    program and nothing is written, shown or printed.  When it returns,
    the table (with its ten columns) is first written to
    [employees_normalized.csv], whatever the flags; then either the
    dashboard is handed the same table, or one report is printed and the
    program ends normally. *)
Theorem main_writes_what_it_fetched (net : string -> nat -> except body)
    (ui : DataFrame -> except unit) (args : Args) :
  let r := main net ui args in
  let tr := fst (scrape_employees net main_url 3) in
  fetch_trace r = tr
  /\ (requests_made tr <= 3)%nat
  /\ total_sleep tr <= 3
  /\ match snd (scrape_employees net main_url 3) with
     | Raise e => outputs r = [] /\ outcome r = Raise e
     | Ok df =>
         columns df = output_columns
         /\ exists rest,
              outputs r = ToCsv "employees_normalized.csv" df :: rest
              /\ (if args_ui args then rest = [Ui df] /\ outcome r = ui df
                  else outcome r = Ok tt /\ exists rep, rest = [Printed rep])
     end.
Proof.
  intros r tr.
  assert (B : (requests_made tr <= 3)%nat /\ total_sleep tr <= 3).
  { destruct (attempts_bounds net main_url 3 (Z.to_nat 3) O eq_refl) as (B1 & B2 & B3).
    fold (scrape_employees net main_url 3) in B1, B2, B3. fold tr in B1, B2, B3.
    split; [exact B1|].
    unfold total_sleep. rewrite B3, sum_powers.
    assert (M : (1 <= requests_made tr)%nat) by (apply B2; simpl; lia).
    change (Z.to_nat 3) with 3%nat in B1.
    destruct (requests_made tr) as [|[|[|[|m]]]]; try lia; vm_compute; discriminate. }
  destruct B as [B1 B2].
  assert (N : forall df, snd (scrape_employees net main_url 3) = Ok df ->
                columns df = output_columns).
  { intros df E. destruct (scrape_Ok_normalize _ _ _ _ E) as [data Hd].
    eapply normalize_columns; eassumption. }
  subst r tr. unfold main. revert B1 B2 N.
  destruct (scrape_employees net main_url 3) as [tr fetched]. cbn [fst snd].
  intros B1 B2 N.
  destruct fetched as [df|e].
  - specialize (N df eq_refl).
    destruct (args_ui args) eqn:U.
    + cbn [fetch_trace outputs outcome].
      split; [reflexivity|]. split; [exact B1|]. split; [exact B2|].
      split; [exact N|]. eexists. split; [reflexivity|]. now split.
    + destruct (dynamic_cli_query_spec O
                  (if args_all args then Z.of_nat (List.length (values df))
                   else args_rows args)
                  (Some (build_filters args)) (args_columns args) [df])
        as [extra Hq]; [simpl; lia|].
      rewrite Hq. cbn [fetch_trace outputs outcome].
      split; [reflexivity|]. split; [exact B1|]. split; [exact B2|].
      split; [exact N|]. eexists. split; [reflexivity|].
      split; [reflexivity|]. eauto.
  - cbn [fetch_trace outputs outcome]. repeat split; assumption.
Qed.

(** X17.  With [--all] and no [--ui] the program prints every row that
    passes the filters of the command line, whatever [--rows] says, and
    the header reports all of them as displayed. *)
Theorem all_flag_prints_every_match (net : string -> nat -> except body)
    (ui : DataFrame -> except unit) (args : Args) (df : DataFrame) :
  snd (scrape_employees net main_url 3) = Ok df ->
  args_ui args = false ->
  args_all args = true ->
  exists rep,
    outputs (main net ui args) = [ToCsv "employees_normalized.csv" df; Printed rep]
    /\ printed rep = matched df (Some (build_filters args)) (args_columns args)
    /\ displaying rep = total rep
    /\ total rep
       = Z.of_nat (List.length (filter (keeps df (build_filters args)) (values df))).
Proof.
  intros E U A. unfold main.
  destruct (scrape_employees net main_url 3) as [tr fetched]. cbn [snd] in E.
  subst fetched. rewrite U, A.
  destruct (dynamic_cli_query_spec O (Z.of_nat (List.length (values df)))
              (Some (build_filters args)) (args_columns args) [df])
    as [extra Hq]; [simpl; lia|].
  rewrite Hq. cbn [outputs deref nth] in *.
  eexists. split; [reflexivity|].
  unfold query_view. cbn [printed displaying total].
  pose proof (matched_length df (Some (build_filters args)) (args_columns args)) as L.
  cbn [items_of] in L.
  pose proof (filter_length_le (keeps df (build_filters args)) (values df)) as F.
  split; [|split; [lia|now rewrite L]].
  unfold head. destruct (Z.leb_spec 0 (Z.of_nat (List.length (values df)))); [|lia].
  rewrite firstn_all2 by lia. apply frame_eta.
Qed.

Lemma all_flag_prints_every_match_witness :
  exists df rep,
    snd (scrape_employees (steady sample_data) main_url 3) = Ok df
    /\ outputs (main (steady sample_data) (fun _ => Ok tt) all_males)
       = [ToCsv "employees_normalized.csv" df; Printed rep]
    /\ displaying rep = total rep.
Proof.
  destruct (snd (scrape_employees (steady sample_data) main_url 3)) as [df|e] eqn:E;
    [|vm_compute in E; discriminate].
  destruct (all_flag_prints_every_match (steady sample_data) (fun _ => Ok tt)
              all_males df E eq_refl eq_refl) as (rep & O1 & _ & O2 & _).
  exists df, rep. split; [reflexivity|]. split; [exact O1|exact O2].
Defined.

(** X18.  Without [--ui] every row the program prints in full is a row
    of the fetched table, and for each of [--department],
    [--designation] and [--gender] given with a non-empty text the row
    stores exactly that text under the column of that name. *)
Theorem cli_filters_select_by_text (net : string -> nat -> except body)
    (ui : DataFrame -> except unit) (args : Args) (df : DataFrame) :
  snd (scrape_employees net main_url 3) = Ok df ->
  args_ui args = false ->
  args_columns args = None ->
  exists rep,
    outputs (main net ui args) = [ToCsv "employees_normalized.csv" df; Printed rep]
    /\ forall row, In row (values (printed rep)) ->
         In row (values df)
         /\ (forall s, args_department args = Some s -> s <> "" ->
               field df "department" row = Some (PStr s))
         /\ (forall s, args_designation args = Some s -> s <> "" ->
               field df "designation" row = Some (PStr s))
         /\ (forall s, args_gender args = Some s -> s <> "" ->
               field df "gender" row = Some (PStr s)).
Proof.
  intros E U C.
  destruct (scrape_Ok_normalize _ _ _ _ E) as [data Hd].
  pose proof (normalize_columns _ _ Hd) as Hc.
  unfold main.
  destruct (scrape_employees net main_url 3) as [tr fetched]. cbn [snd] in E.
  subst fetched. rewrite U, C.
  set (rows_to_show := if args_all args then _ else _).
  destruct (dynamic_cli_query_spec O rows_to_show (Some (build_filters args)) None [df])
    as [extra Hq]; [simpl; lia|].
  rewrite Hq. cbn [outputs deref nth] in *.
  eexists. split; [reflexivity|].
  unfold query_view. cbn [printed]. intros row Hrow.
  apply In_head in Hrow. unfold matched in Hrow. cbn [values items_of] in Hrow.
  apply filter_In in Hrow. destruct Hrow as [Hin Hk].
  apply keeps_satisfies in Hk.
  assert (K : forall col s, In (col, VStr s) (build_filters args) ->
                In col output_columns -> field df col row = Some (PStr s)).
  { intros col s Hi Ho. unfold field. rewrite Hc.
    destruct (index_of_In col output_columns Ho) as [i Hi'].
    pose proof (Hk col (VStr s) (cell i row) Hi) as P.
    unfold field in P. rewrite Hc, Hi' in P. rewrite Hi'.
    now rewrite (P eq_refl). }
  split; [exact Hin|]. unfold build_filters in K.
  split; [|split]; intros s Hs Hne.
  - apply K; [|simpl; tauto]. rewrite Hs. unfold filter_entry.
    destruct (String.eqb_spec s ""); [contradiction|]. simpl. auto.
  - apply K; [|simpl; tauto]. rewrite Hs. unfold filter_entry at 2.
    destruct (String.eqb_spec s ""); [contradiction|].
    rewrite !in_app_iff. simpl. auto.
  - apply K; [|simpl; tauto]. rewrite Hs. unfold filter_entry at 3.
    destruct (String.eqb_spec s ""); [contradiction|].
    rewrite !in_app_iff. simpl. auto.
Qed.

Lemma cli_filters_select_by_text_witness :
  exists df rep,
    snd (scrape_employees (steady sample_data) main_url 3) = Ok df
    /\ outputs (main (steady sample_data) (fun _ => Ok tt) all_males)
       = [ToCsv "employees_normalized.csv" df; Printed rep]
    /\ forall row, In row (values (printed rep)) ->
         field df "gender" row = Some (PStr "male").
Proof.
  destruct (snd (scrape_employees (steady sample_data) main_url 3)) as [df|e] eqn:E;
    [|vm_compute in E; discriminate].
  destruct (cli_filters_select_by_text (steady sample_data) (fun _ => Ok tt)
              all_males df E eq_refl eq_refl) as (rep & O1 & O2).
  exists df, rep. split; [reflexivity|]. split; [exact O1|].
  intros row Hrow. destruct (O2 row Hrow) as (_ & _ & _ & G).
  apply G; [reflexivity|discriminate].
Defined.

(** * The filters of the dashboard *)

Lemma pyval_eqb_refl a : pyval_eqb a a = true.
Proof.
  destruct a; simpl; try reflexivity; [apply Z.eqb_refl|apply String.eqb_refl].
Qed.

Lemma pyval_eqb_eq a b : pyval_eqb a b = true -> a = b.
Proof.
  destruct a, b; simpl; try discriminate; try reflexivity; intros H.
  - apply Z.eqb_eq in H. now subst.
  - apply String.eqb_eq in H. now subst.
Qed.

Lemma member_of_In sel x : member_of sel x = true <-> In x sel.
Proof.
  unfold member_of. rewrite existsb_exists. split.
  - intros (y & Hy & E). apply pyval_eqb_eq in E. now subst.
  - intros H. exists x. split; [assumption|apply pyval_eqb_refl].
Qed.

Lemma unique_from_covers l : forall seen x,
  In x l -> In x seen \/ In x (unique_from seen l).
Proof.
  induction l as [|y l IH]; intros seen x H; [destruct H|]. cbn [unique_from].
  destruct (member_of seen y) eqn:M.
  - destruct H as [->|H]; [left; now apply member_of_In|now apply IH].
  - destruct H as [->|H]; [right; now left|].
    destruct (IH (y :: seen) x H) as [[->|K]|K]; [right; now left|now left|right; now right].
Qed.

Lemma unique_covers l x : In x l -> member_of (unique l) x = true.
Proof.
  intros H. apply member_of_In.
  destruct (unique_from_covers l [] x H) as [[]|K]. exact K.
Qed.

Lemma mask_and_map {A : Type} (f g : A -> bool) (l : list A) :
  mask_and (map f l) (map g l) = map (fun x => f x && g x) l.
Proof. induction l as [|x l IH]; simpl; [reflexivity|now rewrite IH]. Qed.

Lemma launch_pygwalker_ui_spec multiselect df department designation gender :
  getitem df "department" = Ok department ->
  getitem df "designation" = Ok designation ->
  getitem df "gender" = Ok gender ->
  let departments := multiselect "Department" (unique department) (unique department) in
  let designations := multiselect "Designation" (unique designation) (unique designation) in
  let genders := multiselect "Gender" (unique gender) (unique gender) in
  let kept := filter (chosen df departments designations genders) (values df) in
  launch_pygwalker_ui true multiselect df
  = Ok (Some ({| columns := columns df; values := kept |},
              Z.of_nat (List.length kept))).
Proof.
  intros H1 H2 H3 departments designations genders kept.
  unfold launch_pygwalker_ui. cbn [negb]. rewrite H1, H2, H3. cbn [bind].
  fold departments designations genders.
  unfold getitem in H1, H2, H3.
  destruct (index_of "department" (columns df)) as [i|] eqn:E1; [|discriminate].
  destruct (index_of "designation" (columns df)) as [j|] eqn:E2; [|discriminate].
  destruct (index_of "gender" (columns df)) as [k|] eqn:E3; [|discriminate].
  inversion H1; inversion H2; inversion H3. unfold isin. rewrite !map_map.
  rewrite !mask_and_map, select_eq.
  assert (F : filter (fun x => member_of departments (cell i x)
                               && member_of designations (cell j x)
                               && member_of genders (cell k x)) (values df) = kept).
  { unfold kept. apply filter_ext_all. intros row. unfold chosen, field.
    now rewrite E1, E2, E3. }
  cbn [values]. now rewrite F.
Qed.

(** X19.  Whatever is selected in the sidebar, with the three columns
    in the table the dashboard keeps the columns, and keeps exactly the
    rows whose department, designation and gender are each among the
    values selected for them, in the order of the table; the number it
    shows as "Total Employees" is the number of those rows, at most the
    number of rows of the table. *)
Theorem dashboard_keeps_the_selected_rows
    (multiselect : string -> list pyval -> list pyval -> list pyval)
    (df : DataFrame) (department designation gender : list pyval) :
  getitem df "department" = Ok department ->
  getitem df "designation" = Ok designation ->
  getitem df "gender" = Ok gender ->
  let departments := multiselect "Department" (unique department) (unique department) in
  let designations := multiselect "Designation" (unique designation) (unique designation) in
  let genders := multiselect "Gender" (unique gender) (unique gender) in
  exists filtered_df count,
    launch_pygwalker_ui true multiselect df = Ok (Some (filtered_df, count))
    /\ columns filtered_df = columns df
    /\ values filtered_df
       = filter (chosen df departments designations genders) (values df)
    /\ count = Z.of_nat (List.length (values filtered_df))
    /\ count <= Z.of_nat (List.length (values df)).
Proof.
  intros H1 H2 H3 departments designations genders.
  eexists _, _. split; [exact (launch_pygwalker_ui_spec multiselect df _ _ _ H1 H2 H3)|].
  cbn [columns values]. fold departments designations genders.
  repeat split.
  pose proof (filter_length_le (chosen df departments designations genders) (values df)).
  lia.
Qed.

Lemma dashboard_keeps_the_selected_rows_witness :
  exists filtered_df,
    launch_pygwalker_ui true (only_gender "female") staff = Ok (Some (filtered_df, 1))
    /\ columns filtered_df = columns staff.
Proof.
  assert (G : forall c, In c ["department"; "designation"; "gender"] ->
                exists col, getitem staff c = Ok col).
  { intros c [<-|[<-|[<-|[]]]]; eexists; vm_compute; reflexivity. }
  destruct (G "department") as [c1 H1]; [simpl; tauto|].
  destruct (G "designation") as [c2 H2]; [simpl; tauto|].
  destruct (G "gender") as [c3 H3]; [simpl; tauto|].
  destruct (dashboard_keeps_the_selected_rows (only_gender "female") staff c1 c2 c3
              H1 H2 H3)
    as (f & count & L & C & _).
  exists f. split; [|exact C].
  rewrite L. vm_compute in L. inversion L. reflexivity.
Defined.

(** X20.  As the dashboard comes up, with every value of each column
    selected, nothing is filtered out: the table shown is the table
    given, and "Total Employees" is its number of rows. *)
Theorem dashboard_starts_with_every_row
    (multiselect : string -> list pyval -> list pyval -> list pyval)
    (df : DataFrame) :
  (forall label options, multiselect label options options = options) ->
  has_column df "department" = true ->
  has_column df "designation" = true ->
  has_column df "gender" = true ->
  launch_pygwalker_ui true multiselect df
  = Ok (Some (df, Z.of_nat (List.length (values df)))).
Proof.
  intros Hm C1 C2 C3. unfold has_column in C1, C2, C3.
  destruct (index_of "department" (columns df)) as [i|] eqn:E1; [|discriminate].
  destruct (index_of "designation" (columns df)) as [j|] eqn:E2; [|discriminate].
  destruct (index_of "gender" (columns df)) as [k|] eqn:E3; [|discriminate].
  rewrite (launch_pygwalker_ui_spec multiselect df
             (map (cell i) (values df)) (map (cell j) (values df))
             (map (cell k) (values df)))
    by (unfold getitem; rewrite ?E1, ?E2, ?E3; reflexivity).
  rewrite !Hm.
  rewrite filter_all_in.
  - now rewrite frame_eta.
  - intros row Hrow. unfold chosen, field. rewrite E1, E2, E3.
    rewrite !unique_covers; [reflexivity| | |]; now apply in_map.
Qed.

Lemma dashboard_starts_with_every_row_witness :
  launch_pygwalker_ui true untouched staff = Ok (Some (staff, 3)).
Proof.
  apply (dashboard_starts_with_every_row untouched staff); reflexivity.
Defined.
